(** * Backup and restore of an identity-platform account: catalog, ID mapping,
      backup passes and restore passes.

    The development embeds [backup_config.go] (the resource catalog and the
    parameter-flag table), [backup.go] (the backup passes), [restore.go] (the
    ID mapping store, the restore passes and the custom restorers) and
    [PrepareOktaCliArgs] of [main.go].

    Everything outside the program (the file system, the [okta-cli-client]
    process, [encoding/json], [path/filepath]) is an [Env] of oracles.  An
    oracle that can change over a run takes the history of the events the
    program has produced so far, so the model covers every deterministic
    environment; the program itself is written in a small monad that reads
    the history and emits events. *)

From stdpp Require Import gmap strings list pretty.
From Stdlib Require Import Ascii.
From Stdlib Require String.

(** ** Go's [strings] functions used by the program *)

Module strings.

(** [strings.HasSuffix]: [len(s) >= len(suffix) && s[len(s)-len(suffix):] == suffix]. *)
Definition HasSuffix (s suffix : string) : bool :=
  (String.length suffix <=? String.length s)%nat
  && String.eqb
       (String.substring (String.length s - String.length suffix)
                  (String.length suffix) s)
       suffix.

(** [strings.TrimSuffix]: [s] without the trailing [suffix], or [s] itself. *)
Definition TrimSuffix (s suffix : string) : string :=
  if HasSuffix s suffix
  then String.substring 0 (String.length s - String.length suffix) s
  else s.

(** [strings.ToLower] on ASCII letters (every name of the catalog is ASCII). *)
Definition lowerAscii (c : ascii) : ascii :=
  let n := nat_of_ascii c in
  if ((65 <=? n) && (n <=? 90))%nat then ascii_of_nat (n + 32) else c.

Fixpoint ToLower (s : string) : string :=
  match s with
  | EmptyString => EmptyString
  | String c s' => String (lowerAscii c) (ToLower s')
  end.

(** [strings.HasPrefix]: [len(s) >= len(prefix) && s[:len(prefix)] == prefix]. *)
Definition HasPrefix (s prefix : string) : bool :=
  (String.length prefix <=? String.length s)%nat
  && String.eqb (String.substring 0 (String.length prefix) s) prefix.

(** [strings.TrimPrefix]: [s] without the leading [prefix], or [s] itself. *)
Definition TrimPrefix (s prefix : string) : string :=
  if HasPrefix s prefix
  then String.substring (String.length prefix)
                        (String.length s - String.length prefix) s
  else s.

End strings.

(** ** Data model *)

(** [BackupConfigResource] of [backup_config.go]. *)
Record BackupConfigResource := {
  Name : string;
  ListCommand : string;
  GetCommand : string;
  RequiresIDs : bool;
  SourceIDDir : string;
  IsSingleton : bool;
}.

Record BackupConfig := {
  FirstPassResources : list BackupConfigResource;
  SecondPassResources : list BackupConfigResource;
  SingletonResources : list BackupConfigResource;
}.

(** The three literal shapes used by [GetBackupConfig]; a field that a Go
    literal leaves out is the zero value. *)
Definition firstPass (name listCommand getCommand : string) : BackupConfigResource :=
  {| Name := name; ListCommand := listCommand; GetCommand := getCommand;
     RequiresIDs := false; SourceIDDir := ""; IsSingleton := false |}.

Definition secondPass (name listCommand sourceIDDir : string) : BackupConfigResource :=
  {| Name := name; ListCommand := listCommand; GetCommand := "";
     RequiresIDs := true; SourceIDDir := sourceIDDir; IsSingleton := false |}.

Definition singleton (name getCommand : string) : BackupConfigResource :=
  {| Name := name; ListCommand := ""; GetCommand := getCommand;
     RequiresIDs := false; SourceIDDir := ""; IsSingleton := true |}.

(** [GetBackupConfig]: the hardcoded catalog (entries commented out in the
    source are absent here as well). *)
Definition GetBackupConfig : BackupConfig := {|
  FirstPassResources := [
    firstPass "user" "lists" "get";
    firstPass "group" "lists" "get";
    firstPass "userType" "lists" "get";
    firstPass "application" "lists" "get";
    firstPass "authorizationServer" "lists" "get";
    firstPass "identityProvider" "lists" "get";
    firstPass "networkZone" "lists" "get";
    firstPass "trustedOrigin" "lists" "get";
    firstPass "apiToken" "lists" "get";
    firstPass "customDomain" "lists" "get";
    firstPass "customization" "listBrands" "";
    firstPass "eventHook" "lists" "get";
    firstPass "inlineHook" "lists" "get";
    firstPass "hookKey" "lists" "get";
    firstPass "role" "lists" "get";
    firstPass "feature" "lists" "get";
    firstPass "emailDomain" "lists" "get";
    firstPass "template" "listSmss" "getSms"
  ];
  SecondPassResources := [
    secondPass "group" "listUsers" "group";
    secondPass "group" "listAssignedApplicationsFor" "group";
    secondPass "user" "listAppLinks" "user";
    secondPass "user" "listGroups" "user";
    secondPass "user" "listGrants" "user";
    secondPass "user" "listIdentityProviders" "user";
    secondPass "userFactor" "listFactors" "user";
    secondPass "roleAssignment" "listAssignedRolesForUser" "user";
    secondPass "authorizationServerClaims" "listOAuth2Claims" "authorizationServer";
    secondPass "authorizationServerScopes" "listOAuth2Scopes" "authorizationServer";
    secondPass "authorizationServerPolicies" "list" "authorizationServer";
    secondPass "authorizationServerClients" "listOAuth2ClientsForAuthorizationServer"
               "authorizationServer";
    secondPass "policy" "listRules" "policy";
    secondPass "authorizationServerRules" "listAuthorizationServerPolicyRules"
               "authorizationServerPolicy";
    secondPass "identityProvider" "listKeys" "identityProvider";
    secondPass "identityProvider" "listSigningKeys" "identityProvider"
  ];
  SingletonResources := [
    singleton "orgSetting" "gets";
    singleton "orgSetting" "getOrgPreferences";
    singleton "orgSetting" "getOktaCommunicationSettings";
    singleton "orgSetting" "getOrgOktaSupportSettings";
    singleton "orgSetting" "getThirdPartyAdminSetting";
    singleton "orgSetting" "getWellknownOrgMetadata";
    singleton "attackProtection" "getUserLockoutSettings";
    singleton "attackProtection" "getAuthenticatorSettings";
    singleton "threatInsight" "getCurrentConfiguration";
    singleton "rateLimitSettings" "getPerClient";
    singleton "rateLimitSettings" "getWarningThreshold";
    singleton "rateLimitSettings" "getAdminNotifications"
  ]
|}.

(** [getParameterFlagForResource]: the flag table with its ["id"] fallback. *)
Definition paramMap : gmap string string :=
  list_to_map [
    ("group", "groupId");
    ("user", "userId");
    ("application", "applicationId");
    ("authorizationServer", "authServerId");
    ("authorizationServerPolicies", "authServerId");
    ("authorizationServerRules", "policyId");
    ("identityProvider", "idpId");
    ("policy", "policyId");
    ("userFactor", "userId");
    ("roleAssignment", "userId");
    ("applicationGroups", "appId");
    ("applicationUsers", "appId");
    ("applicationTokens", "appId");
    ("applicationCredentials", "appId");
    ("applicationFeatures", "appId");
    ("applicationGrants", "appId");
    ("authorizationServerClaims", "authServerId");
    ("authorizationServerScopes", "authServerId");
    ("authorizationServerClients", "authServerId");
    ("groupOwner", "groupId")
  ].

Definition getParameterFlagForResource (resourceName : string) : string :=
  match paramMap !! resourceName with
  | Some param => param
  | None => "id"
  end.

(** [Config] of [main.go] (the SDK client handle is not used by the core). *)
Record Config := {
  OktaDomain : string;
  ConfigFilePath : string;
  OrgName : string;
}.

(** [PrepareOktaCliArgs]. *)
Definition PrepareOktaCliArgs (cfg : Config) (args : list string) : list string :=
  if String.eqb (ConfigFilePath cfg) "" then args
  else ["--config"; ConfigFilePath cfg] ++ args.

(** ** The environment *)

(** A Go [error] is kept as its message; [result] is a Go pair [(value, err)]. *)
Inductive result (A : Type) : Type :=
| Ok (a : A)
| Err (e : string).
Arguments Ok {A} a.
Arguments Err {A} e.

(** An [os.DirEntry]: [Name()], [IsDir()] and [Type().IsRegular()]. *)
Record DirEntry := {
  de_Name : string;
  de_IsDir : bool;
  de_IsRegular : bool;
}.

(** A decoded [interface{}] value: a string, or anything else. *)
Inductive JSONValue :=
| JSONString (s : string)
| JSONOther.

(** How a child process whose output is captured ends
    ([StdoutPipe], [Start], [io.ReadAll], [Wait]). *)
Inductive ProcOutcome :=
| PipeErr (e : string)
| StartErr (e : string)
| ReadErr (e : string)
| WaitErr (e : string)
| Exited (stdout : string).

(** What the program does to the outside world.  A printed message is one
    line, without its final newline; [EvExec] is a run of [okta-cli-client]
    with the given arguments. *)
Inductive Event :=
| EvPrint (msg : string)
| EvUserHomeDir
| EvStat (path : string)
| EvReadDir (path : string)
| EvReadFile (path : string)
| EvWriteFile (path data : string)
| EvExec (args : list string).

Definition History := list Event.

Record Env := {
  (** [filepath.Join] *)
  filepath_Join : list string -> string;
  (** [json.Unmarshal] into a [map[string]interface{}] *)
  json_Unmarshal : string -> result (gmap string JSONValue);
  (** [json.Unmarshal] into the mappings already in memory: the map as the
      call leaves it and the error, if any (a JSON [null], which leaves a nil
      map, is outside the model) *)
  json_UnmarshalMappings :
    string -> gmap string (gmap string string) ->
    gmap string (gmap string string) * option string;
  (** [json.MarshalIndent] of the mappings *)
  json_MarshalIndent : gmap string (gmap string string) -> result string;
  os_UserHomeDir : History -> result string;
  (** [os.Stat] followed by [os.IsNotExist] on its error *)
  os_Stat_IsNotExist : History -> string -> bool;
  os_ReadDir : History -> string -> result (list DirEntry);
  os_ReadFile : History -> string -> result string;
  (** [os.WriteFile]: its error, if any *)
  os_WriteFile : History -> string -> string -> option string;
  (** [cmd.Run] with the child's output sent to the terminal: its error, if any *)
  cmd_Run : History -> list string -> option string;
  (** a child whose standard output is captured *)
  cmd_Output : History -> list string -> ProcOutcome;
}.

(** ** The monad: read the history, emit events *)

Definition M (A : Type) : Type := History -> A * list Event.

Definition ret {A} (a : A) : M A := fun _ => (a, []).

Definition bind {A B} (c : M A) (k : A -> M B) : M B :=
  fun h =>
    let r1 := c h in
    let r2 := k (fst r1) (h ++ snd r1) in
    (fst r2, snd r1 ++ snd r2).

Notation "'let*' x ':=' c 'in' k" := (bind c (fun x => k))
  (at level 10, x name, c at level 100, k at level 200).
Notation "c ';;;' k" := (bind c (fun _ => k))
  (at level 100, k at level 200, right associativity).

(** A [for _, x := range l] loop whose body may [continue]. *)
Fixpoint forEach {A} (l : list A) (body : A -> M unit) : M unit :=
  match l with
  | [] => ret tt
  | x :: l' => body x ;;; forEach l' body
  end.

(** The same loop when the body updates a value the loop carries. *)
Fixpoint forEachS {A S} (l : list A) (body : A -> S -> M S) (s : S) : M S :=
  match l with
  | [] => ret s
  | x :: l' => let* s' := body x s in forEachS l' body s'
  end.

(** The events of a trace that run [okta-cli-client]. *)
Definition execs (t : list Event) : list (list string) :=
  omap (fun e => match e with EvExec args => Some args | _ => None end) t.

(** The printed lines of a trace. *)
Definition prints (t : list Event) : list string :=
  omap (fun e => match e with EvPrint msg => Some msg | _ => None end) t.

(** [x["key"].(string)] on a decoded object. *)
Definition getString (obj : gmap string JSONValue) (key : string) : option string :=
  match obj !! key with
  | Some (JSONString s) => Some s
  | _ => None
  end.

(** The test every restore loop applies to a directory entry:
    [!file.IsDir() && strings.HasSuffix(file.Name(), ".json")]. *)
Definition isJSONFile (file : DirEntry) : bool :=
  negb (de_IsDir file) && strings.HasSuffix (de_Name file) ".json".

(** ** The ID mapping store ([restore.go]) *)

Record IDMapping := {
  Mappings : gmap string (gmap string string);
  FilePath : string;
}.

(** [m.Mappings[resourceType][oldID] = newID], creating the inner map first
    when the type has none. *)
Definition setMapping (m : IDMapping) (resourceType oldID newID : string) : IDMapping :=
  {| Mappings :=
       <[resourceType := <[oldID := newID]> (default ∅ (Mappings m !! resourceType))]>
         (Mappings m);
     FilePath := FilePath m |}.

Definition GetNewID (m : IDMapping) (resourceType oldID : string) : option string :=
  match Mappings m !! resourceType with
  | None => None
  | Some resourceMap => resourceMap !! oldID
  end.

(** The custom restorers, an interface with three implementations. *)
Inductive ResourceRestorer :=
| ApplicationGroupsRestorer
| UserGroupsRestorer
| RoleAssignmentRestorer.

Definition customRestorers : gmap string ResourceRestorer :=
  list_to_map [
    ("applicationGroups", ApplicationGroupsRestorer);
    ("user", UserGroupsRestorer);
    ("roleAssignment", RoleAssignmentRestorer)
  ].

Definition assignmentResources : gmap string (gmap string bool) :=
  list_to_map [
    ("user", list_to_map [("listGroups", true)]);
    ("group", list_to_map [("listUsers", true); ("listAssignedApplicationsFor", true)])
  ].

Definition isAssignmentResource (resourceName listCommand : string) : bool :=
  match assignmentResources !! resourceName with
  | Some resourceCommands =>
      match resourceCommands !! listCommand with
      | Some true => true
      | _ => false
      end
  | None => false
  end.

(** [buildAssignmentCommand]: [None] is the nil command. *)
Definition buildAssignmentCommand (cfg : Config)
    (resourceName sourceIDParam sourceID filePath : string) : option (list string) :=
  if String.eqb resourceName "user" then
    if String.eqb sourceIDParam "userId" then
      Some (PrepareOktaCliArgs cfg
              ["group"; "addUserToGroup"; "--userId"; sourceID;
               "--groupId"; "TARGET_GROUP_ID"; "--assignment-file"; filePath])
    else None
  else if String.eqb resourceName "group" then
    if String.eqb sourceIDParam "groupId" then
      Some (PrepareOktaCliArgs cfg
              ["user"; "addUserToGroup"; "--groupId"; sourceID;
               "--userId"; "TARGET_USER_ID"; "--assignment-file"; filePath])
    else None
  else None.

(** The command the generic second pass builds for one persisted record. *)
Definition secondPassCommand (cfg : Config) (resource : BackupConfigResource)
    (sourceIDParam newSourceID filePath : string) : option (list string) :=
  if isAssignmentResource (Name resource) (ListCommand resource) then
    buildAssignmentCommand cfg (Name resource) sourceIDParam newSourceID filePath
  else
    Some (PrepareOktaCliArgs cfg
            [Name resource; "create"; "--" +:+ sourceIDParam; newSourceID;
             "--restore-from"; filePath]).

(** ** The program *)

Section Program.

Variable env : Env.

Definition Join : list string -> string := filepath_Join env.

Definition Println (msg : string) : M unit :=
  fun _ => (tt, [EvPrint msg]).
Definition UserHomeDir : M (result string) :=
  fun h => (os_UserHomeDir env h, [EvUserHomeDir]).
Definition Stat_IsNotExist (path : string) : M bool :=
  fun h => (os_Stat_IsNotExist env h path, [EvStat path]).
Definition ReadDir (path : string) : M (result (list DirEntry)) :=
  fun h => (os_ReadDir env h path, [EvReadDir path]).
Definition ReadFile (path : string) : M (result string) :=
  fun h => (os_ReadFile env h path, [EvReadFile path]).
Definition WriteFile (path data : string) : M (option string) :=
  fun h => (os_WriteFile env h path data, [EvWriteFile path data]).
Definition Run (args : list string) : M (option string) :=
  fun h => (cmd_Run env h args, [EvExec args]).
Definition Output (args : list string) : M ProcOutcome :=
  fun h => (cmd_Output env h args, [EvExec args]).

(** *** [IDMapping] *)

Definition NewIDMapping (restoreDir : string) : IDMapping :=
  {| Mappings := ∅; FilePath := Join [restoreDir; "id_mapping.json"] |}.

Definition Save (m : IDMapping) : M (option string) :=
  match json_MarshalIndent env (Mappings m) with
  | Err e => ret (Some ("error marshaling ID mapping: " +:+ e))
  | Ok data => WriteFile (FilePath m) data
  end.

(** [AddMapping] has no result in the source: it updates the store in
    place and calls [m.Save()] as a statement.  Here it returns the
    updated store. *)
Definition AddMapping (m : IDMapping) (resourceType oldID newID : string) : M IDMapping :=
  let m' := setMapping m resourceType oldID newID in
  Save m' ;;; ret m'.

(** [Load]: the error, if any, and the store as [Load] leaves it. *)
Definition Load (m : IDMapping) : M (option string * IDMapping) :=
  let* notExist := Stat_IsNotExist (FilePath m) in
  if notExist then ret (None, {| Mappings := ∅; FilePath := FilePath m |})
  else
    let* r := ReadFile (FilePath m) in
    match r with
    | Err e => ret (Some ("error reading ID mapping file: " +:+ e), m)
    | Ok data =>
        let decoded := json_UnmarshalMappings env data (Mappings m) in
        ret (snd decoded, {| Mappings := fst decoded; FilePath := FilePath m |})
    end.

(** *** [UserGroupsRestorer] *)

Definition UserGroupsRestorer_file (cfg : Config) (idMapping : IDMapping)
    (userPath newUserID : string) (file : DirEntry) : M unit :=
  if isJSONFile file then
    let filePath := Join [userPath; de_Name file] in
    let* r := ReadFile filePath in
    match r with
    | Err e => Println ("Warning: error reading file " +:+ filePath +:+ ": " +:+ e)
    | Ok data =>
        match json_Unmarshal env data with
        | Err e => Println ("Warning: error parsing JSON in " +:+ filePath +:+ ": " +:+ e)
        | Ok group =>
            match getString group "id" with
            | None => Println ("Warning: missing id in " +:+ filePath)
            | Some oldGroupID =>
                match GetNewID idMapping "group" oldGroupID with
                | None =>
                    Println ("Warning: could not find new ID for group " +:+ oldGroupID)
                | Some newGroupID =>
                    Println ("Adding user " +:+ newUserID +:+ " to group "
                             +:+ newGroupID +:+ "...") ;;;
                    let* err :=
                      Run (PrepareOktaCliArgs cfg
                             ["group"; "addUserToGroup";
                              "--groupId"; newGroupID; "--userId"; newUserID]) in
                    match err with
                    | Some e =>
                        Println ("Warning: failed to add user " +:+ newUserID
                                 +:+ " to group " +:+ newGroupID +:+ ": " +:+ e)
                    | None => ret tt
                    end
                end
            end
        end
    end
  else ret tt.

Definition UserGroupsRestorer_userDir (cfg : Config) (idMapping : IDMapping)
    (userGroupsDir : string) (userDir : DirEntry) : M unit :=
  if de_IsDir userDir then
    let oldUserID := de_Name userDir in
    match GetNewID idMapping "user" oldUserID with
    | None =>
        Println ("Warning: could not find new ID for user " +:+ oldUserID
                 +:+ ", skipping group assignments...")
    | Some newUserID =>
        let userPath := Join [userGroupsDir; oldUserID] in
        let* r := ReadDir userPath in
        match r with
        | Err e =>
            Println ("Warning: error reading directory " +:+ userPath +:+ ": " +:+ e)
        | Ok groupFiles =>
            forEach groupFiles (UserGroupsRestorer_file cfg idMapping userPath newUserID)
        end
    end
  else ret tt.

Definition UserGroupsRestorer_Restore (cfg : Config) (idMapping : IDMapping)
    (inputDir : string) : M (option string) :=
  let userGroupsDir := Join [inputDir; "user"; "listGroups"] in
  let* notExist := Stat_IsNotExist userGroupsDir in
  if notExist then ret None
  else
    let* r := ReadDir userGroupsDir in
    match r with
    | Err e => ret (Some ("error reading directory " +:+ userGroupsDir +:+ ": " +:+ e))
    | Ok userDirs =>
        forEach userDirs (UserGroupsRestorer_userDir cfg idMapping userGroupsDir) ;;;
        ret None
    end.

(** *** [RoleAssignmentRestorer] *)

Definition RoleAssignmentRestorer_file (cfg : Config)
    (userPath newUserID : string) (file : DirEntry) : M unit :=
  if isJSONFile file then
    let filePath := Join [userPath; de_Name file] in
    let* r := ReadFile filePath in
    match r with
    | Err e => Println ("Warning: error reading file " +:+ filePath +:+ ": " +:+ e)
    | Ok data =>
        match json_Unmarshal env data with
        | Err e => Println ("Warning: error parsing JSON in " +:+ filePath +:+ ": " +:+ e)
        | Ok role =>
            match getString role "type" with
            | None => Println ("Warning: missing role type in " +:+ filePath)
            | Some roleType =>
                Println ("Assigning role " +:+ roleType +:+ " to user "
                         +:+ newUserID +:+ "...") ;;;
                let* err :=
                  Run (PrepareOktaCliArgs cfg
                         ["role"; "assignRoleToUser";
                          "--userId"; newUserID; "--type"; roleType]) in
                match err with
                | Some e =>
                    Println ("Warning: failed to assign role " +:+ roleType
                             +:+ " to user " +:+ newUserID +:+ ": " +:+ e)
                | None => ret tt
                end
            end
        end
    end
  else ret tt.

Definition RoleAssignmentRestorer_userDir (cfg : Config) (idMapping : IDMapping)
    (roleAssignmentsDir : string) (userDir : DirEntry) : M unit :=
  if de_IsDir userDir then
    let oldUserID := de_Name userDir in
    match GetNewID idMapping "user" oldUserID with
    | None =>
        Println ("Warning: could not find new ID for user " +:+ oldUserID
                 +:+ ", skipping role assignments...")
    | Some newUserID =>
        let userPath := Join [roleAssignmentsDir; oldUserID] in
        let* r := ReadDir userPath in
        match r with
        | Err e =>
            Println ("Warning: error reading directory " +:+ userPath +:+ ": " +:+ e)
        | Ok roleFiles =>
            forEach roleFiles (RoleAssignmentRestorer_file cfg userPath newUserID)
        end
    end
  else ret tt.

Definition RoleAssignmentRestorer_Restore (cfg : Config) (idMapping : IDMapping)
    (inputDir : string) : M (option string) :=
  let roleAssignmentsDir :=
    Join [inputDir; "roleassignment"; "listAssignedRolesForUser"] in
  let* notExist := Stat_IsNotExist roleAssignmentsDir in
  if notExist then ret None
  else
    let* r := ReadDir roleAssignmentsDir in
    match r with
    | Err e =>
        ret (Some ("error reading directory " +:+ roleAssignmentsDir +:+ ": " +:+ e))
    | Ok userDirs =>
        forEach userDirs
                (RoleAssignmentRestorer_userDir cfg idMapping roleAssignmentsDir) ;;;
        ret None
    end.

(** *** [ApplicationGroupsRestorer] *)

Definition ApplicationGroupsRestorer_file (cfg : Config) (idMapping : IDMapping)
    (assignmentsDir : string) (file : DirEntry) : M unit :=
  if isJSONFile file then
    let filePath := Join [assignmentsDir; de_Name file] in
    let* r := ReadFile filePath in
    match r with
    | Err e => Println ("Warning: error reading file " +:+ filePath +:+ ": " +:+ e)
    | Ok data =>
        match json_Unmarshal env data with
        | Err e => Println ("Warning: error parsing JSON in " +:+ filePath +:+ ": " +:+ e)
        | Ok assignment =>
            match getString assignment "appId" with
            | None => Println ("Warning: missing appId in " +:+ filePath)
            | Some oldAppID =>
                match getString assignment "id" with
                | None => Println ("Warning: missing id in " +:+ filePath)
                | Some oldGroupID =>
                    match GetNewID idMapping "application" oldAppID with
                    | None =>
                        Println ("Warning: could not find new ID for application "
                                 +:+ oldAppID)
                    | Some newAppID =>
                        match GetNewID idMapping "group" oldGroupID with
                        | None =>
                            Println ("Warning: could not find new ID for group "
                                     +:+ oldGroupID)
                        | Some newGroupID =>
                            Println ("Assigning group " +:+ newGroupID
                                     +:+ " to application " +:+ newAppID +:+ "...") ;;;
                            let* err :=
                              Run (PrepareOktaCliArgs cfg
                                     ["applicationGroups"; "assignGroupToApplication";
                                      "--appId"; newAppID; "--groupId"; newGroupID;
                                      "--restore-from"; filePath]) in
                            match err with
                            | None => ret tt
                            | Some _ =>
                                Println "Trying alternative assignment method..." ;;;
                                let* err2 :=
                                  Run (PrepareOktaCliArgs cfg
                                         ["applicationGroups"; "assignGroupToApplication";
                                          "--appId"; newAppID; "--groupId"; newGroupID;
                                          "--data"; "{}"]) in
                                match err2 with
                                | Some e =>
                                    Println ("Warning: failed to assign group "
                                             +:+ newGroupID +:+ " to application "
                                             +:+ newAppID +:+ ": " +:+ e)
                                | None => ret tt
                                end
                            end
                        end
                    end
                end
            end
        end
    end
  else ret tt.

Definition ApplicationGroupsRestorer_Restore (cfg : Config) (idMapping : IDMapping)
    (inputDir : string) : M (option string) :=
  let assignmentsDir :=
    Join [inputDir; "applicationgroups"; "listApplicationGroupAssignments"] in
  let* notExist := Stat_IsNotExist assignmentsDir in
  if notExist then ret None
  else
    let* r := ReadDir assignmentsDir in
    match r with
    | Err e => ret (Some ("error reading directory " +:+ assignmentsDir +:+ ": " +:+ e))
    | Ok files =>
        Println ("Found " +:+ pretty (length files)
                 +:+ " application group assignments to restore") ;;;
        forEach files (ApplicationGroupsRestorer_file cfg idMapping assignmentsDir) ;;;
        ret None
    end.

(** The [Restore] method of the interface. *)
Definition Restore (r : ResourceRestorer) (cfg : Config) (idMapping : IDMapping)
    (inputDir : string) : M (option string) :=
  match r with
  | ApplicationGroupsRestorer => ApplicationGroupsRestorer_Restore cfg idMapping inputDir
  | UserGroupsRestorer => UserGroupsRestorer_Restore cfg idMapping inputDir
  | RoleAssignmentRestorer => RoleAssignmentRestorer_Restore cfg idMapping inputDir
  end.

(** *** The restore passes *)

Definition restoreSingletonFile (cfg : Config) (resource : BackupConfigResource)
    (resourceDir : string) (file : DirEntry) : M unit :=
  if isJSONFile file then
    let filePath := Join [resourceDir; de_Name file] in
    let* err :=
      Run (PrepareOktaCliArgs cfg
             [Name resource; "create"; "--restore-from"; filePath]) in
    match err with
    | Some e =>
        Println ("Warning: Failed to restore " +:+ Name resource +:+ " "
                 +:+ de_Name file +:+ ": " +:+ e)
    | None => ret tt
    end
  else ret tt.

Definition restoreSingletonResource (cfg : Config) (inputDir : string)
    (resource : BackupConfigResource) : M unit :=
  let resourceDir :=
    Join [inputDir; strings.ToLower (Name resource); GetCommand resource] in
  let* notExist := Stat_IsNotExist resourceDir in
  if notExist then
    Println ("No backup found for " +:+ Name resource +:+ "/"
             +:+ GetCommand resource +:+ ", skipping...")
  else
    Println ("Restoring " +:+ Name resource +:+ " using "
             +:+ GetCommand resource +:+ " command...") ;;;
    let* r := ReadDir resourceDir in
    match r with
    | Err e =>
        Println ("Warning: error reading directory " +:+ resourceDir +:+ ": " +:+ e)
    | Ok files => forEach files (restoreSingletonFile cfg resource resourceDir)
    end.

Definition restoreSingletonResources (cfg : Config) (backupConfig : BackupConfig)
    (inputDir : string) : M (option string) :=
  forEach (SingletonResources backupConfig) (restoreSingletonResource cfg inputDir) ;;;
  ret None.

(** [restoreResource]: run the create command and read the new identifier
    off its output. *)
Definition restoreResource (cfg : Config) (resourceType filePath : string)
    : M (result string) :=
  let* outcome :=
    Output (PrepareOktaCliArgs cfg
              [resourceType; "create"; "--restore-from"; filePath]) in
  ret match outcome with
      | PipeErr e => Err ("error creating stdout pipe: " +:+ e)
      | StartErr e => Err ("error starting command: " +:+ e)
      | ReadErr e => Err ("error reading command output: " +:+ e)
      | WaitErr e => Err ("command failed: " +:+ e)
      | Exited responseData =>
          match json_Unmarshal env responseData with
          | Err e => Err ("error parsing response: " +:+ e)
          | Ok response =>
              match getString response "id" with
              | Some id => Ok id
              | None => Err "response does not contain ID field"
              end
          end
      end.

Definition restoreFirstPassFile (cfg : Config) (resource : BackupConfigResource)
    (resourceDir : string) (file : DirEntry) (idMapping : IDMapping) : M IDMapping :=
  if isJSONFile file then
    let filePath := Join [resourceDir; de_Name file] in
    let oldID := strings.TrimSuffix (de_Name file) ".json" in
    Println ("Restoring " +:+ Name resource +:+ " from previous ID "
             +:+ oldID +:+ "...") ;;;
    let* r := restoreResource cfg (Name resource) filePath in
    match r with
    | Err e =>
        Println ("Warning: error restoring " +:+ Name resource +:+ " from "
                 +:+ oldID +:+ ": " +:+ e) ;;;
        ret idMapping
    | Ok newID =>
        let* idMapping' := AddMapping idMapping (Name resource) oldID newID in
        Println ("Mapped " +:+ Name resource +:+ " old ID " +:+ oldID
                 +:+ " to new ID " +:+ newID) ;;;
        ret idMapping'
    end
  else ret idMapping.

Definition restoreFirstPassResource (cfg : Config) (inputDir : string)
    (resource : BackupConfigResource) (idMapping : IDMapping) : M IDMapping :=
  if String.eqb (ListCommand resource) "" then ret idMapping
  else
    let resourceDir := Join [inputDir; strings.ToLower (Name resource); "lists"] in
    let* notExist := Stat_IsNotExist resourceDir in
    if notExist then
      Println ("No backup found for " +:+ Name resource +:+ "/lists, skipping...") ;;;
      ret idMapping
    else
      Println ("Restoring " +:+ Name resource +:+ " resources...") ;;;
      let* r := ReadDir resourceDir in
      match r with
      | Err e =>
          Println ("Warning: error reading directory " +:+ resourceDir
                   +:+ ": " +:+ e) ;;;
          ret idMapping
      | Ok files =>
          forEachS files (restoreFirstPassFile cfg resource resourceDir) idMapping
      end.

(** The error (always nil) and the store after the pass. *)
Definition restoreFirstPassResources (cfg : Config) (backupConfig : BackupConfig)
    (inputDir : string) (idMapping : IDMapping) : M (option string * IDMapping) :=
  let* idMapping' :=
    forEachS (FirstPassResources backupConfig)
             (restoreFirstPassResource cfg inputDir) idMapping in
  ret (None, idMapping').

Definition restoreSecondPassFile (cfg : Config) (resource : BackupConfigResource)
    (sourceIDParam newSourceID subPath : string) (file : DirEntry) : M unit :=
  if isJSONFile file then
    let filePath := Join [subPath; de_Name file] in
    match secondPassCommand cfg resource sourceIDParam newSourceID filePath with
    | None =>
        Println ("Warning: Could not determine appropriate command for "
                 +:+ Name resource +:+ " with " +:+ ListCommand resource
                 +:+ ", skipping...")
    | Some args =>
        let* err := Run args in
        match err with
        | Some e =>
            Println ("Warning: Failed to restore " +:+ Name resource +:+ " for "
                     +:+ SourceIDDir resource +:+ " " +:+ newSourceID
                     +:+ ": " +:+ e)
        | None => ret tt
        end
    end
  else ret tt.

Definition restoreSecondPassSubdir (cfg : Config) (idMapping : IDMapping)
    (resource : BackupConfigResource) (sourceIDParam resourceDir : string)
    (subdir : DirEntry) : M unit :=
  if de_IsDir subdir then
    let oldSourceID := de_Name subdir in
    match GetNewID idMapping (SourceIDDir resource) oldSourceID with
    | None =>
        Println ("Warning: could not find new ID for " +:+ SourceIDDir resource
                 +:+ " " +:+ oldSourceID +:+ ", skipping...")
    | Some newSourceID =>
        let subPath := Join [resourceDir; oldSourceID] in
        let* r := ReadDir subPath in
        match r with
        | Err e =>
            Println ("Warning: error reading directory " +:+ subPath +:+ ": " +:+ e)
        | Ok files =>
            forEach files
                    (restoreSecondPassFile cfg resource sourceIDParam newSourceID subPath)
        end
    end
  else ret tt.

Definition restoreSecondPassResource (cfg : Config) (inputDir : string)
    (idMapping : IDMapping) (resource : BackupConfigResource) : M unit :=
  match customRestorers !! Name resource with
  | Some _ => ret tt
  | None =>
      let sourceIDParam := getParameterFlagForResource (SourceIDDir resource) in
      let resourceDir :=
        Join [inputDir; strings.ToLower (Name resource); ListCommand resource] in
      let* notExist := Stat_IsNotExist resourceDir in
      if notExist then
        Println ("No backup found for " +:+ Name resource +:+ "/"
                 +:+ ListCommand resource +:+ ", skipping...")
      else
        Println ("Restoring " +:+ Name resource +:+ " using "
                 +:+ ListCommand resource +:+ " command...") ;;;
        let* r := ReadDir resourceDir in
        match r with
        | Err e =>
            Println ("Warning: error reading directory " +:+ resourceDir
                     +:+ ": " +:+ e)
        | Ok subdirs =>
            forEach subdirs
                    (restoreSecondPassSubdir cfg idMapping resource
                                             sourceIDParam resourceDir)
        end
  end.

Definition restoreSecondPassResources (cfg : Config) (backupConfig : BackupConfig)
    (inputDir : string) (idMapping : IDMapping) : M (option string) :=
  forEach (SecondPassResources backupConfig)
          (restoreSecondPassResource cfg inputDir idMapping) ;;;
  ret None.

(** What [PerformRestore] does with the error of a pass. *)
Definition warnOnError (prefix : string) (err : option string) : M unit :=
  match err with
  | Some e => Println (prefix +:+ e)
  | None => ret tt
  end.

(** One round of the loop over [customRestorers]. *)
Definition restoreSpecial (cfg : Config) (idMapping : IDMapping) (inputDir : string)
    (entry : string * ResourceRestorer) : M unit :=
  Println ("Restoring " +:+ fst entry +:+ "...") ;;;
  let* err := Restore (snd entry) cfg idMapping inputDir in
  warnOnError ("Warning: error restoring " +:+ fst entry +:+ ": ") err.

(** [PerformRestore].  Go ranges over the [customRestorers] map in an order
    of its own choosing: [rangeOrder] is that order. *)
Definition PerformRestore (cfg : Config) (inputDir : string)
    (rangeOrder : list (string * ResourceRestorer)) : M (option string) :=
  let idMapping := NewIDMapping inputDir in
  let* loaded := Load idMapping in
  let idMapping := snd loaded in
  match fst loaded with
  | Some _ => Println "Creating new ID mapping"
  | None => ret tt
  end ;;;
  let backupConfig := GetBackupConfig in
  Println "Restoring singleton resources..." ;;;
  let* err := restoreSingletonResources cfg backupConfig inputDir in
  warnOnError "Warning: Error during singleton resources restore: " err ;;;
  Println "Restoring first pass resources..." ;;;
  let* first := restoreFirstPassResources cfg backupConfig inputDir idMapping in
  let idMapping := snd first in
  warnOnError "Warning: Error during first pass resources restore: " (fst first) ;;;
  Println "Restoring second pass resources..." ;;;
  let* err := restoreSecondPassResources cfg backupConfig inputDir idMapping in
  warnOnError "Warning: Error during second pass resources restore: " err ;;;
  Println "Handling special resource types..." ;;;
  forEach rangeOrder (restoreSpecial cfg idMapping inputDir) ;;;
  Println "Restore completed successfully!" ;;;
  ret None.

(** *** The backup passes ([backup.go]) *)

Definition getResourceIDsFromDirectory (dirPath : string) : M (result (list string)) :=
  let* r := ReadDir dirPath in
  ret match r with
      | Err e => Err ("failed to read directory: " +:+ e)
      | Ok entries =>
          Ok (List.map (fun entry => strings.TrimSuffix (de_Name entry) ".json")
                (List.filter
                   (fun entry =>
                      de_IsRegular entry && strings.HasSuffix (de_Name entry) ".json")
                   entries))
      end.

Definition backupFirstPassResource (cfg : Config) (outputDir : string)
    (resource : BackupConfigResource) : M unit :=
  Println ("Backing up " +:+ Name resource +:+ " using "
           +:+ ListCommand resource +:+ " command...") ;;;
  let* err :=
    Run (PrepareOktaCliArgs cfg
           [Name resource; ListCommand resource;
            "--batch-backup"; "--backup-dir"; outputDir]) in
  warnOnError ("Warning: Failed to execute " +:+ Name resource +:+ " "
               +:+ ListCommand resource +:+ " backup: ") err.

Definition backupSingletonResource (cfg : Config) (outputDir : string)
    (resource : BackupConfigResource) : M unit :=
  Println ("Backing up " +:+ Name resource +:+ " using "
           +:+ GetCommand resource +:+ " command...") ;;;
  let* err :=
    Run (PrepareOktaCliArgs cfg
           [Name resource; GetCommand resource; "--backup-dir"; outputDir]) in
  warnOnError ("Warning: Failed to execute " +:+ Name resource +:+ " "
               +:+ GetCommand resource +:+ " backup: ") err.

Definition backupSecondPassID (cfg : Config) (outputDir : string)
    (resource : BackupConfigResource) (paramFlag id : string) : M unit :=
  Println ("Backing up " +:+ Name resource +:+ " for " +:+ SourceIDDir resource
           +:+ " ID " +:+ id +:+ " using " +:+ ListCommand resource
           +:+ " command...") ;;;
  let* err :=
    Run (PrepareOktaCliArgs cfg
           [Name resource; ListCommand resource; "--" +:+ paramFlag; id;
            "--batch-backup"; "--backup-dir"; outputDir]) in
  warnOnError ("Warning: Failed to execute " +:+ Name resource +:+ " "
               +:+ ListCommand resource +:+ " backup for ID " +:+ id +:+ ": ") err.

Definition backupSecondPassResource (cfg : Config) (outputDir : string)
    (resource : BackupConfigResource) : M unit :=
  let sourceDir := Join [outputDir; SourceIDDir resource; "lists"] in
  let* notExist := Stat_IsNotExist sourceDir in
  if notExist then
    Println ("Warning: Source directory " +:+ sourceDir +:+ " not found for "
             +:+ Name resource +:+ ", skipping...")
  else
    let* r := getResourceIDsFromDirectory sourceDir in
    match r with
    | Err e => Println ("Warning: Failed to get IDs from " +:+ sourceDir +:+ ": " +:+ e)
    | Ok ids =>
        if (length ids =? 0)%nat then
          Println ("No IDs found in " +:+ sourceDir +:+ " for "
                   +:+ Name resource +:+ ", skipping...")
        else
          Println ("Found " +:+ pretty (length ids) +:+ " IDs for "
                   +:+ Name resource +:+ " in " +:+ sourceDir) ;;;
          let paramFlag := getParameterFlagForResource (Name resource) in
          forEach ids (backupSecondPassID cfg outputDir resource paramFlag)
    end.

Definition backupSecondPassResources (cfg : Config) (config : BackupConfig)
    (outputDir : string) : M (option string) :=
  forEach (SecondPassResources config) (backupSecondPassResource cfg outputDir) ;;;
  ret None.

(** The three passes of [PerformBackup], once the output directory is known. *)
Definition backupPasses (cfg : Config) (outputDir : string) : M (option string) :=
  let backupConfig := GetBackupConfig in
  Println "Backing up first pass resources..." ;;;
  forEach (FirstPassResources backupConfig) (backupFirstPassResource cfg outputDir) ;;;
  Println "Backing up singleton resources..." ;;;
  forEach (SingletonResources backupConfig) (backupSingletonResource cfg outputDir) ;;;
  Println "Backing up second pass resources..." ;;;
  let* err := backupSecondPassResources cfg backupConfig outputDir in
  warnOnError "Warning: Error during second pass resources backup: " err ;;;
  Println "Backup completed successfully!" ;;;
  ret None.

Definition PerformBackup (cfg : Config) (outputDir : string) : M (option string) :=
  if String.eqb outputDir "" then
    let* home := UserHomeDir in
    match home with
    | Err e => ret (Some ("error getting user home directory: " +:+ e))
    | Ok home => backupPasses cfg (Join [home; ".okta"; OrgName cfg])
    end
  else backupPasses cfg outputDir.

End Program.

(** ** A concrete environment for running the model

    A static file tree, a child process that hands out a fresh identifier
    on every run, and a decoder for the flat JSON objects the tree holds. *)

Module Sim.

Definition quote : ascii := "034"%char.

(** One flat object, every value a string; [rest] is what follows a field. *)
Definition renderField (kv : string * string) (rest : string) : string :=
  String quote
    (fst kv +:+ String quote (String ":" (String quote (snd kv +:+ String quote rest)))).

Fixpoint renderFields (fields : list (string * string)) : string :=
  match fields with
  | [] => "}"
  | [kv] => renderField kv "}"
  | kv :: rest => renderField kv (String "," (renderFields rest))
  end.

Definition renderObject (fields : list (string * string)) : string :=
  String "{" (renderFields fields).

(** Read up to the closing quote. *)
Fixpoint readQuoted (s : string) : option (string * string) :=
  match s with
  | EmptyString => None
  | String c s' =>
      if Ascii.eqb c quote then Some ("", s')
      else match readQuoted s' with
           | Some (w, rest) => Some (String c w, rest)
           | None => None
           end
  end.

(** Read the fields that follow an opening quote; [fuel] bounds their number. *)
Fixpoint parseFields (fuel : nat) (s : string) : option (list (string * string)) :=
  match fuel with
  | O => None
  | S fuel' =>
      match readQuoted s with
      | Some (k, String ":" (String q rest)) =>
          if Ascii.eqb q quote then
            match readQuoted rest with
            | Some (v, String "}" EmptyString) => Some [(k, v)]
            | Some (v, String "," (String q' rest')) =>
                if Ascii.eqb q' quote then
                  match parseFields fuel' rest' with
                  | Some fields => Some ((k, v) :: fields)
                  | None => None
                  end
                else None
            | _ => None
            end
          else None
      | _ => None
      end
  end.

Definition parseObject (s : string) : option (list (string * string)) :=
  match s with
  | String "{" (String "}" EmptyString) => Some []
  | String "{" (String q rest) =>
      if Ascii.eqb q quote then parseFields (String.length s) rest else None
  | _ => None
  end.

Definition unmarshal (s : string) : result (gmap string JSONValue) :=
  match parseObject s with
  | Some fields => Ok (list_to_map (prod_map id JSONString <$> fields))
  | None => Err "invalid character"
  end.

(** The mapping file of the simulation holds ["{}"] or garbage. *)
Definition unmarshalMappings (s : string) (old : gmap string (gmap string string))
    : gmap string (gmap string string) * option string :=
  if String.eqb s "{}" then (old, None) else (old, Some "invalid character").

Fixpoint lookupPath {A} (table : list (string * A)) (path : string) : option A :=
  match table with
  | [] => None
  | (p, a) :: rest => if String.eqb p path then Some a else lookupPath rest path
  end.

Fixpoint joinPath (elems : list string) : string :=
  match elems with
  | [] => ""
  | [e] => e
  | e :: rest => e +:+ "/" +:+ joinPath rest
  end.

Record World := {
  dirs : list (string * list DirEntry);
  files : list (string * string);
  (** does [os.WriteFile] fail *)
  diskFull : bool;
  (** the commands the backend rejects *)
  rejects : list string -> bool;
}.

Definition executed (h : History) : nat := length (execs h).

(** The [n]-th identifier the backend hands out ends in [n] strokes. *)
Fixpoint tally (n : nat) : string :=
  match n with
  | O => ""
  | S n' => String "i" (tally n')
  end.

Definition env (w : World) : Env := {|
  filepath_Join := joinPath;
  json_Unmarshal := unmarshal;
  json_UnmarshalMappings := unmarshalMappings;
  json_MarshalIndent := fun _ => Ok "{...}";
  os_UserHomeDir := fun _ => Ok "/home/me";
  os_Stat_IsNotExist := fun _ path =>
    match lookupPath (dirs w) path, lookupPath (files w) path with
    | None, None => true
    | _, _ => false
    end;
  os_ReadDir := fun _ path =>
    match lookupPath (dirs w) path with
    | Some entries => Ok entries
    | None => Err "not a directory"
    end;
  os_ReadFile := fun _ path =>
    match lookupPath (files w) path with
    | Some data => Ok data
    | None => Err "no such file or directory"
    end;
  os_WriteFile := fun _ _ _ => if diskFull w then Some "no space left on device" else None;
  cmd_Run := fun _ args => if rejects w args then Some "exit status 1" else None;
  cmd_Output := fun h args =>
    if rejects w args then WaitErr "exit status 1"
    else Exited (renderObject [("id", "new" +:+ tally (executed h))]);
|}.

Definition file (name : string) : DirEntry :=
  {| de_Name := name; de_IsDir := false; de_IsRegular := true |}.
Definition dir (name : string) : DirEntry :=
  {| de_Name := name; de_IsDir := true; de_IsRegular := false |}.

Definition cfg : Config :=
  {| OktaDomain := "dev-1.okta.com"; ConfigFilePath := ""; OrgName := "dev-1" |}.

Definition acceptAll (args : list string) : bool := false.
Definition rejectAll (args : list string) : bool := true.

End Sim.

(** ** A sample backup tree

    Two authorization servers with three claims between them, a group with
    one member, an application, a user with a group membership, an
    application link and a role, two application-group assignments (the second names an
    application that was never backed up), and a factor directory of a user
    that was never backed up. *)

Module Sample.

Import Sim.

Definition tree : list (string * list DirEntry) := [
  ("backup/authorizationserver/lists", [file "as1.json"; file "as2.json"]);
  ("backup/authorizationserverclaims/listOAuth2Claims", [dir "as1"; dir "as2"]);
  ("backup/authorizationserverclaims/listOAuth2Claims/as1",
   [file "c1.json"; file "c2.json"]);
  ("backup/authorizationserverclaims/listOAuth2Claims/as2", [file "c3.json"]);
  ("backup/group/lists", [file "g1.json"]);
("backup/group/listUsers", [dir "g1"]);
("backup/group/listUsers/g1", [file "u1.json"]);
  ("backup/application/lists", [file "a1.json"]);
  ("backup/user/lists", [file "u1.json"]);
  ("backup/user/listGroups", [dir "u1"]);
  ("backup/user/listGroups/u1", [file "g1.json"]);
  ("backup/user/listAppLinks", [dir "u1"]);
  ("backup/user/listAppLinks/u1", [file "l1.json"]);
  ("backup/roleassignment/listAssignedRolesForUser", [dir "u1"]);
  ("backup/roleassignment/listAssignedRolesForUser/u1", [file "r1.json"]);
  ("backup/applicationgroups/listApplicationGroupAssignments",
   [file "ag1.json"; file "ag2.json"]);
  ("backup/userfactor/listFactors", [dir "u9"]);
  ("backup/userfactor/listFactors/u9", [file "f1.json"])
].

Definition contents : list (string * string) := [
  ("backup/user/listGroups/u1/g1.json", renderObject [("id", "g1")]);
  ("backup/roleassignment/listAssignedRolesForUser/u1/r1.json",
   renderObject [("type", "SUPER_ADMIN")]);
  ("backup/applicationgroups/listApplicationGroupAssignments/ag1.json",
   renderObject [("id", "g1"); ("appId", "a1")]);
  ("backup/applicationgroups/listApplicationGroupAssignments/ag2.json",
   renderObject [("id", "g1"); ("appId", "a7")])
].

(** The backend accepts every command. *)
Definition world : World :=
  {| dirs := tree; files := contents; diskFull := false; rejects := acceptAll |}.

(** The backend rejects every command. *)
Definition worldRejecting : World :=
  {| dirs := tree; files := contents; diskFull := false; rejects := rejectAll |}.

(** The mapping file cannot be written. *)
Definition worldDiskFull : World :=
  {| dirs := tree; files := contents; diskFull := true; rejects := acceptAll |}.

(** A mapping file is there and does not decode. *)
Definition worldMalformed : World :=
  {| dirs := tree;
     files := ("backup/id_mapping.json", "{ not json") :: contents;
     diskFull := false; rejects := acceptAll |}.

(** The sample without the application links of its user. *)
Definition worldWithoutAppLinks : World :=
  {| dirs := List.filter
               (fun entry =>
                  negb (String.prefix "backup/user/listAppLinks" (fst entry)))
               tree;
     files := contents; diskFull := false; rejects := acceptAll |}.

(** The store a restore of the sample reaches after its first pass. *)
Definition mappings : IDMapping :=
  {| Mappings :=
       list_to_map [
         ("user", list_to_map [("u1", "n-u1")]);
         ("group", list_to_map [("g1", "n-g1")]);
         ("application", list_to_map [("a1", "n-a1")])
       ];
     FilePath := "backup/id_mapping.json" |}.

Definition rangeOrder : list (string * ResourceRestorer) := [
  ("applicationGroups", ApplicationGroupsRestorer);
  ("user", UserGroupsRestorer);
  ("roleAssignment", RoleAssignmentRestorer)
].

End Sample.

(** ** The catalog invariant, as the specification words it *)

(** The source type of a dependent descriptor names an independent
    descriptor of the catalog. *)
Definition sourceResolved (config : BackupConfig) (d : BackupConfigResource) : Prop :=
  exists r, r ∈ FirstPassResources config /\ Name r = SourceIDDir d.

(** Referential integrity of a catalog: every dependent descriptor has a
    resolved source type, and no source type is the name of a dependent
    descriptor. *)
Definition catalogValid (config : BackupConfig) : Prop :=
  (forall d, d ∈ SecondPassResources config -> sourceResolved config d) /\
  (forall d d', d ∈ SecondPassResources config -> d' ∈ SecondPassResources config ->
                SourceIDDir d <> Name d').

(** The descriptor of the authorization-server policy rules. *)
Definition authorizationServerRules : BackupConfigResource :=
  secondPass "authorizationServerRules" "listAuthorizationServerPolicyRules"
             "authorizationServerPolicy".

(** ** Vocabulary of the statements *)

(** The entries the store holds for one resource type. *)
Definition entriesOf (m : IDMapping) (resourceType : string) : gmap string string :=
  default ∅ (Mappings m !! resourceType).

(** The commands of the three backup passes, as [PerformBackup] and
    [backupSecondPassResources] build them. *)
Definition firstPassBackupCommand (cfg : Config) (outputDir : string)
    (resource : BackupConfigResource) : list string :=
  PrepareOktaCliArgs cfg
    [Name resource; ListCommand resource; "--batch-backup"; "--backup-dir"; outputDir].

Definition singletonBackupCommand (cfg : Config) (outputDir : string)
    (resource : BackupConfigResource) : list string :=
  PrepareOktaCliArgs cfg
    [Name resource; GetCommand resource; "--backup-dir"; outputDir].

Definition secondPassBackupCommand (cfg : Config) (outputDir : string)
    (resource : BackupConfigResource) (id : string) : list string :=
  PrepareOktaCliArgs cfg
    [Name resource; ListCommand resource;
     "--" +:+ getParameterFlagForResource (Name resource); id;
     "--batch-backup"; "--backup-dir"; outputDir].

(** The order of the backup passes as the specification numbers them:
    singletons, then the first pass, then the second pass. *)
Definition singletonPassFirst (cfg : Config) (outputDir : string)
    (commands : list (list string)) : Prop :=
  exists second,
    commands
    = (singletonBackupCommand cfg outputDir <$> SingletonResources GetBackupConfig)
      ++ (firstPassBackupCommand cfg outputDir <$> FirstPassResources GetBackupConfig)
      ++ second.

(** A path is the directory [root], an entry of it, or an entry of such an
    entry. *)
Definition underDir (env : Env) (root path : string) : Prop :=
  path = root \/
  exists a, path = filepath_Join env [root; a] \/
            exists b, path = filepath_Join env [filepath_Join env [root; a]; b].

(** An event that looks at the file system looks at a path in [inside]. *)
Definition looksOnlyAt (inside : string -> Prop) (e : Event) : Prop :=
  match e with
  | EvStat p | EvReadDir p | EvReadFile p => inside p
  | _ => True
  end.

(** The three user descriptors of the catalog that no handler reads. *)
Definition userDescriptorsWithoutHandler : list BackupConfigResource := [
  secondPass "user" "listAppLinks" "user";
  secondPass "user" "listGrants" "user";
  secondPass "user" "listIdentityProviders" "user"
].

(** The old identifiers a directory listing holds: the names of its record
    files without their [.json]. *)
Definition oldIDs (files : list DirEntry) : list string :=
  (fun file => strings.TrimSuffix (de_Name file) ".json")
    <$> List.filter isJSONFile files.

(** The number of records persisted below the source subdirectories of a
    dependent descriptor; [contents] lists a subdirectory by its name. *)
Definition dependentRecords (subdirs : list DirEntry)
    (contents : string -> list DirEntry) : nat :=
  sum_list ((fun subdir => length (List.filter isJSONFile (contents (de_Name subdir))))
              <$> List.filter de_IsDir subdirs).

(** The directory the restore reads an independent type from, and the one it
    reads a dependent descriptor from. *)
Definition firstPassDir (env : Env) (inputDir : string)
    (resource : BackupConfigResource) : string :=
  filepath_Join env [inputDir; strings.ToLower (Name resource); "lists"].

Definition secondPassDir (env : Env) (inputDir : string)
    (resource : BackupConfigResource) : string :=
  filepath_Join env [inputDir; strings.ToLower (Name resource); ListCommand resource].

(** A command of the generic second pass for [dep] that carries
    [sourceID] as the value of the source parameter; for a descriptor that
    is not an assignment it is the generic [create] of the dependent type. *)
Definition parameterizedBy (cfg : Config) (dep : BackupConfigResource)
    (sourceID : string) (args : list string) : Prop :=
  exists resourceName verb rest,
    args = PrepareOktaCliArgs cfg
             (resourceName :: verb
              :: ("--" +:+ getParameterFlagForResource (SourceIDDir dep))
              :: sourceID :: rest) /\
    (isAssignmentResource (Name dep) (ListCommand dep) = false ->
     resourceName = Name dep /\ verb = "create" /\
     exists filePath, rest = ["--restore-from"; filePath]).

(** The part of the sample tree the round trip is about: the authorization
    servers and their claims. *)
Module RoundTripSample.

Definition independent : BackupConfigResource :=
  firstPass "authorizationServer" "lists" "get".

Definition dep : BackupConfigResource :=
  secondPass "authorizationServerClaims" "listOAuth2Claims" "authorizationServer".

Definition files : list DirEntry := [Sim.file "as1.json"; Sim.file "as2.json"].

Definition subdirs : list DirEntry := [Sim.dir "as1"; Sim.dir "as2"].

Definition contents (name : string) : list DirEntry :=
  if String.eqb name "as1" then [Sim.file "c1.json"; Sim.file "c2.json"]
  else [Sim.file "c3.json"].

End RoundTripSample.

(** ** Tactics *)

(** Unfold one layer of the monad and its primitive operations. *)
Ltac run_monad :=
  unfold bind, ret, Println, Stat_IsNotExist, ReadDir, ReadFile, WriteFile,
    Run, Output, UserHomeDir, warnOnError;
  cbn [fst snd].

(** Membership in a list that is written out. *)
Ltac in_list :=
  apply list_elem_of_In; cbn; repeat (first [left; reflexivity | right]).

(** No member of a written-out list of strings is the given one. *)
Ltac not_in_list H :=
  apply list_elem_of_In in H; cbn in H;
  repeat (destruct H as [H|H]; [discriminate H|]); destruct H.

(** Go through a written-out trace: events that do not look at the file
    system are fine, the others are left to [tac]. *)
Ltac each_event tac :=
  cbn [app];
  repeat (apply List.Forall_cons; [cbn [looksOnlyAt]; first [exact I | tac]|]);
  try apply List.Forall_nil.

(** ** The developer-organization check of [main.go] *)

(** The two patterns of [main.go], [^dev-\d+\.okta\.com$] and
    [^(dev-\d+)\.okta\.com$], accept the same texts.  In Go's syntax [\d] is
    an ASCII digit and [$] is the end of the text; the digits are followed
    by a dot, so the run of digits is the longest one. *)
Module devPattern.

Definition isDigit (c : ascii) : bool :=
  let n := nat_of_ascii c in ((48 <=? n) && (n <=? 57))%nat.

(** The longest run of digits at the start of [s], and what follows it. *)
Fixpoint digits (s : string) : string * string :=
  match s with
  | EmptyString => (EmptyString, EmptyString)
  | String c s' =>
      if isDigit c then (String c (fst (digits s')), snd (digits s'))
      else (EmptyString, s)
  end.

(** [FindStringSubmatch]: the first group, when the text matches. *)
Definition FindStringSubmatch (text : string) : option string :=
  if strings.HasPrefix text "dev-" then
    let run := digits (strings.TrimPrefix text "dev-") in
    if negb (String.eqb (fst run) "") && String.eqb (snd run) ".okta.com"
    then Some ("dev-" +:+ fst run)
    else None
  else None.

(** [MatchString]. *)
Definition MatchString (text : string) : bool :=
  match FindStringSubmatch text with
  | Some _ => true
  | None => false
  end.

Fixpoint allDigits (s : string) : bool :=
  match s with
  | EmptyString => true
  | String c s' => isDigit c && allDigits s'
  end.

End devPattern.

Definition IsDeveloperOrg (domain : string) : bool :=
  devPattern.MatchString domain.

Definition extractOrgName (domain : string) : string :=
  match devPattern.FindStringSubmatch domain with
  | Some org => org
  | None => domain
  end.

Definition extractDomainFromUrl (url : string) : string :=
  strings.TrimPrefix url "https://".

(** ** The earlier copy of the backup ([PerformBackup] without a
       configuration file among the arguments) *)

Module Legacy.

Section Program.

Variable env : Env.

Definition backupFirstPassResource (outputDir : string)
    (resource : BackupConfigResource) : M unit :=
  Println ("Backing up " +:+ Name resource +:+ " using "
           +:+ ListCommand resource +:+ " command...") ;;;
  let* err :=
    Run env [Name resource; ListCommand resource;
             "--batch-backup"; "--backup-dir"; outputDir] in
  warnOnError ("Warning: Failed to execute " +:+ Name resource +:+ " "
               +:+ ListCommand resource +:+ " backup: ") err.

Definition backupSingletonResource (outputDir : string)
    (resource : BackupConfigResource) : M unit :=
  Println ("Backing up " +:+ Name resource +:+ " using "
           +:+ GetCommand resource +:+ " command...") ;;;
  let* err :=
    Run env [Name resource; GetCommand resource; "--backup-dir"; outputDir] in
  warnOnError ("Warning: Failed to execute " +:+ Name resource +:+ " "
               +:+ GetCommand resource +:+ " backup: ") err.

Definition backupSecondPassID (outputDir : string)
    (resource : BackupConfigResource) (paramFlag id : string) : M unit :=
  Println ("Backing up " +:+ Name resource +:+ " for " +:+ SourceIDDir resource
           +:+ " ID " +:+ id +:+ " using " +:+ ListCommand resource
           +:+ " command...") ;;;
  let* err :=
    Run env [Name resource; ListCommand resource; "--" +:+ paramFlag; id;
             "--batch-backup"; "--backup-dir"; outputDir] in
  warnOnError ("Warning: Failed to execute " +:+ Name resource +:+ " "
               +:+ ListCommand resource +:+ " backup for ID " +:+ id +:+ ": ") err.

Definition backupSecondPassResource (outputDir : string)
    (resource : BackupConfigResource) : M unit :=
  let sourceDir := Join env [outputDir; SourceIDDir resource; "lists"] in
  let* notExist := Stat_IsNotExist env sourceDir in
  if notExist then
    Println ("Warning: Source directory " +:+ sourceDir +:+ " not found for "
             +:+ Name resource +:+ ", skipping...")
  else
    let* r := getResourceIDsFromDirectory env sourceDir in
    match r with
    | Err e => Println ("Warning: Failed to get IDs from " +:+ sourceDir +:+ ": " +:+ e)
    | Ok ids =>
        if (length ids =? 0)%nat then
          Println ("No IDs found in " +:+ sourceDir +:+ " for "
                   +:+ Name resource +:+ ", skipping...")
        else
          Println ("Found " +:+ pretty (length ids) +:+ " IDs for "
                   +:+ Name resource +:+ " in " +:+ sourceDir) ;;;
          let paramFlag := getParameterFlagForResource (Name resource) in
          forEach ids (backupSecondPassID outputDir resource paramFlag)
    end.

Definition backupSecondPassResources (config : BackupConfig)
    (outputDir : string) : M (option string) :=
  forEach (SecondPassResources config) (backupSecondPassResource outputDir) ;;;
  ret None.

Definition backupPasses (outputDir : string) : M (option string) :=
  let backupConfig := GetBackupConfig in
  Println "Backing up first pass resources..." ;;;
  forEach (FirstPassResources backupConfig) (backupFirstPassResource outputDir) ;;;
  Println "Backing up singleton resources..." ;;;
  forEach (SingletonResources backupConfig) (backupSingletonResource outputDir) ;;;
  Println "Backing up second pass resources..." ;;;
  let* err := backupSecondPassResources backupConfig outputDir in
  warnOnError "Warning: Error during second pass resources backup: " err ;;;
  Println "Backup completed successfully!" ;;;
  ret None.

Definition PerformBackup (cfg : Config) (outputDir : string) : M (option string) :=
  if String.eqb outputDir "" then
    let* home := UserHomeDir env in
    match home with
    | Err e => ret (Some ("error getting user home directory: " +:+ e))
    | Ok home => backupPasses (Join env [home; ".okta"; OrgName cfg])
    end
  else backupPasses outputDir.

End Program.

End Legacy.

(** ** Vocabulary of the further statements *)

(** The create command of a persisted file. *)
Definition createCommand (cfg : Config) (resourceType filePath : string) : list string :=
  PrepareOktaCliArgs cfg [resourceType; "create"; "--restore-from"; filePath].

(** The command of the membership handler for two identifiers that the
    store translates. *)
Definition membershipCommand (cfg : Config) (m : IDMapping) (args : list string) : Prop :=
  exists oldUserID newUserID oldGroupID newGroupID,
    GetNewID m "user" oldUserID = Some newUserID /\
    GetNewID m "group" oldGroupID = Some newGroupID /\
    args = PrepareOktaCliArgs cfg
             ["group"; "addUserToGroup"; "--groupId"; newGroupID; "--userId"; newUserID].

(** The command of the role handler for a user that the store translates. *)
Definition roleCommand (cfg : Config) (m : IDMapping) (args : list string) : Prop :=
  exists oldUserID newUserID roleType,
    GetNewID m "user" oldUserID = Some newUserID /\
    args = PrepareOktaCliArgs cfg
             ["role"; "assignRoleToUser"; "--userId"; newUserID; "--type"; roleType].

(** A command of the application-group handler, in its primary or its
    degraded form, for two identifiers that the store translates. *)
Definition assignmentCommand (cfg : Config) (m : IDMapping) (args : list string) : Prop :=
  exists oldAppID newAppID oldGroupID newGroupID payload,
    GetNewID m "application" oldAppID = Some newAppID /\
    GetNewID m "group" oldGroupID = Some newGroupID /\
    args = PrepareOktaCliArgs cfg
             (["applicationGroups"; "assignGroupToApplication";
               "--appId"; newAppID; "--groupId"; newGroupID] ++ payload) /\
    (payload = ["--data"; "{}"] \/ exists filePath, payload = ["--restore-from"; filePath]).

(** A command of the generic second pass for a descriptor of [config] and a
    source identifier that the store translates. *)
Definition genericCommand (cfg : Config) (config : BackupConfig) (m : IDMapping)
    (args : list string) : Prop :=
  exists resource oldSourceID newSourceID filePath,
    resource ∈ SecondPassResources config /\
    customRestorers !! Name resource = None /\
    GetNewID m (SourceIDDir resource) oldSourceID = Some newSourceID /\
    secondPassCommand cfg resource
      (getParameterFlagForResource (SourceIDDir resource)) newSourceID filePath
    = Some args.

(** ** A second sample: singleton settings, and assignments persisted one
       directory down *)

Module Sample2.

Import Sim.

Definition tree : list (string * list DirEntry) := [
  ("backup/orgsetting/gets", [file "settings.json"; file "notes.txt"; dir "old"]);
  ("backup/threatinsight/getCurrentConfiguration", [file "config.json"]);
  ("backup/policy/listRules", [dir "p1"]);
  ("backup/policy/listRules/p1", [file "r1.json"]);
  ("backup/applicationgroups/listApplicationGroupAssignments", [dir "a1"]);
  ("backup/applicationgroups/listApplicationGroupAssignments/a1", [file "g1.json"]);
  ("backup/group/lists", [file "g1.json"; file "g2.json"; dir "archive"]);
  ("backup/user/lists", [])
].

Definition contents : list (string * string) := [
  ("backup/applicationgroups/listApplicationGroupAssignments/a1/g1.json",
   renderObject [("id", "g1"); ("appId", "a1")])
].

Definition world : World :=
  {| dirs := tree; files := contents; diskFull := false; rejects := acceptAll |}.

Definition worldRejecting : World :=
  {| dirs := tree; files := contents; diskFull := false; rejects := rejectAll |}.

End Sample2.

(** A create of a persisted file of one of the given descriptors. *)
Definition createOf (cfg : Config) (resources : list BackupConfigResource)
    (args : list string) : Prop :=
  exists resource filePath,
    resource ∈ resources /\ args = createCommand cfg (Name resource) filePath.

(** A command the generic second pass builds for a descriptor of [config]
    that has no custom restorer. *)
Definition genericShape (cfg : Config) (config : BackupConfig)
    (args : list string) : Prop :=
  exists resource sourceID filePath,
    resource ∈ SecondPassResources config /\
    customRestorers !! Name resource = None /\
    secondPassCommand cfg resource
      (getParameterFlagForResource (SourceIDDir resource)) sourceID filePath
    = Some args.

(** A command of one of the three custom restorers. *)
Definition specialShape (cfg : Config) (args : list string) : Prop :=
  exists rest,
    args = PrepareOktaCliArgs cfg ("group" :: "addUserToGroup" :: rest) \/
    args = PrepareOktaCliArgs cfg ("role" :: "assignRoleToUser" :: rest) \/
    args = PrepareOktaCliArgs cfg
             ("applicationGroups" :: "assignGroupToApplication" :: rest).

(** A create of the generic second pass: the descriptor's own name, the
    flag of the source identifier, and the persisted file. *)
Definition dependentCreate (cfg : Config) (config : BackupConfig)
    (args : list string) : Prop :=
  exists resource flag sourceID filePath,
    resource ∈ SecondPassResources config /\
    isAssignmentResource (Name resource) (ListCommand resource) = false /\
    args = PrepareOktaCliArgs cfg
             [Name resource; "create"; "--" +:+ flag; sourceID;
              "--restore-from"; filePath].

(** A command of [buildAssignmentCommand]: one endpoint is an identifier,
    the other one the fixed text of the source. *)
Definition placeholderCommand (cfg : Config) (args : list string) : Prop :=
  exists sourceID filePath,
    args = PrepareOktaCliArgs cfg
             ["group"; "addUserToGroup"; "--userId"; sourceID;
              "--groupId"; "TARGET_GROUP_ID"; "--assignment-file"; filePath] \/
    args = PrepareOktaCliArgs cfg
             ["user"; "addUserToGroup"; "--groupId"; sourceID;
              "--userId"; "TARGET_USER_ID"; "--assignment-file"; filePath].

(** ** Vocabulary of the round trip: what the backend answered *)

(** The create of a persisted record of a first-pass descriptor. *)
Definition recordCreate (env : Env) (cfg : Config) (inputDir : string)
    (resource : BackupConfigResource) (file : DirEntry) : list string :=
  createCommand cfg (Name resource)
    (filepath_Join env [firstPassDir env inputDir resource; de_Name file]).

(** The backend's answer to a command after a history: the child exits
    normally and its output decodes to an object whose [id] is the string
    [id]. *)
Definition backendReturns (env : Env) (h : History) (args : list string)
    (id : string) : Prop :=
  exists stdout response,
    cmd_Output env h args = Exited stdout /\
    json_Unmarshal env stdout = Ok response /\
    response !! "id" = Some (JSONString id).

(** In a run that starts after the history [h] and leaves the trace
    [trace], the old identifier [old] is the one of a record file of
    [files] whose create was run, and [new] is the identifier the backend
    answered to that very create. *)
Definition createdAs (env : Env) (cfg : Config) (inputDir : string)
    (resource : BackupConfigResource) (files : list DirEntry)
    (h : History) (trace : list Event) (old new : string) : Prop :=
  exists file before after,
    file ∈ files /\
    isJSONFile file = true /\
    old = strings.TrimSuffix (de_Name file) ".json" /\
    trace = before ++ EvExec (recordCreate env cfg inputDir resource file) :: after /\
    backendReturns env (h ++ before) (recordCreate env cfg inputDir resource file) new.

(** * Properties *)

(** ** Sanity checks of the embedding *)

Example flag_group : getParameterFlagForResource "group" = "groupId".
Proof. vm_compute. reflexivity. Qed.

Example flag_unknown : getParameterFlagForResource "authorizationServerPolicy" = "id".
Proof. vm_compute. reflexivity. Qed.

Example lower_roleAssignment : strings.ToLower "roleAssignment" = "roleassignment".
Proof. reflexivity. Qed.

Example trim_json : strings.TrimSuffix "00g1.json" ".json" = "00g1".
Proof. reflexivity. Qed.

Example sim_unmarshal :
  Sim.unmarshal (Sim.renderObject [("id", "g1"); ("appId", "a1")])
  = Ok (list_to_map [("id", JSONString "g1"); ("appId", JSONString "a1")]).
Proof. vm_compute. reflexivity. Qed.

(** ** Traces of loops *)

Lemma execs_app (t1 t2 : list Event) : execs (t1 ++ t2) = execs t1 ++ execs t2.
Proof. apply omap_app. Qed.

Lemma bind_fst {A B} (c : M A) (k : A -> M B) h :
  fst (bind c k h) = fst (k (fst (c h)) (h ++ snd (c h))).
Proof. reflexivity. Qed.

Lemma bind_snd {A B} (c : M A) (k : A -> M B) h :
  snd (bind c k h) = snd (c h) ++ snd (k (fst (c h)) (h ++ snd (c h))).
Proof. reflexivity. Qed.

(** A property of every command of every round holds of the whole loop. *)
Lemma forEach_execs_Forall {A} (Q : list string -> Prop) (body : A -> M unit) l :
  (forall x h, x ∈ l -> Forall Q (execs (snd (body x h)))) ->
  forall h, Forall Q (execs (snd (forEach l body h))).
Proof.
  induction l as [|x l IH]; intros Hbody h; cbn [forEach].
  - constructor.
  - rewrite bind_snd, execs_app. apply Forall_app; split.
    + apply Hbody. left.
    + apply IH. intros y h' Hy. apply Hbody. right. exact Hy.
Qed.

(** When the commands of a round do not depend on the history, the commands
    of the loop are those of its rounds, in order. *)
Lemma forEach_execs {A} (f : A -> list (list string)) (body : A -> M unit) l :
  (forall x h, x ∈ l -> execs (snd (body x h)) = f x) ->
  forall h, execs (snd (forEach l body h)) = concat (f <$> l).
Proof.
  induction l as [|x l IH]; intros Hbody h; cbn [forEach].
  - reflexivity.
  - rewrite bind_snd, execs_app, Hbody by left. cbn [fmap list_fmap concat].
    f_equal. apply IH. intros y h' Hy. apply Hbody. right. exact Hy.
Qed.

(** ** Generic second pass: a source identifier without a mapping *)

(** C2.  In the generic second pass of restore, a subdirectory whose name (the
    old source identifier) has no entry under the descriptor's source type is
    skipped as a whole: the only thing the program does for it is to print
    the warning; it does not list the subdirectory and runs no command. *)
Theorem unresolved_source_subdir_skipped
    (env : Env) (cfg : Config) (idMapping : IDMapping)
    (resource : BackupConfigResource) (sourceIDParam resourceDir : string)
    (subdir : DirEntry) (h : History) :
  de_IsDir subdir = true ->
  GetNewID idMapping (SourceIDDir resource) (de_Name subdir) = None ->
  restoreSecondPassSubdir env cfg idMapping resource sourceIDParam resourceDir subdir h
  = (tt, [EvPrint ("Warning: could not find new ID for " +:+ SourceIDDir resource
                   +:+ " " +:+ de_Name subdir +:+ ", skipping...")]).
Proof.
  intros Hdir Hnone. unfold restoreSecondPassSubdir.
  rewrite Hdir, Hnone. reflexivity.
Qed.

(** ** The application-group handler resolves both endpoints *)

(** C6.  For an application-group assignment record (a persisted file that
    decodes to an object with string fields [appId] and [id]), the handler
    runs an association command only when both [GetNewID] lookups succeed,
    and then the first command carries the two new identifiers; when either
    lookup fails, the record yields no command at all and exactly one
    printed line, the warning that names the unresolved endpoint. *)
Theorem application_group_needs_both_endpoints
    (env : Env) (cfg : Config) (idMapping : IDMapping) (assignmentsDir : string)
    (file : DirEntry) (h : History) (data : string)
    (assignment : gmap string JSONValue) (oldAppID oldGroupID : string) :
  let filePath := Join env [assignmentsDir; de_Name file] in
  let trace :=
    snd (ApplicationGroupsRestorer_file env cfg idMapping assignmentsDir file h) in
  isJSONFile file = true ->
  os_ReadFile env h filePath = Ok data ->
  json_Unmarshal env data = Ok assignment ->
  getString assignment "appId" = Some oldAppID ->
  getString assignment "id" = Some oldGroupID ->
  (GetNewID idMapping "application" oldAppID = None \/
   GetNewID idMapping "group" oldGroupID = None ->
   execs trace = [] /\
   (prints trace = ["Warning: could not find new ID for application " +:+ oldAppID] \/
    prints trace = ["Warning: could not find new ID for group " +:+ oldGroupID]))
  /\
  (execs trace <> [] ->
   exists newAppID newGroupID,
     GetNewID idMapping "application" oldAppID = Some newAppID /\
     GetNewID idMapping "group" oldGroupID = Some newGroupID /\
     head (execs trace)
     = Some (PrepareOktaCliArgs cfg
               ["applicationGroups"; "assignGroupToApplication";
                "--appId"; newAppID; "--groupId"; newGroupID;
                "--restore-from"; filePath])).
Proof.
  intros filePath trace Hjson Hread Hdecode Happ Hgroup.
  subst trace. unfold ApplicationGroupsRestorer_file. rewrite Hjson.
  fold filePath. run_monad. rewrite Hread, Hdecode, Happ, Hgroup.
  destruct (GetNewID idMapping "application" oldAppID) as [newAppID|] eqn:HA;
    [destruct (GetNewID idMapping "group" oldGroupID) as [newGroupID|] eqn:HG|].
  - split.
    + intros [Hn|Hn]; discriminate Hn.
    + intros _. exists newAppID, newGroupID. repeat split; reflexivity.
  - split.
    + intros _. split; [reflexivity | right; reflexivity].
    + intros Hne. exfalso. apply Hne. reflexivity.
  - split.
    + intros _. split; [reflexivity | left; reflexivity].
    + intros Hne. exfalso. apply Hne. reflexivity.
Qed.

Lemma unresolved_source_subdir_skipped_witness :
  restoreSecondPassSubdir (Sim.env Sample.world) Sim.cfg Sample.mappings
    (secondPass "userFactor" "listFactors" "user") "userId"
    "backup/userfactor/listFactors" (Sim.dir "u9") []
  = (tt, [EvPrint "Warning: could not find new ID for user u9, skipping..."]).
Proof.
  apply (unresolved_source_subdir_skipped (Sim.env Sample.world) Sim.cfg
           Sample.mappings (secondPass "userFactor" "listFactors" "user")).
  - reflexivity.
  - vm_compute. reflexivity.
Defined.

Lemma application_group_needs_both_endpoints_witness :
  let trace :=
    snd (ApplicationGroupsRestorer_file (Sim.env Sample.world) Sim.cfg Sample.mappings
           "backup/applicationgroups/listApplicationGroupAssignments"
           (Sim.file "ag2.json") []) in
  execs trace = [] /\
  prints trace = ["Warning: could not find new ID for application a7"].
Proof.
  destruct (application_group_needs_both_endpoints
              (Sim.env Sample.world) Sim.cfg Sample.mappings
              "backup/applicationgroups/listApplicationGroupAssignments"
              (Sim.file "ag2.json") []
              (Sim.renderObject [("id", "g1"); ("appId", "a7")])
              (list_to_map [("id", JSONString "g1"); ("appId", JSONString "a7")])
              "a7" "g1") as [Hskip _].
  - reflexivity.
  - reflexivity.
  - vm_compute. reflexivity.
  - vm_compute. reflexivity.
  - vm_compute. reflexivity.
  - destruct Hskip as [Hexecs Hprints].
    + left. vm_compute. reflexivity.
    + split; [exact Hexecs|].
      destruct Hprints as [Hp|Hp]; [exact Hp|].
      vm_compute in Hp. discriminate Hp.
Defined.

(** ** The catalog *)

Lemma second_pass_cases (P : BackupConfigResource -> Prop) :
  Forall P (SecondPassResources GetBackupConfig) ->
  forall d, d ∈ SecondPassResources GetBackupConfig -> P d.
Proof. intros HF d Hd. rewrite Forall_forall in HF. apply HF, Hd. Qed.

Lemma first_pass_names :
  Name <$> FirstPassResources GetBackupConfig
  = ["user"; "group"; "userType"; "application"; "authorizationServer";
     "identityProvider"; "networkZone"; "trustedOrigin"; "apiToken";
     "customDomain"; "customization"; "eventHook"; "inlineHook"; "hookKey";
     "role"; "feature"; "emailDomain"; "template"].
Proof. reflexivity. Qed.

(** The catalog as shipped is not valid in the sense of the specification:
    the rules of [policy] are sourced from [policy], which is no
    independent descriptor. *)
Lemma catalog_not_valid : ~ catalogValid GetBackupConfig.
Proof.
  intros [Hres _].
  destruct (Hres (secondPass "policy" "listRules" "policy")) as (r & Hr & Hname).
  - in_list.
  - apply (list_elem_of_fmap_2 Name) in Hr. rewrite Hname, first_pass_names in Hr.
    not_in_list Hr.
Qed.

(** C3 (amended).  Every dependent descriptor of the shipped catalog whose
    source type is neither [policy] nor [authorizationServerPolicy] is
    sourced from an independent descriptor of the catalog.  Names are shared
    between the two levels: a source type can also be the name of dependent
    descriptors.  Nothing validates the catalog: the second passes of backup
    and restore go over it and return no error, whatever it holds. *)
Theorem catalog_sources_resolved :
  (forall d, d ∈ SecondPassResources GetBackupConfig ->
             SourceIDDir d <> "policy" ->
             SourceIDDir d <> "authorizationServerPolicy" ->
             exists r, r ∈ FirstPassResources GetBackupConfig /\
                       Name r = SourceIDDir d /\ RequiresIDs r = false) /\
  (exists d d', d ∈ SecondPassResources GetBackupConfig /\
                d' ∈ SecondPassResources GetBackupConfig /\
                sourceResolved GetBackupConfig d /\ SourceIDDir d = Name d') /\
  (forall env cfg config dir idMapping h,
      fst (backupSecondPassResources env cfg config dir h) = None /\
      fst (restoreSecondPassResources env cfg config dir idMapping h) = None).
Proof.
  split; [|split].
  - refine (second_pass_cases _ _).
    repeat (constructor;
            [ intros Hp Ha;
              first [ exfalso; apply Hp; reflexivity
                    | exfalso; apply Ha; reflexivity
                    | eexists (firstPass _ "lists" "get");
                      split; [|split; [cbn; reflexivity|reflexivity]]; in_list ]
            | ]).
    constructor.
  - exists (secondPass "group" "listUsers" "group"),
           (secondPass "group" "listUsers" "group").
    split; [|split; [|split]].
    + in_list.
    + in_list.
    + exists (firstPass "group" "lists" "get"). split; [in_list|reflexivity].
    + reflexivity.
  - intros. split; reflexivity.
Qed.

Lemma catalog_sources_resolved_witness :
  exists r, r ∈ FirstPassResources GetBackupConfig /\
            Name r = "authorizationServer" /\ RequiresIDs r = false.
Proof.
  destruct catalog_sources_resolved as [Hres _].
  apply (Hres (secondPass "authorizationServerClaims" "listOAuth2Claims"
                          "authorizationServer")).
  - in_list.
  - discriminate.
  - discriminate.
Defined.

(** ** The parameter flag of backup and of restore *)

(** C10.  For the descriptor of the authorization-server policy rules, which
    is in the shipped catalog, backup computes the flag from the name and
    gets [policyId], while the generic second pass of restore computes it
    from the source type and gets the fallback [id]: the two commands carry
    different flags.  For every other dependent descriptor of the catalog the
    two flags are equal. *)
Theorem parameter_flag_differs_for_authorizationServerRules :
  authorizationServerRules ∈ SecondPassResources GetBackupConfig /\
  getParameterFlagForResource (Name authorizationServerRules) = "policyId" /\
  getParameterFlagForResource (SourceIDDir authorizationServerRules) = "id" /\
  (forall env h,
      execs (snd (backupSecondPassID env Sim.cfg "out" authorizationServerRules
                    (getParameterFlagForResource (Name authorizationServerRules))
                    "p1" h))
      = [["authorizationServerRules"; "listAuthorizationServerPolicyRules";
          "--policyId"; "p1"; "--batch-backup"; "--backup-dir"; "out"]]) /\
  secondPassCommand Sim.cfg authorizationServerRules
    (getParameterFlagForResource (SourceIDDir authorizationServerRules))
    "p1new" "r1.json"
  = Some ["authorizationServerRules"; "create"; "--id"; "p1new";
          "--restore-from"; "r1.json"] /\
  Forall (fun d => d = authorizationServerRules \/
                   getParameterFlagForResource (Name d)
                   = getParameterFlagForResource (SourceIDDir d))
         (SecondPassResources GetBackupConfig).
Proof.
  split; [|split; [|split; [|split; [|split]]]].
  - in_list.
  - vm_compute. reflexivity.
  - vm_compute. reflexivity.
  - intros env h. unfold backupSecondPassID. run_monad.
    destruct (cmd_Run env _ _); vm_compute; reflexivity.
  - vm_compute. reflexivity.
  - unfold GetBackupConfig; cbn [SecondPassResources].
    repeat (constructor;
            [ first [ right; vm_compute; reflexivity | left; reflexivity ] | ]).
    constructor.
Qed.

(** ** The ID mapping store *)

Lemma GetNewID_entriesOf m resourceType oldID :
  GetNewID m resourceType oldID = entriesOf m resourceType !! oldID.
Proof.
  unfold GetNewID, entriesOf. destruct (Mappings m !! resourceType); reflexivity.
Qed.

Lemma entriesOf_setMapping_eq m resourceType oldID newID :
  entriesOf (setMapping m resourceType oldID newID) resourceType
  = <[oldID := newID]> (entriesOf m resourceType).
Proof. unfold entriesOf, setMapping. cbn [Mappings]. rewrite lookup_insert_eq. reflexivity. Qed.

Lemma entriesOf_setMapping_ne m resourceType other oldID newID :
  other <> resourceType ->
  entriesOf (setMapping m resourceType oldID newID) other = entriesOf m other.
Proof.
  intros Hne. unfold entriesOf, setMapping. cbn [Mappings].
  rewrite lookup_insert_ne by congruence. reflexivity.
Qed.

Lemma AddMapping_fst env m resourceType oldID newID h :
  fst (AddMapping env m resourceType oldID newID h) = setMapping m resourceType oldID newID.
Proof. reflexivity. Qed.

(** When the disk is full [Save] reports it, and [AddMapping] hands its
    caller exactly what it hands over when the write goes through. *)
Lemma AddMapping_hides_persistence_failure :
  let failing := Sim.env Sample.worldDiskFull in
  let working := Sim.env Sample.world in
  let m := NewIDMapping failing "backup" in
  fst (Save failing (setMapping m "group" "g1" "new1") [])
  = Some "no space left on device" /\
  fst (Save working (setMapping m "group" "g1" "new1") []) = None /\
  AddMapping failing m "group" "g1" "new1" []
  = AddMapping working m "group" "g1" "new1" [].
Proof. repeat split. Qed.

(** C4 (amended).  [AddMapping] inserts or overwrites the entry in memory and
    at once attempts to persist the full snapshot: one write of the encoded
    mappings to the mapping file.  It returns nothing, so a failure of that
    write is dropped, and the store it leaves is the updated one whether or
    not the write succeeded. *)
Theorem AddMapping_updates_then_persists
    (env : Env) (m : IDMapping) (resourceType oldID newID : string) (h : History) :
  let run := AddMapping env m resourceType oldID newID h in
  fst run = setMapping m resourceType oldID newID /\
  GetNewID (fst run) resourceType oldID = Some newID /\
  (forall otherType otherID,
      otherType <> resourceType \/ otherID <> oldID ->
      GetNewID (fst run) otherType otherID = GetNewID m otherType otherID) /\
  snd run
  = match json_MarshalIndent env (Mappings (fst run)) with
    | Ok data => [EvWriteFile (FilePath m) data]
    | Err _ => []
    end /\
  snd run = snd (Save env (fst run) h).
Proof.
  cbn zeta. rewrite AddMapping_fst. split; [reflexivity|]. split; [|split; [|split]].
  - rewrite GetNewID_entriesOf, entriesOf_setMapping_eq. apply lookup_insert_eq.
  - intros otherType otherID Hother. rewrite !GetNewID_entriesOf.
    destruct (decide (otherType = resourceType)) as [->|Hne].
    + rewrite entriesOf_setMapping_eq. destruct Hother as [Hother|Hother]; [congruence|].
      apply lookup_insert_ne. congruence.
    + rewrite entriesOf_setMapping_ne by exact Hne. reflexivity.
  - unfold AddMapping, Save. rewrite bind_snd.
    destruct (json_MarshalIndent env _); reflexivity.
  - unfold AddMapping. rewrite bind_snd. cbn. apply app_nil_r.
Qed.

Lemma AddMapping_updates_then_persists_witness :
  GetNewID (fst (AddMapping (Sim.env Sample.worldDiskFull) Sample.mappings
                   "group" "g1" "g1-again" []))
           "user" "u1"
  = Some "n-u1".
Proof.
  destruct (AddMapping_updates_then_persists (Sim.env Sample.worldDiskFull)
              Sample.mappings "group" "g1" "g1-again" []) as (_ & _ & Hother & _).
  rewrite Hother.
  - vm_compute. reflexivity.
  - left. discriminate.
Defined.

(** ** Loading the mapping file *)

Lemma PerformRestore_returns_nil env cfg inputDir rangeOrder h :
  fst (PerformRestore env cfg inputDir rangeOrder h) = None.
Proof. reflexivity. Qed.

(** What a computation prints last, it prints last after anything. *)
Lemma bind_ends_with {A B} (c : M A) (k : A -> M B) h (e : Event) :
  (forall a h', exists before, snd (k a h') = before ++ [e]) ->
  exists before, snd (bind c k h) = before ++ [e].
Proof.
  intros Hk. destruct (Hk (fst (c h)) (h ++ snd (c h))) as [before Hbefore].
  exists (snd (c h) ++ before). rewrite bind_snd, Hbefore, app_assoc. reflexivity.
Qed.

Lemma Println_ends_with {B} (b : B) msg h :
  exists before, snd (bind (Println msg) (fun _ => ret b) h) = before ++ [EvPrint msg].
Proof. exists []. reflexivity. Qed.




(** ** Retrying a failed association *)

(** When the backend rejects every command, the membership handler and the
    role handler run one command for their record and stop at the warning. *)
Lemma membership_and_role_handlers_do_not_retry :
  let env := Sim.env Sample.worldRejecting in
  UserGroupsRestorer_Restore env Sim.cfg Sample.mappings "backup" []
  = (None,
     [EvStat "backup/user/listGroups"; EvReadDir "backup/user/listGroups";
      EvReadDir "backup/user/listGroups/u1";
      EvReadFile "backup/user/listGroups/u1/g1.json";
      EvPrint "Adding user n-u1 to group n-g1...";
      EvExec ["group"; "addUserToGroup"; "--groupId"; "n-g1"; "--userId"; "n-u1"];
      EvPrint "Warning: failed to add user n-u1 to group n-g1: exit status 1"]) /\
  RoleAssignmentRestorer_Restore env Sim.cfg Sample.mappings "backup" []
  = (None,
     [EvStat "backup/roleassignment/listAssignedRolesForUser";
      EvReadDir "backup/roleassignment/listAssignedRolesForUser";
      EvReadDir "backup/roleassignment/listAssignedRolesForUser/u1";
      EvReadFile "backup/roleassignment/listAssignedRolesForUser/u1/r1.json";
      EvPrint "Assigning role SUPER_ADMIN to user n-u1...";
      EvExec ["role"; "assignRoleToUser"; "--userId"; "n-u1"; "--type"; "SUPER_ADMIN"];
      EvPrint "Warning: failed to assign role SUPER_ADMIN to user n-u1: exit status 1"]).
Proof. vm_compute. split; reflexivity. Qed.

(** C7 (amended).  Only the application-group handler retries: when its
    primary call (with [--restore-from]) fails for a record whose two
    endpoints resolve, it runs the degraded call (with [--data {}]) and then
    gives the record up.  The membership handler and the role handler run at
    most one command for a record.  In all three handlers a failed command is
    not fatal: [Restore] returns an error only when its top directory cannot
    be listed, and [PerformRestore] returns no error in any case. *)
Theorem only_application_groups_retries
    (env : Env) (cfg : Config) (idMapping : IDMapping) (h : History) :
  (forall assignmentsDir file data assignment oldAppID oldGroupID newAppID newGroupID,
      let filePath := Join env [assignmentsDir; de_Name file] in
      let call last :=
        PrepareOktaCliArgs cfg
          (["applicationGroups"; "assignGroupToApplication";
            "--appId"; newAppID; "--groupId"; newGroupID] ++ last) in
      isJSONFile file = true ->
      os_ReadFile env h filePath = Ok data ->
      json_Unmarshal env data = Ok assignment ->
      getString assignment "appId" = Some oldAppID ->
      getString assignment "id" = Some oldGroupID ->
      GetNewID idMapping "application" oldAppID = Some newAppID ->
      GetNewID idMapping "group" oldGroupID = Some newGroupID ->
      (forall h', cmd_Run env h' (call ["--restore-from"; filePath]) <> None) ->
      execs (snd (ApplicationGroupsRestorer_file env cfg idMapping assignmentsDir file h))
      = [call ["--restore-from"; filePath]; call ["--data"; "{}"]]) /\
  (forall userPath newUserID file,
      length (execs (snd (UserGroupsRestorer_file env cfg idMapping
                            userPath newUserID file h))) <= 1) /\
  (forall userPath newUserID file,
      length (execs (snd (RoleAssignmentRestorer_file env cfg
                            userPath newUserID file h))) <= 1) /\
  (forall restorer inputDir e,
      fst (Restore env restorer cfg idMapping inputDir h) = Some e ->
      exists topDir e', os_ReadDir env (h ++ [EvStat topDir]) topDir = Err e') /\
  (forall inputDir rangeOrder,
      fst (PerformRestore env cfg inputDir rangeOrder h) = None).
Proof.
  split; [|split; [|split; [|split]]].
  - intros assignmentsDir file data assignment oldAppID oldGroupID newAppID newGroupID
           filePath call Hjson Hread Hdecode Happ Hgroup HA HG Hfail.
    unfold ApplicationGroupsRestorer_file. rewrite Hjson. fold filePath.
    run_monad. rewrite Hread, Hdecode, Happ, Hgroup, HA, HG. cbn [fst snd].
    match goal with
    | |- context [cmd_Run env ?h1 ?args] =>
        destruct (cmd_Run env h1 args) as [e|] eqn:Hrun;
        [|exfalso; exact (Hfail h1 Hrun)]
    end.
    cbn [fst snd].
    match goal with
    | |- context [match cmd_Run env ?h2 ?args with _ => _ end] =>
        destruct (cmd_Run env h2 args)
    end; reflexivity.
  - intros userPath newUserID file. unfold UserGroupsRestorer_file. run_monad.
    repeat case_match; cbn; lia.
  - intros userPath newUserID file. unfold RoleAssignmentRestorer_file. run_monad.
    repeat case_match; cbn; lia.
  - intros restorer inputDir e.
    destruct restorer; cbn [Restore];
      [ unfold ApplicationGroupsRestorer_Restore
      | unfold UserGroupsRestorer_Restore
      | unfold RoleAssignmentRestorer_Restore ];
      run_monad;
      (destruct (os_Stat_IsNotExist env h _); cbn [fst snd]; [discriminate|]);
      match goal with
      | |- context [os_ReadDir env ?h1 ?d] =>
          destruct (os_ReadDir env h1 d) as [entries|e'] eqn:Hdir
      end; cbn [fst snd]; try discriminate; intros _; eauto.
  - intros. reflexivity.
Qed.

Lemma only_application_groups_retries_witness :
  execs (snd (ApplicationGroupsRestorer_file (Sim.env Sample.worldRejecting) Sim.cfg
                Sample.mappings
                "backup/applicationgroups/listApplicationGroupAssignments"
                (Sim.file "ag1.json") []))
  = [["applicationGroups"; "assignGroupToApplication"; "--appId"; "n-a1";
      "--groupId"; "n-g1"; "--restore-from";
      "backup/applicationgroups/listApplicationGroupAssignments/ag1.json"];
     ["applicationGroups"; "assignGroupToApplication"; "--appId"; "n-a1";
      "--groupId"; "n-g1"; "--data"; "{}"]].
Proof.
  apply (proj1 (only_application_groups_retries (Sim.env Sample.worldRejecting)
                  Sim.cfg Sample.mappings [])
               "backup/applicationgroups/listApplicationGroupAssignments"
               (Sim.file "ag1.json")
               (Sim.renderObject [("id", "g1"); ("appId", "a1")])
               (list_to_map [("id", JSONString "g1"); ("appId", JSONString "a1")])
               "a1" "g1" "n-a1" "n-g1").
  - reflexivity.
  - reflexivity.
  - vm_compute. reflexivity.
  - vm_compute. reflexivity.
  - vm_compute. reflexivity.
  - vm_compute. reflexivity.
  - vm_compute. reflexivity.
  - intros h'. discriminate.
Defined.

(** ** The order of the backup passes *)

Lemma concat_singletons {A B} (f : A -> B) (l : list A) :
  concat ((fun x => [f x]) <$> l) = f <$> l.
Proof. induction l as [|x l IH]; [reflexivity|]. cbn. rewrite IH. reflexivity. Qed.

Lemma backupFirstPassResource_execs env cfg outputDir resource h :
  execs (snd (backupFirstPassResource env cfg outputDir resource h))
  = [firstPassBackupCommand cfg outputDir resource].
Proof.
  unfold backupFirstPassResource. run_monad. destruct (cmd_Run env _ _); reflexivity.
Qed.

Lemma backupSingletonResource_execs env cfg outputDir resource h :
  execs (snd (backupSingletonResource env cfg outputDir resource h))
  = [singletonBackupCommand cfg outputDir resource].
Proof.
  unfold backupSingletonResource. run_monad. destruct (cmd_Run env _ _); reflexivity.
Qed.

Lemma backupSecondPassID_execs env cfg outputDir resource id h :
  execs (snd (backupSecondPassID env cfg outputDir resource
                (getParameterFlagForResource (Name resource)) id h))
  = [secondPassBackupCommand cfg outputDir resource id].
Proof.
  unfold backupSecondPassID. run_monad. destruct (cmd_Run env _ _); reflexivity.
Qed.

Lemma backupSecondPassResource_execs env cfg outputDir resource h :
  Forall (fun c => exists id, c = secondPassBackupCommand cfg outputDir resource id)
         (execs (snd (backupSecondPassResource env cfg outputDir resource h))).
Proof.
  unfold backupSecondPassResource.
  rewrite bind_snd. cbn beta zeta.
  rewrite execs_app. apply Forall_app. split; [repeat constructor|].
  destruct (fst (Stat_IsNotExist env _ h)); [repeat constructor|].
  rewrite bind_snd. cbn beta zeta. rewrite execs_app. apply Forall_app. split.
  { unfold getResourceIDsFromDirectory. run_monad. repeat constructor. }
  destruct (fst (getResourceIDsFromDirectory env _ _)) as [ids|e];
    [|repeat constructor].
  destruct (length ids =? 0)%nat; [repeat constructor|].
  rewrite bind_snd, execs_app. apply Forall_app. split; [repeat constructor|].
  apply forEach_execs_Forall. intros id h' _.
  rewrite backupSecondPassID_execs. repeat constructor. exists id. reflexivity.
Qed.

Lemma backupPasses_execs env cfg outputDir h :
  exists second,
    execs (snd (backupPasses env cfg outputDir h))
    = (firstPassBackupCommand cfg outputDir <$> FirstPassResources GetBackupConfig)
      ++ (singletonBackupCommand cfg outputDir <$> SingletonResources GetBackupConfig)
      ++ second /\
    Forall (fun c => exists d id,
                d ∈ SecondPassResources GetBackupConfig /\
                c = secondPassBackupCommand cfg outputDir d id)
           second.
Proof.
  unfold backupPasses, backupSecondPassResources. cbn zeta.
  repeat (rewrite bind_snd; cbn beta zeta). rewrite !execs_app.
  rewrite (forEach_execs (fun r => [firstPassBackupCommand cfg outputDir r]))
    by (intros; apply backupFirstPassResource_execs).
  rewrite (forEach_execs (fun r => [singletonBackupCommand cfg outputDir r]))
    by (intros; apply backupSingletonResource_execs).
  rewrite !concat_singletons.
  cbn [Println execs omap list_omap snd app ret]. rewrite !app_nil_r.
  eexists. split; [reflexivity|].
  apply forEach_execs_Forall. intros d h' Hd.
    eapply Forall_impl; [apply backupSecondPassResource_execs|].
    intros c [id ->]. eauto.
Qed.

(** On the sample tree the backup starts with the first pass ([user lists]),
    runs the singleton pass after it and the second pass last: the commands
    are not in the order singleton, first, second. *)
Lemma backup_does_not_start_with_singletons :
  let run := PerformBackup (Sim.env Sample.world) Sim.cfg "backup" [] in
  head (execs (snd run))
  = Some ["user"; "lists"; "--batch-backup"; "--backup-dir"; "backup"] /\
  execs (snd run) !! 18 = Some ["orgSetting"; "gets"; "--backup-dir"; "backup"] /\
  drop 30 (execs (snd run))
  = [["group"; "listUsers"; "--groupId"; "g1";
      "--batch-backup"; "--backup-dir"; "backup"];
     ["group"; "listAssignedApplicationsFor"; "--groupId"; "g1";
      "--batch-backup"; "--backup-dir"; "backup"];
     ["user"; "listAppLinks"; "--userId"; "u1";
      "--batch-backup"; "--backup-dir"; "backup"];
     ["user"; "listGroups"; "--userId"; "u1";
      "--batch-backup"; "--backup-dir"; "backup"];
     ["user"; "listGrants"; "--userId"; "u1";
      "--batch-backup"; "--backup-dir"; "backup"];
     ["user"; "listIdentityProviders"; "--userId"; "u1";
      "--batch-backup"; "--backup-dir"; "backup"];
     ["userFactor"; "listFactors"; "--userId"; "u1";
      "--batch-backup"; "--backup-dir"; "backup"];
     ["roleAssignment"; "listAssignedRolesForUser"; "--userId"; "u1";
      "--batch-backup"; "--backup-dir"; "backup"]] /\
  ~ singletonPassFirst Sim.cfg "backup" (execs (snd run)).
Proof.
  cbn zeta. split; [|split; [|split]].
  - vm_compute. reflexivity.
  - vm_compute. reflexivity.
  - vm_compute. reflexivity.
  - intros [second Hsecond]. vm_compute in Hsecond. discriminate Hsecond.
Qed.

(** C8 (amended).  Every backup run that gets past the choice of its output
    directory processes the first pass over the independent descriptors
    first (one list command per descriptor, in catalog order), then the
    singleton pass (one get command per singleton descriptor), then the
    second pass over the dependent descriptors. *)
Theorem backup_pass_order
    (env : Env) (cfg : Config) (outputDir : string) (h : History) :
  let run := PerformBackup env cfg outputDir h in
  fst run = None ->
  exists dir second,
    execs (snd run)
    = (firstPassBackupCommand cfg dir <$> FirstPassResources GetBackupConfig)
      ++ (singletonBackupCommand cfg dir <$> SingletonResources GetBackupConfig)
      ++ second /\
    Forall (fun c => exists d id,
                d ∈ SecondPassResources GetBackupConfig /\
                c = secondPassBackupCommand cfg dir d id)
           second.
Proof.
  cbn zeta. unfold PerformBackup.
  destruct (String.eqb outputDir "").
  - rewrite bind_fst, bind_snd. run_monad.
    destruct (os_UserHomeDir env h) as [home|e]; [|discriminate].
    intros _. exists (Join env [home; ".okta"; OrgName cfg]).
    apply backupPasses_execs.
  - intros _. exists outputDir. apply backupPasses_execs.
Qed.

Lemma backup_pass_order_witness :
  exists dir second,
    execs (snd (PerformBackup (Sim.env Sample.world) Sim.cfg "" []))
    = (firstPassBackupCommand Sim.cfg dir <$> FirstPassResources GetBackupConfig)
      ++ (singletonBackupCommand Sim.cfg dir <$> SingletonResources GetBackupConfig)
      ++ second /\
    Forall (fun c => exists d id,
                d ∈ SecondPassResources GetBackupConfig /\
                c = secondPassBackupCommand Sim.cfg dir d id)
           second.
Proof.
  apply (backup_pass_order (Sim.env Sample.world) Sim.cfg "" []).
  vm_compute. reflexivity.
Defined.

(** ** Dispatch to the custom restorers *)

Lemma forEach_trace_Forall {A} (P : Event -> Prop) (body : A -> M unit) l :
  (forall x h, x ∈ l -> Forall P (snd (body x h))) ->
  forall h, Forall P (snd (forEach l body h)).
Proof.
  induction l as [|x l IH]; intros Hbody h; cbn [forEach].
  - constructor.
  - rewrite bind_snd. apply Forall_app; split.
    + apply Hbody. left.
    + apply IH. intros y h' Hy. apply Hbody. right. exact Hy.
Qed.

Lemma UserGroupsRestorer_file_looks env cfg idMapping root user newUserID file h :
  Forall (looksOnlyAt (underDir env root))
         (snd (UserGroupsRestorer_file env cfg idMapping
                 (Join env [root; user]) newUserID file h)).
Proof.
  assert (Hfile : underDir env root (Join env [Join env [root; user]; de_Name file])).
  { right. exists user. right. exists (de_Name file). reflexivity. }
  unfold UserGroupsRestorer_file. run_monad.
  repeat case_match; each_event ltac:(exact Hfile).
Qed.

Lemma UserGroupsRestorer_userDir_looks env cfg idMapping root userDir h :
  Forall (looksOnlyAt (underDir env root))
         (snd (UserGroupsRestorer_userDir env cfg idMapping root userDir h)).
Proof.
  assert (Hdir : underDir env root (Join env [root; de_Name userDir])).
  { right. exists (de_Name userDir). left. reflexivity. }
  unfold UserGroupsRestorer_userDir.
  destruct (de_IsDir userDir); [|constructor].
  destruct (GetNewID idMapping "user" (de_Name userDir)); [|each_event idtac].
  rewrite bind_snd. apply Forall_app. split; [each_event ltac:(exact Hdir)|].
  cbn beta. destruct (fst (ReadDir env _ h)); [|each_event idtac].
  apply forEach_trace_Forall. intros file h' _.
  apply UserGroupsRestorer_file_looks.
Qed.

Lemma UserGroupsRestorer_Restore_looks env cfg idMapping inputDir h :
  Forall (looksOnlyAt (underDir env (Join env [inputDir; "user"; "listGroups"])))
         (snd (UserGroupsRestorer_Restore env cfg idMapping inputDir h)).
Proof.
  unfold UserGroupsRestorer_Restore. cbn zeta.
  rewrite bind_snd. apply Forall_app. split; [each_event ltac:(left; reflexivity)|].
  cbn beta. destruct (fst (Stat_IsNotExist env _ h)); [constructor|].
  rewrite bind_snd. apply Forall_app. split; [each_event ltac:(left; reflexivity)|].
  cbn beta. destruct (fst (ReadDir env _ _)); [|constructor].
  rewrite bind_snd. apply Forall_app. split; [|constructor].
  apply forEach_trace_Forall. intros userDir h' _.
  apply UserGroupsRestorer_userDir_looks.
Qed.

(** C9.  The generic second pass skips a dependent descriptor as soon as its
    name has an entry among the custom restorers, whatever its list command:
    for such a descriptor it does nothing at all.  The shipped catalog holds
    the user descriptors for [listAppLinks], [listGrants] and
    [listIdentityProviders]; [user] has a custom restorer, and that restorer
    looks at nothing outside [user/listGroups].  So these three are restored
    by neither path: on the sample tree, the whole restore is the same with
    and without the persisted application links. *)
Theorem custom_handler_dispatch_by_name_only :
  (forall env cfg inputDir idMapping d h,
      is_Some (customRestorers !! Name d) ->
      restoreSecondPassResource env cfg inputDir idMapping d h = (tt, [])) /\
  Forall (fun d => d ∈ SecondPassResources GetBackupConfig /\
                   customRestorers !! Name d = Some UserGroupsRestorer)
         userDescriptorsWithoutHandler /\
  (forall env cfg idMapping inputDir h,
      Forall (looksOnlyAt (underDir env (Join env [inputDir; "user"; "listGroups"])))
             (snd (Restore env UserGroupsRestorer cfg idMapping inputDir h))) /\
  PerformRestore (Sim.env Sample.world) Sim.cfg "backup" Sample.rangeOrder []
  = PerformRestore (Sim.env Sample.worldWithoutAppLinks) Sim.cfg "backup"
      Sample.rangeOrder [].
Proof.
  split; [|split; [|split]].
  - intros env cfg inputDir idMapping d h [restorer Hcustom].
    unfold restoreSecondPassResource. rewrite Hcustom. reflexivity.
  - repeat (constructor; [split; [in_list | vm_compute; reflexivity]|]).
    constructor.
  - intros. apply UserGroupsRestorer_Restore_looks.
  - vm_compute. reflexivity.
Qed.

Lemma custom_handler_dispatch_by_name_only_witness :
  restoreSecondPassResource (Sim.env Sample.world) Sim.cfg "backup" Sample.mappings
    (secondPass "user" "listAppLinks" "user") []
  = (tt, []).
Proof.
  apply (proj1 custom_handler_dispatch_by_name_only).
  exists UserGroupsRestorer. vm_compute. reflexivity.
Defined.

(** ** File names and identifiers *)

Lemma substring_all s : String.substring 0 (String.length s) s = s.
Proof. induction s as [|c s IH]; [reflexivity|]. cbn. rewrite IH. reflexivity. Qed.

Lemma substring_split s n :
  n <= String.length s ->
  s = String.substring 0 n s +:+ String.substring n (String.length s - n) s.
Proof.
  revert n. induction s as [|c s IH]; intros n Hn.
  - cbn in Hn. assert (n = 0) as -> by lia. reflexivity.
  - destruct n as [|n].
    + cbn [String.substring String.length Nat.sub]. rewrite substring_all. reflexivity.
    + cbn in Hn. cbn [String.substring String.length Nat.sub].
      change (String c (String.substring 0 n s) +:+ ?t)
        with (String c (String.substring 0 n s +:+ t)).
      f_equal. apply IH. lia.
Qed.

(** A name with the suffix is its trimmed form followed by the suffix. *)
Lemma TrimSuffix_HasSuffix s suffix :
  strings.HasSuffix s suffix = true ->
  s = strings.TrimSuffix s suffix +:+ suffix.
Proof.
  intros Hsuf. unfold strings.TrimSuffix. rewrite Hsuf.
  unfold strings.HasSuffix in Hsuf. apply andb_true_iff in Hsuf as [Hlen Heq].
  apply Nat.leb_le in Hlen. apply String.eqb_eq in Heq.
  pose proof (substring_split s (String.length s - String.length suffix)) as Hs.
  replace (String.length s - (String.length s - String.length suffix))
    with (String.length suffix) in Hs by lia.
  rewrite Heq in Hs. apply Hs. lia.
Qed.

Lemma oldIDs_NoDup files :
  NoDup (de_Name <$> files) -> NoDup (oldIDs files).
Proof.
  unfold oldIDs. induction files as [|f files IH]; intros Hnd; [constructor|].
  cbn [fmap list_fmap] in Hnd. apply NoDup_cons in Hnd as [Hnotin Hnd].
  cbn [List.filter]. destruct (isJSONFile f) eqn:Hf; [|apply IH, Hnd].
  cbn [fmap list_fmap]. apply NoDup_cons. split; [|apply IH, Hnd].
  intros Hin. apply list_elem_of_fmap in Hin as (g & Heq & Hg).
  apply list_elem_of_In, filter_In in Hg as [Hg HgJSON].
  apply Hnotin. apply list_elem_of_fmap. exists g. split; [|apply list_elem_of_In, Hg].
  unfold isJSONFile in Hf, HgJSON.
  apply andb_true_iff in Hf as [_ Hf]. apply andb_true_iff in HgJSON as [_ HgJSON].
  rewrite (TrimSuffix_HasSuffix _ _ Hf), (TrimSuffix_HasSuffix _ _ HgJSON), Heq.
  reflexivity.
Qed.

(** ** The first pass of restore and the mapping it builds *)

Lemma forEachS_app {A S} (body : A -> S -> M S) l1 l2 s h :
  fst (forEachS (l1 ++ l2) body s h)
  = fst (forEachS l2 body (fst (forEachS l1 body s h)) (h ++ snd (forEachS l1 body s h))).
Proof.
  revert s h. induction l1 as [|x l1 IH]; intros s h.
  - cbn [app forEachS ret fst snd]. rewrite app_nil_r. reflexivity.
  - cbn [app forEachS]. rewrite bind_fst, IH, bind_fst, bind_snd, app_assoc.
    reflexivity.
Qed.

(** What one file of the first pass does to the store. *)
Lemma restoreFirstPassFile_fst env cfg resource resourceDir file m h :
  fst (restoreFirstPassFile env cfg resource resourceDir file m h)
  = if isJSONFile file then
      match fst (restoreResource env cfg (Name resource)
                   (Join env [resourceDir; de_Name file])
                   (h ++ [EvPrint ("Restoring " +:+ Name resource
                                   +:+ " from previous ID "
                                   +:+ strings.TrimSuffix (de_Name file) ".json"
                                   +:+ "...")]))
      with
      | Ok newID =>
          setMapping m (Name resource)
                     (strings.TrimSuffix (de_Name file) ".json") newID
      | Err _ => m
      end
    else m.
Proof.
  unfold restoreFirstPassFile. destruct (isJSONFile file); [|reflexivity].
  cbn zeta. rewrite !bind_fst. cbn beta.
  change (snd (Println ?msg h)) with [EvPrint msg].
  destruct (fst (restoreResource _ _ _ _ _)); reflexivity.
Qed.

(** The first pass over a resource leaves the entries of every other type
    as they are. *)
Lemma restoreFirstPassFiles_other env cfg resource resourceDir other files m h :
  other <> Name resource ->
  entriesOf (fst (forEachS files (restoreFirstPassFile env cfg resource resourceDir) m h))
            other
  = entriesOf m other.
Proof.
  intros Hne. revert m h. induction files as [|file files IH]; intros m h.
  - reflexivity.
  - cbn [forEachS]. rewrite bind_fst, IH, restoreFirstPassFile_fst.
    destruct (isJSONFile file); [|reflexivity].
    destruct (fst (restoreResource _ _ _ _ _)); [|reflexivity].
    apply entriesOf_setMapping_ne, Hne.
Qed.

Lemma restoreFirstPassResource_other env cfg inputDir resource other m h :
  other <> Name resource ->
  entriesOf (fst (restoreFirstPassResource env cfg inputDir resource m h)) other
  = entriesOf m other.
Proof.
  intros Hne. unfold restoreFirstPassResource.
  destruct (String.eqb (ListCommand resource) ""); [reflexivity|].
  cbn zeta. rewrite bind_fst. cbn beta.
  destruct (fst (Stat_IsNotExist env _ h)); [reflexivity|].
  rewrite !bind_fst. cbn beta.
  destruct (fst (ReadDir env _ _)); [|reflexivity].
  apply restoreFirstPassFiles_other, Hne.
Qed.

Lemma restoreFirstPassResources_other env cfg inputDir resources other m h :
  other ∉ Name <$> resources ->
  entriesOf (fst (forEachS resources (restoreFirstPassResource env cfg inputDir) m h))
            other
  = entriesOf m other.
Proof.
  revert m h. induction resources as [|resource resources IH]; intros m h Hnotin.
  - reflexivity.
  - cbn [fmap list_fmap] in Hnotin. apply not_elem_of_cons in Hnotin as [Hne Hnotin].
    cbn [forEachS]. rewrite bind_fst, IH by exact Hnotin.
    apply restoreFirstPassResource_other, Hne.
Qed.

Lemma first_pass_names_NoDup : NoDup (Name <$> FirstPassResources GetBackupConfig).
Proof.
  rewrite first_pass_names.
  repeat (apply NoDup_cons; split; [intros Hin; not_in_list Hin|]).
  apply NoDup_nil_2.
Qed.

Lemma first_pass_list_commands resource :
  resource ∈ FirstPassResources GetBackupConfig ->
  String.eqb (ListCommand resource) "" = false.
Proof.
  intros Hin. apply list_elem_of_In in Hin. cbn in Hin.
  repeat (destruct Hin as [<-|Hin]; [reflexivity|]). destruct Hin.
Qed.

(** ** The commands of the generic second pass *)

(** For every descriptor of the catalog that the generic pass handles, the
    command of a record exists and carries the source identifier it is
    given. *)
Lemma secondPassCommand_shape (cfg : Config) (dep : BackupConfigResource)
    (sourceID filePath : string) :
  dep ∈ SecondPassResources GetBackupConfig ->
  customRestorers !! Name dep = None ->
  exists args : list string,
    secondPassCommand cfg dep
      (getParameterFlagForResource (SourceIDDir dep)) sourceID filePath
    = Some args /\
    parameterizedBy cfg dep sourceID args.
Proof.
  revert dep. refine (second_pass_cases _ _).
  repeat (constructor;
          [ intros Hcustom;
            first [ discriminate Hcustom
                  | eexists; split; [reflexivity|];
                    eexists _, _, _; split; [reflexivity|];
                    intros Hassign;
                    first [ discriminate Hassign
                          | split; [reflexivity|split; [reflexivity|]];
                            eexists; reflexivity ] ]
          |]).
  constructor.
Qed.

Lemma restoreSecondPassFile_execs env cfg resource sourceIDParam newSourceID subPath file h :
  execs (snd (restoreSecondPassFile env cfg resource sourceIDParam newSourceID
                subPath file h))
  = if isJSONFile file then
      match secondPassCommand cfg resource sourceIDParam newSourceID
              (Join env [subPath; de_Name file]) with
      | Some args => [args]
      | None => []
      end
    else [].
Proof.
  unfold restoreSecondPassFile. destruct (isJSONFile file); [|reflexivity].
  cbn zeta. destruct (secondPassCommand _ _ _ _ _); [|reflexivity].
  run_monad. destruct (cmd_Run env h l); reflexivity.
Qed.

(** ** The creates of the first pass and the answers of the backend *)

Lemma restoreResource_snd env cfg resourceType filePath h :
  snd (restoreResource env cfg resourceType filePath h)
  = [EvExec (createCommand cfg resourceType filePath)].
Proof. reflexivity. Qed.

(** [restoreResource] returns the identifier the backend answers. *)
Lemma restoreResource_backend env cfg resourceType filePath h id :
  backendReturns env h (createCommand cfg resourceType filePath) id ->
  fst (restoreResource env cfg resourceType filePath h) = Ok id.
Proof.
  intros (stdout & response & Hout & Hdecode & Hid).
  unfold createCommand in Hout. unfold restoreResource. run_monad.
  rewrite Hout, Hdecode. unfold getString. rewrite Hid. reflexivity.
Qed.

(** A record file of the first pass is announced and then created,
    whatever the backend answers. *)
Lemma restoreFirstPassFile_snd env cfg resource resourceDir file m h :
  isJSONFile file = true ->
  exists after,
    snd (restoreFirstPassFile env cfg resource resourceDir file m h)
    = EvPrint ("Restoring " +:+ Name resource +:+ " from previous ID "
               +:+ strings.TrimSuffix (de_Name file) ".json" +:+ "...")
      :: EvExec (createCommand cfg (Name resource)
                   (Join env [resourceDir; de_Name file]))
      :: after.
Proof.
  intros HJSON. unfold restoreFirstPassFile. rewrite HJSON. cbn zeta.
  rewrite bind_snd. cbn beta. rewrite bind_snd, restoreResource_snd.
  change (snd (Println ?msg h)) with [EvPrint msg]. cbn [app].
  eexists. reflexivity.
Qed.

Lemma forEachS_app_snd {A S} (body : A -> S -> M S) l1 l2 s h :
  snd (forEachS (l1 ++ l2) body s h)
  = snd (forEachS l1 body s h)
    ++ snd (forEachS l2 body (fst (forEachS l1 body s h))
              (h ++ snd (forEachS l1 body s h))).
Proof.
  revert s h. induction l1 as [|x l1 IH]; intros s h.
  - cbn [app forEachS ret fst snd]. rewrite app_nil_r. reflexivity.
  - cbn [app forEachS]. rewrite !bind_snd, !bind_fst, IH, <- !app_assoc.
    reflexivity.
Qed.

(** A create found in a later part of a run is a create of the run. *)
Lemma createdAs_later env cfg inputDir resource files h t1 t2 old new :
  createdAs env cfg inputDir resource files (h ++ t1) t2 old new ->
  createdAs env cfg inputDir resource files h (t1 ++ t2) old new.
Proof.
  intros (file & before & after & Hin & HJSON & Hold & Htrace & Hback).
  exists file, (t1 ++ before), after.
  refine (conj Hin (conj HJSON (conj Hold (conj _ _)))).
  - rewrite Htrace, <- app_assoc. reflexivity.
  - rewrite app_assoc. exact Hback.
Qed.

(** A create of a run is a create of every longer run. *)
Lemma createdAs_longer env cfg inputDir resource files h t1 t2 old new :
  createdAs env cfg inputDir resource files h t1 old new ->
  createdAs env cfg inputDir resource files h (t1 ++ t2) old new.
Proof.
  intros (file & before & after & Hin & HJSON & Hold & Htrace & Hback).
  exists file, before, (after ++ t2).
  refine (conj Hin (conj HJSON (conj Hold (conj _ Hback)))).
  rewrite Htrace, <- app_assoc. reflexivity.
Qed.

Lemma oldIDs_cons file fs :
  oldIDs (file :: fs)
  = if isJSONFile file
    then strings.TrimSuffix (de_Name file) ".json" :: oldIDs fs
    else oldIDs fs.
Proof. unfold oldIDs. cbn [List.filter]. destruct (isJSONFile file); reflexivity. Qed.

Section RoundTrip.

Variable env : Env.
Variable cfg : Config.
Variable inputDir : string.

(** An independent descriptor and the listing of its directory. *)
Variable independent : BackupConfigResource.
Variable files : list DirEntry.

Hypothesis independent_in_catalog : independent ∈ FirstPassResources GetBackupConfig.
Hypothesis listing : forall h,
  os_Stat_IsNotExist env h (firstPassDir env inputDir independent) = false /\
  os_ReadDir env h (firstPassDir env inputDir independent) = Ok files.

(** The backend answers every create of a persisted record, whenever it is
    asked, with an identifier that is none of the old ones. *)
Hypothesis fresh : forall h file,
  file ∈ files -> isJSONFile file = true ->
  exists newID,
    backendReturns env h (recordCreate env cfg inputDir independent file) newID /\
    newID ∉ oldIDs files.

(** The loop over the record files: the keys it adds are the old
    identifiers of the files, and every entry that was not there before is
    the answer of the backend to a create the loop ran. *)
Lemma first_pass_files_build_mapping fs m h :
  (forall file, file ∈ fs -> file ∈ files) ->
  let run :=
    forEachS fs
      (restoreFirstPassFile env cfg independent
         (firstPassDir env inputDir independent)) m h in
  dom (entriesOf (fst run) (Name independent))
  = dom (entriesOf m (Name independent)) ∪ list_to_set (oldIDs fs) /\
  (forall old new,
      entriesOf (fst run) (Name independent) !! old = Some new ->
      entriesOf m (Name independent) !! old = Some new \/
      (createdAs env cfg inputDir independent files h (snd run) old new /\
       new ∉ oldIDs files)).
Proof.
  revert m h. induction fs as [|file fs IH]; intros m h Hsub; cbn zeta.
  - cbn [forEachS ret fst]. split; [|auto].
    unfold oldIDs. cbn [List.filter fmap list_fmap list_to_set foldr].
    rewrite (right_id_L ∅ (∪)). reflexivity.
  - cbn [forEachS]. rewrite bind_fst, bind_snd, oldIDs_cons.
    assert (Hrest : forall file', file' ∈ fs -> file' ∈ files).
    { intros file' Hin. apply Hsub. right. exact Hin. }
    pose proof (restoreFirstPassFile_fst env cfg independent
                  (firstPassDir env inputDir independent) file m h) as Hfst.
    destruct (isJSONFile file) eqn:HJSON.
    + destruct (fresh (h ++ [EvPrint ("Restoring " +:+ Name independent
                                      +:+ " from previous ID "
                                      +:+ strings.TrimSuffix (de_Name file) ".json"
                                      +:+ "...")]) file) as (newID & Hback & Hnew).
      { apply Hsub. left. }
      { exact HJSON. }
      pose proof (restoreResource_backend _ _ _ _ _ _ Hback) as Hcreate.
      unfold Join in Hfst. rewrite Hcreate in Hfst.
      destruct (restoreFirstPassFile_snd env cfg independent
                  (firstPassDir env inputDir independent) file m h HJSON)
        as [rest Hsnd].
      destruct (IH (fst (restoreFirstPassFile env cfg independent
                           (firstPassDir env inputDir independent) file m h))
                   (h ++ snd (restoreFirstPassFile env cfg independent
                                (firstPassDir env inputDir independent) file m h))
                   Hrest)
        as [IHdom IHval].
      cbn zeta in IHdom, IHval. split.
      * rewrite IHdom, Hfst, entriesOf_setMapping_eq, dom_insert_L.
        rewrite list_to_set_cons.
        rewrite (comm_L (∪) {[_]} (dom _)), (assoc_L (∪)). reflexivity.
      * intros old new Hlookup.
        destruct (IHval old new Hlookup) as [Hm|[Hcreated Hfresh]].
        -- rewrite Hfst, entriesOf_setMapping_eq in Hm.
           destruct (decide (strings.TrimSuffix (de_Name file) ".json" = old))
             as [<-|Hne].
           ++ rewrite lookup_insert_eq in Hm. injection Hm as <-.
              right. split; [|exact Hnew].
              exists file,
                [EvPrint ("Restoring " +:+ Name independent
                          +:+ " from previous ID "
                          +:+ strings.TrimSuffix (de_Name file) ".json" +:+ "...")],
                (rest ++ snd (forEachS fs
                                (restoreFirstPassFile env cfg independent
                                   (firstPassDir env inputDir independent))
                                (fst (restoreFirstPassFile env cfg independent
                                        (firstPassDir env inputDir independent)
                                        file m h))
                                (h ++ snd (restoreFirstPassFile env cfg independent
                                             (firstPassDir env inputDir independent)
                                             file m h)))).
              refine (conj (Hsub file (list_elem_of_here _ _))
                        (conj HJSON (conj eq_refl (conj _ Hback)))).
              rewrite Hsnd at 1. reflexivity.
           ++ rewrite lookup_insert_ne in Hm by exact Hne. left. exact Hm.
        -- right. split; [|exact Hfresh]. apply createdAs_later, Hcreated.
    + assert (Hstep : restoreFirstPassFile env cfg independent
                        (firstPassDir env inputDir independent) file m h = (m, [])).
      { unfold restoreFirstPassFile. rewrite HJSON. reflexivity. }
      rewrite Hstep. cbn [fst snd app]. rewrite app_nil_r.
      exact (IH m h Hrest).
Qed.

(** The pass over the independent descriptor, from a store without entries
    of its type. *)
Lemma first_pass_resource_mapping m h :
  entriesOf m (Name independent) = ∅ ->
  let run := restoreFirstPassResource env cfg inputDir independent m h in
  dom (entriesOf (fst run) (Name independent)) = list_to_set (oldIDs files) /\
  (forall old new,
      entriesOf (fst run) (Name independent) !! old = Some new ->
      createdAs env cfg inputDir independent files h (snd run) old new /\
      new ∉ oldIDs files).
Proof.
  intros Hempty. cbn zeta.
  set (prefix := [EvStat (firstPassDir env inputDir independent);
                  EvPrint ("Restoring " +:+ Name independent +:+ " resources...");
                  EvReadDir (firstPassDir env inputDir independent)]).
  assert (Hrun : restoreFirstPassResource env cfg inputDir independent m h
                 = (fst (forEachS files
                           (restoreFirstPassFile env cfg independent
                              (firstPassDir env inputDir independent)) m (h ++ prefix)),
                    prefix ++ snd (forEachS files
                                     (restoreFirstPassFile env cfg independent
                                        (firstPassDir env inputDir independent))
                                     m (h ++ prefix)))).
  { unfold restoreFirstPassResource.
    rewrite (first_pass_list_commands _ independent_in_catalog). cbn zeta.
    change (Join env [inputDir; strings.ToLower (Name independent); "lists"])
      with (firstPassDir env inputDir independent).
    apply injective_projections.
    - rewrite bind_fst. cbn beta.
      change (fst (Stat_IsNotExist env ?p h)) with (os_Stat_IsNotExist env h p).
      rewrite (proj1 (listing h)). rewrite !bind_fst. cbn beta.
      change (fst (ReadDir env ?p ?h')) with (os_ReadDir env h' p).
      rewrite (proj2 (listing _)). cbn [fst].
      unfold prefix. run_monad. rewrite <- !app_assoc. reflexivity.
    - rewrite bind_snd. cbn beta.
      change (fst (Stat_IsNotExist env ?p h)) with (os_Stat_IsNotExist env h p).
      rewrite (proj1 (listing h)). rewrite !bind_snd. cbn beta.
      change (fst (ReadDir env ?p ?h')) with (os_ReadDir env h' p).
      rewrite (proj2 (listing _)). cbn [snd].
      unfold prefix. run_monad. rewrite <- !app_assoc. reflexivity. }
  rewrite Hrun. cbn [fst snd].
  destruct (first_pass_files_build_mapping files m (h ++ prefix) ltac:(auto))
    as [Hdom Hval].
  cbn zeta in Hdom, Hval. split.
  - rewrite Hdom, Hempty, dom_empty_L, (left_id_L ∅ (∪)). reflexivity.
  - intros old new Hlookup.
    destruct (Hval old new Hlookup) as [Hm|[Hcreated Hfresh]].
    + rewrite Hempty, lookup_empty in Hm. discriminate Hm.
    + split; [|exact Hfresh]. apply createdAs_later, Hcreated.
Qed.

(** After the first pass over the whole catalog, started from the empty
    store, the entries of the independent type are keyed by the old
    identifiers of its directory, and every value is the answer of the
    backend to the create of the record, which the pass ran. *)
Lemma first_pass_mapping h0 :
  let run :=
    restoreFirstPassResources env cfg GetBackupConfig inputDir
      (NewIDMapping env inputDir) h0 in
  dom (entriesOf (snd (fst run)) (Name independent)) = list_to_set (oldIDs files) /\
  (forall old new,
      entriesOf (snd (fst run)) (Name independent) !! old = Some new ->
      createdAs env cfg inputDir independent files h0 (snd run) old new /\
      new ∉ oldIDs files).
Proof.
  cbn zeta. unfold restoreFirstPassResources.
  rewrite bind_fst, bind_snd. cbn [ret fst snd]. rewrite app_nil_r.
  destruct (list_elem_of_split _ _ independent_in_catalog) as (before & after & Hsplit).
  pose proof first_pass_names_NoDup as Hnd.
  rewrite Hsplit in Hnd |- *. rewrite fmap_app, fmap_cons in Hnd.
  apply NoDup_app in Hnd as (_ & Hbefore & Hafter).
  apply NoDup_cons in Hafter as [Hafter _].
  assert (Hnotbefore : Name independent ∉ Name <$> before).
  { intros Hin. apply (Hbefore _ Hin). left. }
  rewrite forEachS_app, forEachS_app_snd. cbn [forEachS].
  rewrite bind_fst, bind_snd.
  rewrite restoreFirstPassResources_other by exact Hafter.
  assert (Hempty : entriesOf
                     (fst (forEachS before (restoreFirstPassResource env cfg inputDir)
                             (NewIDMapping env inputDir) h0))
                     (Name independent) = ∅).
  { rewrite restoreFirstPassResources_other by exact Hnotbefore. reflexivity. }
  destruct (first_pass_resource_mapping
              (fst (forEachS before (restoreFirstPassResource env cfg inputDir)
                      (NewIDMapping env inputDir) h0))
              (h0 ++ snd (forEachS before (restoreFirstPassResource env cfg inputDir)
                            (NewIDMapping env inputDir) h0))
              Hempty) as [Hdom Hval].
  cbn zeta in Hdom, Hval. split; [exact Hdom|].
  intros old new Hlookup. destruct (Hval old new Hlookup) as [Hcreated Hfresh].
  split; [|exact Hfresh].
  apply createdAs_later, createdAs_longer, Hcreated.
Qed.

(** A dependent descriptor of the generic path, sourced from [independent],
    and what was persisted for it: one subdirectory per source identifier,
    [contents] listing each of them. *)
Variable dep : BackupConfigResource.
Variable subdirs : list DirEntry.
Variable contents : string -> list DirEntry.

Hypothesis distinct_names : NoDup (de_Name <$> files).
Hypothesis dep_in_catalog : dep ∈ SecondPassResources GetBackupConfig.
Hypothesis sourced : SourceIDDir dep = Name independent.
Hypothesis generic : customRestorers !! Name dep = None.
Hypothesis dep_listing : forall h,
  os_Stat_IsNotExist env h (secondPassDir env inputDir dep) = false /\
  os_ReadDir env h (secondPassDir env inputDir dep) = Ok subdirs.
Hypothesis subdir_listing : forall subdir,
  subdir ∈ subdirs -> de_IsDir subdir = true ->
  de_Name subdir ∈ oldIDs files /\
  forall h, os_ReadDir env h (Join env [secondPassDir env inputDir dep; de_Name subdir])
            = Ok (contents (de_Name subdir)).

(** The commands of one record file, when the source identifier resolves. *)
Lemma record_commands newSourceID subPath file h :
  let commands :=
    execs (snd (restoreSecondPassFile env cfg dep
                  (getParameterFlagForResource (SourceIDDir dep))
                  newSourceID subPath file h)) in
  length commands = (if isJSONFile file then 1 else 0) /\
  Forall (parameterizedBy cfg dep newSourceID) commands.
Proof.
  cbn zeta. rewrite restoreSecondPassFile_execs.
  destruct (isJSONFile file); [|split; [reflexivity|constructor]].
  destruct (secondPassCommand_shape cfg dep newSourceID
              (Join env [subPath; de_Name file]) dep_in_catalog generic)
    as (args & -> & Hshape).
  split; [reflexivity|]. constructor; [exact Hshape|constructor].
Qed.

Lemma records_commands newSourceID subPath fs h :
  let commands :=
    execs (snd (forEach fs
                  (restoreSecondPassFile env cfg dep
                     (getParameterFlagForResource (SourceIDDir dep))
                     newSourceID subPath) h)) in
  length commands = length (List.filter isJSONFile fs) /\
  Forall (parameterizedBy cfg dep newSourceID) commands.
Proof.
  revert h. induction fs as [|file fs IH]; intros h; cbn zeta.
  - split; [reflexivity|constructor].
  - cbn [forEach]. rewrite bind_snd, execs_app, length_app.
    destruct (record_commands newSourceID subPath file h) as [Hlen Hall].
    destruct (IH (h ++ snd (restoreSecondPassFile env cfg dep
                              (getParameterFlagForResource (SourceIDDir dep))
                              newSourceID subPath file h))) as [IHlen IHall].
    split.
    + rewrite Hlen, IHlen. cbn [List.filter].
      destruct (isJSONFile file); reflexivity.
    + apply Forall_app. split; assumption.
Qed.

(** The commands of the subdirectories, for a store whose keys for the
    independent type are the old identifiers and whose entries all have the
    property [created]. *)
Lemma subdirs_commands (created : string -> string -> Prop) m dirs h :
  (forall subdir, subdir ∈ dirs -> subdir ∈ subdirs) ->
  (dom (entriesOf m (Name independent)) =@{gset string} list_to_set (oldIDs files)) ->
  (forall old new,
      entriesOf m (Name independent) !! old = Some new -> created old new) ->
  let commands :=
    execs (snd (forEach dirs
                  (restoreSecondPassSubdir env cfg m dep
                     (getParameterFlagForResource (SourceIDDir dep))
                     (secondPassDir env inputDir dep)) h)) in
  length commands = dependentRecords dirs contents /\
  Forall (fun args =>
            exists old new,
              (old ∈ oldIDs files) /\
              GetNewID m (Name independent) old = Some new /\
              created old new /\
              parameterizedBy cfg dep new args)
         commands.
Proof.
  intros Hsub Hdom Hval. revert h.
  induction dirs as [|subdir dirs IH]; intros h; cbn zeta.
  - split; [reflexivity|constructor].
  - cbn [forEach]. rewrite bind_snd, execs_app, length_app.
    set (h' := h ++ snd (restoreSecondPassSubdir env cfg m dep
                           (getParameterFlagForResource (SourceIDDir dep))
                           (secondPassDir env inputDir dep) subdir h)).
    destruct (IH (fun s Hs => Hsub s (list_elem_of_further _ _ _ Hs)) h')
      as [IHlen IHall].
    cbn zeta in IHlen, IHall. rewrite IHlen. clearbody h'.
    unfold dependentRecords. cbn [List.filter].
    unfold restoreSecondPassSubdir.
    destruct (de_IsDir subdir) eqn:HisDir.
    + destruct (subdir_listing subdir (Hsub subdir (list_elem_of_here _ _)) HisDir)
        as [Hold Hcontents].
      assert (Hmapped : is_Some (entriesOf m (Name independent) !! de_Name subdir)).
      { apply (elem_of_dom (D:=gset string)). rewrite Hdom.
        apply elem_of_list_to_set. exact Hold. }
      destruct Hmapped as [new Hnew].
      pose proof Hnew as Hsourced. rewrite <- sourced in Hsourced.
      rewrite GetNewID_entriesOf, Hsourced. cbn zeta.
      rewrite bind_snd, execs_app. cbn beta.
      change (fst (ReadDir env ?p h)) with (os_ReadDir env h p).
      rewrite Hcontents.
      destruct (records_commands new
                  (Join env [secondPassDir env inputDir dep; de_Name subdir])
                  (contents (de_Name subdir))
                  (h ++ snd (ReadDir env
                               (Join env [secondPassDir env inputDir dep;
                                          de_Name subdir]) h)))
        as [Hlen Hall].
      cbn zeta in Hlen, Hall. split.
      * rewrite length_app, Hlen. cbn [fmap list_fmap sum_list sum_list_with].
        reflexivity.
      * apply Forall_app. split; [|exact IHall].
        apply Forall_app. split; [constructor|].
        eapply Forall_impl; [exact Hall|].
        intros args Hshape. exists (de_Name subdir), new.
        rewrite GetNewID_entriesOf. eauto.
    + split; [reflexivity|]. apply Forall_app. split; [constructor|exact IHall].
Qed.


End RoundTrip.

(** ** The simulated backend hands out fresh identifiers *)

Lemma readQuoted_tally n rest :
  Sim.readQuoted (Sim.tally n +:+ String Sim.quote rest) = Some (Sim.tally n, rest).
Proof.
  induction n as [|n IH].
  - reflexivity.
  - cbn [Sim.tally].
    change (String "i" (Sim.tally n) +:+ String Sim.quote rest)
      with (String "i" (Sim.tally n +:+ String Sim.quote rest)).
    cbn [Sim.readQuoted]. rewrite IH. reflexivity.
Qed.

Lemma unmarshal_fresh n :
  Sim.unmarshal (Sim.renderObject [("id", "new" +:+ Sim.tally n)])
  = Ok (list_to_map [("id", JSONString ("new" +:+ Sim.tally n))]).
Proof.
  unfold Sim.unmarshal.
  assert (Hparse : Sim.parseObject (Sim.renderObject [("id", "new" +:+ Sim.tally n)])
                   = Some [("id", "new" +:+ Sim.tally n)]).
  { unfold Sim.renderObject, Sim.renderFields, Sim.renderField. cbn [fst snd].
    change (Sim.parseObject
              (String "{" (String Sim.quote
                 (String "i" (String "d" (String Sim.quote (String ":" (String Sim.quote
                    (String "n" (String "e" (String "w"
                       (Sim.tally n +:+ String Sim.quote "}")))))))))))
            = Some [("id", "new" +:+ Sim.tally n)]).
    cbn [Sim.parseObject Sim.parseFields Sim.readQuoted String.length Ascii.eqb
         Sim.quote Bool.eqb].
    rewrite readQuoted_tally. reflexivity. }
  rewrite Hparse. reflexivity.
Qed.

Lemma Sim_create_fresh (w : Sim.World) h args :
  Sim.rejects w = Sim.acceptAll ->
  backendReturns (Sim.env w) h args ("new" +:+ Sim.tally (Sim.executed h)).
Proof.
  intros Haccept.
  exists (Sim.renderObject [("id", "new" +:+ Sim.tally (Sim.executed h))]),
    (list_to_map [("id", JSONString ("new" +:+ Sim.tally (Sim.executed h)))]).
  split; [|split; [apply unmarshal_fresh|reflexivity]].
  cbn [cmd_Output Sim.env]. rewrite Haccept. reflexivity.
Qed.


(** The round trip on the sample tree: the two authorization servers get the
    fourth and fifth identifier the backend hands out, and the three claims
    are created under them. *)
Example round_trip_on_sample :
  let env := Sim.env Sample.world in
  let m1 :=
    snd (fst (restoreFirstPassResources env Sim.cfg GetBackupConfig "backup"
                (NewIDMapping env "backup") [])) in
  map_to_list (entriesOf m1 "authorizationServer")
  = [("as1", "newiii"); ("as2", "newiiii")] /\
  execs (snd (restoreSecondPassResource env Sim.cfg "backup" m1 RoundTripSample.dep []))
  = [["authorizationServerClaims"; "create"; "--authServerId"; "newiii";
      "--restore-from";
      "backup/authorizationserverclaims/listOAuth2Claims/as1/c1.json"];
     ["authorizationServerClaims"; "create"; "--authServerId"; "newiii";
      "--restore-from";
      "backup/authorizationserverclaims/listOAuth2Claims/as1/c2.json"];
     ["authorizationServerClaims"; "create"; "--authServerId"; "newiiii";
      "--restore-from";
      "backup/authorizationserverclaims/listOAuth2Claims/as2/c3.json"]] /\
  execs (snd (restoreSecondPassResource env Sim.cfg "backup" m1
                (secondPass "group" "listUsers" "group") []))
  = [["user"; "addUserToGroup"; "--groupId"; "newi"; "--userId"; "TARGET_USER_ID";
      "--assignment-file"; "backup/group/listUsers/g1/u1.json"]].
Proof. vm_compute. repeat split. Qed.

(** The two sample worlds differ in the application links of the user. *)
Example sample_application_links :
  Sim.lookupPath (Sim.dirs Sample.world) "backup/user/listAppLinks/u1"
  = Some [Sim.file "l1.json"] /\
  Sim.lookupPath (Sim.dirs Sample.worldWithoutAppLinks) "backup/user/listAppLinks/u1"
  = None /\
  GetNewID Sample.mappings "user" "u1" = Some "n-u1".
Proof. vm_compute. repeat split. Qed.

(** * Further properties of the sources *)

(** ** The store as a map *)

(** X1.  Writing the same (type, old identifier) pair twice leaves the store
    that the second write alone would leave: the second new identifier
    replaces the first.  A write adds one entry to its type when the old
    identifier was unknown and none when it was known. *)
Theorem AddMapping_last_write_wins
    (env : Env) (m : IDMapping) (resourceType oldID first second : string)
    (h1 h2 h : History) :
  fst (AddMapping env (fst (AddMapping env m resourceType oldID first h1))
         resourceType oldID second h2)
  = fst (AddMapping env m resourceType oldID second h) /\
  size (entriesOf (fst (AddMapping env m resourceType oldID first h1)) resourceType)
  = match GetNewID m resourceType oldID with
    | Some _ => size (entriesOf m resourceType)
    | None => S (size (entriesOf m resourceType))
    end.
Proof.
  rewrite !AddMapping_fst. split.
  - unfold setMapping. cbn [Mappings FilePath]. f_equal.
    rewrite lookup_insert_eq. cbn [from_option id].
    rewrite !insert_insert_eq. reflexivity.
  - rewrite entriesOf_setMapping_eq, GetNewID_entriesOf.
    destruct (entriesOf m resourceType !! oldID) as [known|] eqn:Hknown.
    + apply map_size_insert_Some. eauto.
    + apply map_size_insert_None, Hknown.
Qed.

(** X2.  Two writes for different (type, old identifier) pairs leave the
    same store in either order. *)
Theorem AddMapping_commute
    (env : Env) (m : IDMapping) (type1 old1 new1 type2 old2 new2 : string)
    (ha hb hc hd : History) :
  type1 <> type2 \/ old1 <> old2 ->
  fst (AddMapping env (fst (AddMapping env m type1 old1 new1 ha)) type2 old2 new2 hb)
  = fst (AddMapping env (fst (AddMapping env m type2 old2 new2 hc)) type1 old1 new1 hd).
Proof.
  intros Hdiff. rewrite !AddMapping_fst. unfold setMapping.
  cbn [Mappings FilePath]. f_equal.
  destruct (decide (type1 = type2)) as [<-|Htype].
  - destruct Hdiff as [Hdiff|Hdiff]; [congruence|].
    rewrite !lookup_insert_eq. cbn [from_option id]. rewrite !insert_insert_eq.
    f_equal. apply insert_insert_ne. congruence.
  - rewrite !lookup_insert_ne by congruence.
    apply insert_insert_ne. congruence.
Qed.

Lemma AddMapping_commute_witness :
  fst (AddMapping (Sim.env Sample.world)
         (fst (AddMapping (Sim.env Sample.world) Sample.mappings
                 "group" "g2" "n-g2" []))
         "user" "u2" "n-u2" [])
  = fst (AddMapping (Sim.env Sample.world)
           (fst (AddMapping (Sim.env Sample.world) Sample.mappings
                   "user" "u2" "n-u2" []))
           "group" "g2" "n-g2" []).
Proof. apply AddMapping_commute. left. discriminate. Defined.

(** ** Creating a resource and recording its identifier *)

(** X3.  [restoreResource] runs exactly one command, the create of the
    resource type from the file, and returns an identifier exactly when the
    child exits normally and its output decodes to an object whose [id] is a
    string: that string.  A failed child, output that does not decode, a
    missing [id] and an [id] that is no string all give an error. *)
Theorem restoreResource_result
    (env : Env) (cfg : Config) (resourceType filePath : string) (h : History)
    (id : string) :
  let args := PrepareOktaCliArgs cfg [resourceType; "create"; "--restore-from"; filePath] in
  let run := restoreResource env cfg resourceType filePath h in
  snd run = [EvExec args] /\
  (fst run = Ok id <->
   exists stdout response,
     cmd_Output env h args = Exited stdout /\
     json_Unmarshal env stdout = Ok response /\
     response !! "id" = Some (JSONString id)).
Proof.
  cbn zeta. unfold restoreResource. run_monad. split; [reflexivity|].
  unfold getString.
  destruct (cmd_Output env h _) as [e|e|e|e|stdout]; cbn [fst];
    try (split; [discriminate|intros (? & ? & Hout & _); discriminate Hout]).
  destruct (json_Unmarshal env stdout) as [response|e] eqn:Hdecode.
  - destruct (response !! "id") as [[s|]|] eqn:Hid.
    + split.
      * intros [= ->]. eauto.
      * intros (stdout' & response' & [= <-] & Hdecode' & Hid').
        rewrite Hdecode in Hdecode'. injection Hdecode' as <-.
        rewrite Hid in Hid'. injection Hid' as ->. reflexivity.
    + split; [discriminate|].
      intros (stdout' & response' & [= <-] & Hdecode' & Hid').
      rewrite Hdecode in Hdecode'. injection Hdecode' as <-.
      rewrite Hid in Hid'. discriminate Hid'.
    + split; [discriminate|].
      intros (stdout' & response' & [= <-] & Hdecode' & Hid').
      rewrite Hdecode in Hdecode'. injection Hdecode' as <-.
      rewrite Hid in Hid'. discriminate Hid'.
  - split; [discriminate|].
    intros (stdout' & response' & [= <-] & Hdecode' & _).
    rewrite Hdecode in Hdecode'. discriminate Hdecode'.
Qed.

Lemma restoreResource_result_witness :
  exists stdout response,
    cmd_Output (Sim.env Sample.world) []
      ["group"; "create"; "--restore-from"; "backup/group/lists/g1.json"]
    = Exited stdout /\
    json_Unmarshal (Sim.env Sample.world) stdout = Ok response /\
    response !! "id" = Some (JSONString "new").
Proof.
  apply (proj1 (proj2 (restoreResource_result (Sim.env Sample.world) Sim.cfg
                         "group" "backup/group/lists/g1.json" [] "new"))).
  vm_compute. reflexivity.
Defined.

(** X4.  In the first pass a record file whose create fails changes neither
    the store nor the mapping file: the program prints the announcement, runs
    the create and prints the warning.  A directory entry that is a
    directory or does not end in [.json] is passed over without an event. *)
Theorem failed_create_adds_no_mapping
    (env : Env) (cfg : Config) (resource : BackupConfigResource)
    (resourceDir : string) (file : DirEntry) (m : IDMapping) (h : History) :
  let oldID := strings.TrimSuffix (de_Name file) ".json" in
  let filePath := Join env [resourceDir; de_Name file] in
  let announcement :=
    EvPrint ("Restoring " +:+ Name resource +:+ " from previous ID "
             +:+ oldID +:+ "...") in
  (isJSONFile file = false ->
   restoreFirstPassFile env cfg resource resourceDir file m h = (m, [])) /\
  (forall e,
      isJSONFile file = true ->
      fst (restoreResource env cfg (Name resource) filePath (h ++ [announcement]))
      = Err e ->
      restoreFirstPassFile env cfg resource resourceDir file m h
      = (m, [announcement;
             EvExec (PrepareOktaCliArgs cfg
                       [Name resource; "create"; "--restore-from"; filePath]);
             EvPrint ("Warning: error restoring " +:+ Name resource +:+ " from "
                      +:+ oldID +:+ ": " +:+ e)])).
Proof.
  cbn zeta. split.
  - intros Hfile. unfold restoreFirstPassFile. rewrite Hfile. reflexivity.
  - intros e Hfile Hfail. apply injective_projections.
    + rewrite restoreFirstPassFile_fst, Hfile, Hfail. reflexivity.
    + unfold restoreFirstPassFile. rewrite Hfile. cbn zeta.
      rewrite bind_snd. cbn beta. rewrite bind_snd. cbn beta.
      change (snd (Println ?msg h)) with [EvPrint msg].
      rewrite Hfail, restoreResource_snd. reflexivity.
Qed.

Lemma failed_create_adds_no_mapping_witness :
  restoreFirstPassFile (Sim.env Sample.worldRejecting) Sim.cfg
    (firstPass "group" "lists" "get") "backup/group/lists" (Sim.file "g1.json")
    Sample.mappings []
  = (Sample.mappings,
     [EvPrint "Restoring group from previous ID g1...";
      EvExec ["group"; "create"; "--restore-from"; "backup/group/lists/g1.json"];
      EvPrint "Warning: error restoring group from g1: command failed: exit status 1"]).
Proof.
  apply (proj2 (failed_create_adds_no_mapping (Sim.env Sample.worldRejecting) Sim.cfg
                  (firstPass "group" "lists" "get") "backup/group/lists"
                  (Sim.file "g1.json") Sample.mappings [])
               "command failed: exit status 1").
  - reflexivity.
  - vm_compute. reflexivity.
Defined.

(** An invariant of the carried value holds after the loop. *)
Lemma forEachS_invariant {A S} (P : S -> Prop) (body : A -> S -> M S) l :
  (forall x s h, P s -> P (fst (body x s h))) ->
  forall s h, P s -> P (fst (forEachS l body s h)).
Proof.
  intros Hbody. induction l as [|x l IH]; intros s h Hs; cbn [forEachS].
  - exact Hs.
  - rewrite bind_fst. apply IH, Hbody, Hs.
Qed.

Lemma setMapping_keeps m resourceType oldID newID otherType otherID :
  is_Some (GetNewID m otherType otherID) ->
  is_Some (GetNewID (setMapping m resourceType oldID newID) otherType otherID).
Proof.
  rewrite !GetNewID_entriesOf. intros Hsome.
  destruct (decide (otherType = resourceType)) as [->|Hne].
  - rewrite entriesOf_setMapping_eq.
    destruct (decide (oldID = otherID)) as [->|Hid].
    + rewrite lookup_insert_eq. eauto.
    + rewrite lookup_insert_ne by exact Hid. exact Hsome.
  - rewrite entriesOf_setMapping_ne by exact Hne. exact Hsome.
Qed.

(** X5.  The first pass never forgets: an old identifier that resolves
    before the pass (from an earlier run, through the mapping file) still
    resolves after it, whatever the catalog, the tree and the backend. *)
Theorem first_pass_keeps_entries
    (env : Env) (cfg : Config) (config : BackupConfig) (inputDir : string)
    (m : IDMapping) (h : History) (resourceType oldID : string) :
  is_Some (GetNewID m resourceType oldID) ->
  is_Some (GetNewID
             (snd (fst (restoreFirstPassResources env cfg config inputDir m h)))
             resourceType oldID).
Proof.
  unfold restoreFirstPassResources. rewrite bind_fst. cbn [ret fst snd].
  apply (forEachS_invariant (fun s => is_Some (GetNewID s resourceType oldID))).
  clear m h. intros resource m h Hm. unfold restoreFirstPassResource.
  destruct (String.eqb (ListCommand resource) ""); [exact Hm|].
  cbn zeta. rewrite bind_fst. cbn beta.
  destruct (fst (Stat_IsNotExist env _ h)); [exact Hm|].
  rewrite !bind_fst. cbn beta.
  destruct (fst (ReadDir env _ _)); [|exact Hm].
  apply (forEachS_invariant (fun s => is_Some (GetNewID s resourceType oldID)));
    [|exact Hm].
  clear m h Hm. intros file m h Hm. rewrite restoreFirstPassFile_fst.
  destruct (isJSONFile file); [|exact Hm].
  destruct (fst (restoreResource _ _ _ _ _)); [|exact Hm].
  apply setMapping_keeps, Hm.
Qed.

Lemma first_pass_keeps_entries_witness :
  is_Some (GetNewID
             (snd (fst (restoreFirstPassResources (Sim.env Sample.world) Sim.cfg
                          GetBackupConfig "backup" Sample.mappings [])))
             "application" "a1").
Proof.
  apply first_pass_keeps_entries. exists "n-a1". vm_compute. reflexivity.
Defined.

(** ** Source types without a first pass *)

Lemma concat_nils {A B} (l : list A) : concat ((fun _ => @nil B) <$> l) = [].
Proof. induction l as [|x l IH]; [reflexivity|exact IH]. Qed.

Lemma Println_execs msg h : execs (snd (Println msg h)) = [].
Proof. reflexivity. Qed.

Lemma bind_execs {A B} (c : M A) (k : A -> M B) h :
  execs (snd (bind c k h))
  = execs (snd (c h)) ++ execs (snd (k (fst (c h)) (h ++ snd (c h)))).
Proof. rewrite bind_snd. apply execs_app. Qed.

(** Without an entry for the source type, the generic pass runs nothing. *)
Lemma second_pass_without_entries env cfg inputDir m resource h :
  entriesOf m (SourceIDDir resource) = ∅ ->
  execs (snd (restoreSecondPassResource env cfg inputDir m resource h)) = [].
Proof.
  intros Hempty. unfold restoreSecondPassResource.
  destruct (customRestorers !! Name resource); [reflexivity|]. cbn zeta.
  rewrite bind_execs. cbn beta.
  destruct (fst (Stat_IsNotExist env _ h)); [reflexivity|].
  rewrite !bind_execs. cbn beta.
  destruct (fst (ReadDir env _ _)) as [subdirs|e]; [|reflexivity].
  rewrite (forEach_execs (fun _ => [])); [rewrite concat_nils; reflexivity|].
  intros subdir h' _. unfold restoreSecondPassSubdir.
  destruct (de_IsDir subdir); [|reflexivity].
  rewrite GetNewID_entriesOf, Hempty, lookup_empty. reflexivity.
Qed.

(** X6.  A dependent descriptor whose source type is the name of no
    first-pass descriptor is never restored by a run that starts from the
    empty store: the first pass leaves its source type without entries, and
    the generic second pass runs no command for it, whatever was persisted.
    In the shipped catalog this is the fate of the rules of [policy] and of
    the authorization-server policy rules. *)
Theorem unsourced_descriptor_never_restored
    (env : Env) (cfg : Config) (config : BackupConfig) (inputDir : string)
    (resource : BackupConfigResource) (h0 h : History) :
  (forall r, r ∈ FirstPassResources config -> Name r <> SourceIDDir resource) ->
  let m1 :=
    snd (fst (restoreFirstPassResources env cfg config inputDir
                (NewIDMapping env inputDir) h0)) in
  entriesOf m1 (SourceIDDir resource) = ∅ /\
  execs (snd (restoreSecondPassResource env cfg inputDir m1 resource h)) = [].
Proof.
  intros Hunsourced. cbn zeta.
  assert (Hempty : entriesOf
                     (snd (fst (restoreFirstPassResources env cfg config inputDir
                                  (NewIDMapping env inputDir) h0)))
                     (SourceIDDir resource) = ∅).
  { unfold restoreFirstPassResources. rewrite bind_fst. cbn [ret fst snd].
    rewrite restoreFirstPassResources_other; [reflexivity|].
    intros Hin. apply list_elem_of_fmap in Hin as (r & Hname & Hr).
    apply (Hunsourced r Hr). symmetry. exact Hname. }
  split; [exact Hempty|]. apply second_pass_without_entries, Hempty.
Qed.

Lemma unsourced_descriptor_never_restored_witness :
  execs (snd (restoreSecondPassResource (Sim.env Sample2.world) Sim.cfg "backup"
                (snd (fst (restoreFirstPassResources (Sim.env Sample2.world) Sim.cfg
                             GetBackupConfig "backup"
                             (NewIDMapping (Sim.env Sample2.world) "backup") [])))
                (secondPass "policy" "listRules" "policy") []))
  = [].
Proof.
  apply (unsourced_descriptor_never_restored (Sim.env Sample2.world) Sim.cfg
           GetBackupConfig "backup" (secondPass "policy" "listRules" "policy") [] []).
  intros r Hr Hname. apply (list_elem_of_fmap_2 Name) in Hr.
  rewrite Hname, first_pass_names in Hr. not_in_list Hr.
Defined.

(** ** The singleton pass of restore *)

Lemma concat_filtered {A B} (p : A -> bool) (g : A -> B) (l : list A) :
  concat ((fun x => if p x then [g x] else []) <$> l) = g <$> List.filter p l.
Proof.
  induction l as [|x l IH]; [reflexivity|].
  cbn [fmap list_fmap concat List.filter]. rewrite IH.
  destruct (p x); reflexivity.
Qed.

Lemma restoreSingletonFile_execs env cfg resource resourceDir file h :
  execs (snd (restoreSingletonFile env cfg resource resourceDir file h))
  = if isJSONFile file
    then [createCommand cfg (Name resource) (Join env [resourceDir; de_Name file])]
    else [].
Proof.
  unfold restoreSingletonFile. destruct (isJSONFile file); [|reflexivity].
  run_monad. destruct (cmd_Run env h _); reflexivity.
Qed.

(** X7.  For a singleton descriptor whose directory is there, the restore
    runs one create per entry that is a [.json] file, in directory order and
    whatever the backend answers: a create that fails does not stop the
    ones after it.  Other entries are passed over.  When the directory is
    missing nothing is run. *)
Theorem singleton_restore_commands
    (env : Env) (cfg : Config) (inputDir : string)
    (resource : BackupConfigResource) (files : list DirEntry) (h : History) :
  let resourceDir :=
    Join env [inputDir; strings.ToLower (Name resource); GetCommand resource] in
  (os_Stat_IsNotExist env h resourceDir = true ->
   execs (snd (restoreSingletonResource env cfg inputDir resource h)) = []) /\
  (os_Stat_IsNotExist env h resourceDir = false ->
   (forall h', os_ReadDir env h' resourceDir = Ok files) ->
   execs (snd (restoreSingletonResource env cfg inputDir resource h))
   = (fun file => createCommand cfg (Name resource)
                    (Join env [resourceDir; de_Name file]))
       <$> List.filter isJSONFile files).
Proof.
  cbn zeta. split.
  - intros Hstat. unfold restoreSingletonResource. cbn zeta.
    rewrite bind_execs. cbn beta.
    change (fst (Stat_IsNotExist env ?p h)) with (os_Stat_IsNotExist env h p).
    rewrite Hstat. reflexivity.
  - intros Hstat Hlist. unfold restoreSingletonResource. cbn zeta.
    rewrite bind_execs. cbn beta.
    change (fst (Stat_IsNotExist env ?p h)) with (os_Stat_IsNotExist env h p).
    rewrite Hstat. rewrite !bind_execs. cbn beta.
    change (fst (ReadDir env ?p ?h')) with (os_ReadDir env h' p).
    rewrite Hlist.
    rewrite (forEach_execs
               (fun file =>
                  if isJSONFile file
                  then [createCommand cfg (Name resource)
                          (Join env [Join env [inputDir; strings.ToLower (Name resource);
                                               GetCommand resource];
                                     de_Name file])]
                  else []))
      by (intros; apply restoreSingletonFile_execs).
    rewrite concat_filtered. reflexivity.
Qed.

Lemma singleton_restore_commands_witness :
  execs (snd (restoreSingletonResource (Sim.env Sample2.worldRejecting) Sim.cfg "backup"
                (singleton "orgSetting" "gets") []))
  = [["orgSetting"; "create"; "--restore-from"; "backup/orgsetting/gets/settings.json"]]
  /\
  execs (snd (restoreSingletonResource (Sim.env Sample2.world) Sim.cfg "backup"
                (singleton "orgSetting" "getOrgPreferences") []))
  = [].
Proof.
  split.
  - apply (proj2 (singleton_restore_commands (Sim.env Sample2.worldRejecting) Sim.cfg
                    "backup" (singleton "orgSetting" "gets")
                    [Sim.file "settings.json"; Sim.file "notes.txt"; Sim.dir "old"] [])).
    + reflexivity.
    + intros h'. reflexivity.
  - apply (proj1 (singleton_restore_commands (Sim.env Sample2.world) Sim.cfg
                    "backup" (singleton "orgSetting" "getOrgPreferences") [] [])).
    reflexivity.
Defined.

(** ** What the custom restorers run *)

(** The commands of the membership handler: one per record whose user
    directory and group both resolve. *)
Lemma UserGroupsRestorer_Restore_execs (Q : list string -> Prop)
    env cfg m inputDir h :
  (forall oldUserID newUserID oldGroupID newGroupID,
      GetNewID m "user" oldUserID = Some newUserID ->
      GetNewID m "group" oldGroupID = Some newGroupID ->
      Q (PrepareOktaCliArgs cfg
           ["group"; "addUserToGroup"; "--groupId"; newGroupID;
            "--userId"; newUserID])) ->
  Forall Q (execs (snd (UserGroupsRestorer_Restore env cfg m inputDir h))).
Proof.
  intros HQ.
  unfold UserGroupsRestorer_Restore. cbn zeta. rewrite bind_execs. cbn beta.
  destruct (fst (Stat_IsNotExist env _ h)); [constructor|].
  rewrite bind_execs. cbn beta.
  destruct (fst (ReadDir env _ _)) as [userDirs|e]; [|constructor].
  rewrite bind_execs. cbn [app]. rewrite app_nil_r.
  apply forEach_execs_Forall. intros userDir h1 _.
  unfold UserGroupsRestorer_userDir.
  destruct (de_IsDir userDir); [|constructor].
  destruct (GetNewID m "user" (de_Name userDir)) as [newUserID|] eqn:Huser;
    [|constructor].
  cbn zeta. rewrite bind_execs. cbn beta.
  destruct (fst (ReadDir env _ h1)) as [groupFiles|e]; [|constructor].
  apply forEach_execs_Forall. intros file h2 _.
  unfold UserGroupsRestorer_file.
  destruct (isJSONFile file); [|constructor].
  cbn zeta. rewrite bind_execs. cbn beta.
  destruct (fst (ReadFile env _ h2)) as [data|e]; [|constructor].
  destruct (json_Unmarshal env data) as [group|e]; [|constructor].
  destruct (getString group "id") as [oldGroupID|]; [|constructor].
  destruct (GetNewID m "group" oldGroupID) as [newGroupID|] eqn:Hgroup; [|constructor].
  run_monad. destruct (cmd_Run env _ _);
    (constructor; [|constructor]); eapply HQ; eauto.
Qed.

(** The commands of the role handler. *)
Lemma RoleAssignmentRestorer_Restore_execs (Q : list string -> Prop)
    env cfg m inputDir h :
  (forall oldUserID newUserID roleType,
      GetNewID m "user" oldUserID = Some newUserID ->
      Q (PrepareOktaCliArgs cfg
           ["role"; "assignRoleToUser"; "--userId"; newUserID; "--type"; roleType])) ->
  Forall Q (execs (snd (RoleAssignmentRestorer_Restore env cfg m inputDir h))).
Proof.
  intros HQ.
  unfold RoleAssignmentRestorer_Restore. cbn zeta. rewrite bind_execs. cbn beta.
  destruct (fst (Stat_IsNotExist env _ h)); [constructor|].
  rewrite bind_execs. cbn beta.
  destruct (fst (ReadDir env _ _)) as [userDirs|e]; [|constructor].
  rewrite bind_execs. cbn [app]. rewrite app_nil_r.
  apply forEach_execs_Forall. intros userDir h1 _.
  unfold RoleAssignmentRestorer_userDir.
  destruct (de_IsDir userDir); [|constructor].
  destruct (GetNewID m "user" (de_Name userDir)) as [newUserID|] eqn:Huser;
    [|constructor].
  cbn zeta. rewrite bind_execs. cbn beta.
  destruct (fst (ReadDir env _ h1)) as [roleFiles|e]; [|constructor].
  apply forEach_execs_Forall. intros file h2 _.
  unfold RoleAssignmentRestorer_file.
  destruct (isJSONFile file); [|constructor].
  cbn zeta. rewrite bind_execs. cbn beta.
  destruct (fst (ReadFile env _ h2)) as [data|e]; [|constructor].
  destruct (json_Unmarshal env data) as [role|e]; [|constructor].
  destruct (getString role "type") as [roleType|]; [|constructor].
  run_monad. destruct (cmd_Run env _ _);
    (constructor; [|constructor]); eapply HQ; eauto.
Qed.

(** The commands of the application-group handler, in both forms. *)
Lemma ApplicationGroupsRestorer_Restore_execs (Q : list string -> Prop)
    env cfg m inputDir h :
  (forall oldAppID newAppID oldGroupID newGroupID payload,
      GetNewID m "application" oldAppID = Some newAppID ->
      GetNewID m "group" oldGroupID = Some newGroupID ->
      payload = ["--data"; "{}"] \/ (exists filePath, payload = ["--restore-from"; filePath]) ->
      Q (PrepareOktaCliArgs cfg
           (["applicationGroups"; "assignGroupToApplication";
             "--appId"; newAppID; "--groupId"; newGroupID] ++ payload))) ->
  Forall Q (execs (snd (ApplicationGroupsRestorer_Restore env cfg m inputDir h))).
Proof.
  intros HQ.
  unfold ApplicationGroupsRestorer_Restore. cbn zeta. rewrite bind_execs. cbn beta.
  destruct (fst (Stat_IsNotExist env _ h)); [constructor|].
  rewrite bind_execs. cbn beta.
  destruct (fst (ReadDir env _ _)) as [files|e]; [|constructor].
  rewrite !bind_execs. cbn [app]. rewrite app_nil_r.
  apply forEach_execs_Forall. intros file h1 _.
  unfold ApplicationGroupsRestorer_file.
  destruct (isJSONFile file); [|constructor].
  cbn zeta. rewrite bind_execs. cbn beta.
  destruct (fst (ReadFile env _ h1)) as [data|e]; [|constructor].
  destruct (json_Unmarshal env data) as [assignment|e]; [|constructor].
  destruct (getString assignment "appId") as [oldAppID|]; [|constructor].
  destruct (getString assignment "id") as [oldGroupID|]; [|constructor].
  destruct (GetNewID m "application" oldAppID) as [newAppID|] eqn:Happ; [|constructor].
  destruct (GetNewID m "group" oldGroupID) as [newGroupID|] eqn:Hgroup; [|constructor].
  pose proof (HQ oldAppID newAppID oldGroupID newGroupID
                ["--restore-from";
                 Join env [Join env [inputDir; "applicationgroups";
                                     "listApplicationGroupAssignments"]; de_Name file]]
                Happ Hgroup (or_intror (ex_intro _ _ eq_refl))) as Hprimary.
  pose proof (HQ oldAppID newAppID oldGroupID newGroupID ["--data"; "{}"]
                Happ Hgroup (or_introl eq_refl)) as Hdegraded.
  cbn [app] in Hprimary, Hdegraded.
  run_monad.
  repeat match goal with
         | |- context [match cmd_Run env ?h2 ?args with _ => _ end] =>
             destruct (cmd_Run env h2 args)
         end;
    cbn; repeat (constructor; [assumption|]); constructor.
Qed.

(** X8.  Every command of a custom restorer runs under identifiers that the
    store translates from old ones, never under an identifier of the backup:
    the membership handler adds a translated user to a translated group, the
    role handler assigns a role to a translated user, and the
    application-group handler, in its primary and in its degraded call,
    assigns a translated group to a translated application. *)
Theorem custom_restorers_translate
    (env : Env) (cfg : Config) (m : IDMapping) (inputDir : string) (h : History)
    (restorer : ResourceRestorer) :
  Forall (match restorer with
          | UserGroupsRestorer => membershipCommand cfg m
          | RoleAssignmentRestorer => roleCommand cfg m
          | ApplicationGroupsRestorer => assignmentCommand cfg m
          end)
         (execs (snd (Restore env restorer cfg m inputDir h))).
Proof.
  destruct restorer; cbn [Restore].
  - apply ApplicationGroupsRestorer_Restore_execs.
    intros oldAppID newAppID oldGroupID newGroupID payload Happ Hgroup Hpayload.
    exists oldAppID, newAppID, oldGroupID, newGroupID, payload. auto.
  - apply UserGroupsRestorer_Restore_execs.
    intros oldUserID newUserID oldGroupID newGroupID Huser Hgroup.
    exists oldUserID, newUserID, oldGroupID, newGroupID. auto.
  - apply RoleAssignmentRestorer_Restore_execs.
    intros oldUserID newUserID roleType Huser.
    exists oldUserID, newUserID, roleType. auto.
Qed.

(** X9.  The application-group handler reads record files only from its
    top directory.  When every entry of that directory is a directory (the
    layout dependent records are persisted in, one directory per source
    identifier), the handler counts the entries in its first line and then
    reads no file and runs no command. *)
Theorem application_group_handler_ignores_subdirectories
    (env : Env) (cfg : Config) (m : IDMapping) (inputDir : string)
    (entries : list DirEntry) (h : History) :
  let assignmentsDir :=
    Join env [inputDir; "applicationgroups"; "listApplicationGroupAssignments"] in
  os_Stat_IsNotExist env h assignmentsDir = false ->
  os_ReadDir env (h ++ [EvStat assignmentsDir]) assignmentsDir = Ok entries ->
  Forall (fun entry => de_IsDir entry = true) entries ->
  ApplicationGroupsRestorer_Restore env cfg m inputDir h
  = (None,
     [EvStat assignmentsDir; EvReadDir assignmentsDir;
      EvPrint ("Found " +:+ pretty (length entries)
               +:+ " application group assignments to restore")]).
Proof.
  cbn zeta. intros Hstat Hread Hdirs.
  assert (Hloop : forall h', forEach entries
                    (ApplicationGroupsRestorer_file env cfg m
                       (Join env [inputDir; "applicationgroups";
                                  "listApplicationGroupAssignments"])) h'
                  = (tt, [])).
  { clear Hread. induction Hdirs as [|entry entries Hentry _ IH]; intros h';
      [reflexivity|].
    cbn [forEach]. unfold bind.
    assert (Hskip : forall h1, ApplicationGroupsRestorer_file env cfg m
                      (Join env [inputDir; "applicationgroups";
                                 "listApplicationGroupAssignments"]) entry h1
                    = (tt, [])).
    { intros h1. unfold ApplicationGroupsRestorer_file, isJSONFile.
      rewrite Hentry. reflexivity. }
    rewrite Hskip. cbn [fst snd app]. rewrite IH. reflexivity. }
  apply injective_projections.
  - unfold ApplicationGroupsRestorer_Restore. cbn zeta. rewrite bind_fst. cbn beta.
    change (fst (Stat_IsNotExist env ?p h)) with (os_Stat_IsNotExist env h p).
    rewrite Hstat. rewrite bind_fst. cbn beta.
    change (snd (Stat_IsNotExist env ?p h)) with [EvStat p].
    change (fst (ReadDir env ?p ?h')) with (os_ReadDir env h' p).
    rewrite Hread. reflexivity.
  - unfold ApplicationGroupsRestorer_Restore. cbn zeta. rewrite bind_snd. cbn beta.
    change (fst (Stat_IsNotExist env ?p h)) with (os_Stat_IsNotExist env h p).
    rewrite Hstat. rewrite bind_snd. cbn beta.
    change (snd (Stat_IsNotExist env ?p h)) with [EvStat p].
    change (fst (ReadDir env ?p ?h')) with (os_ReadDir env h' p).
    rewrite Hread. rewrite !bind_snd. rewrite Hloop. reflexivity.
Qed.

Lemma application_group_handler_ignores_subdirectories_witness :
  ApplicationGroupsRestorer_Restore (Sim.env Sample2.world) Sim.cfg Sample.mappings
    "backup" []
  = (None,
     [EvStat "backup/applicationgroups/listApplicationGroupAssignments";
      EvReadDir "backup/applicationgroups/listApplicationGroupAssignments";
      EvPrint "Found 1 application group assignments to restore"]).
Proof.
  apply (application_group_handler_ignores_subdirectories (Sim.env Sample2.world)
           Sim.cfg Sample.mappings "backup" [Sim.dir "a1"] []).
  - reflexivity.
  - reflexivity.
  - repeat constructor.
Defined.

(** ** The commands of a whole restore *)

Lemma forEachS_execs_Forall {A S} (Q : list string -> Prop) (body : A -> S -> M S) l :
  (forall x s h, x ∈ l -> Forall Q (execs (snd (body x s h)))) ->
  forall s h, Forall Q (execs (snd (forEachS l body s h))).
Proof.
  induction l as [|x l IH]; intros Hbody s h; cbn [forEachS].
  - constructor.
  - rewrite bind_execs. apply Forall_app; split.
    + apply Hbody. left.
    + apply IH. intros y s' h' Hy. apply Hbody. right. exact Hy.
Qed.

Lemma warnOnError_execs prefix err h : execs (snd (warnOnError prefix err h)) = [].
Proof. destruct err; reflexivity. Qed.

Lemma Load_execs env m h : execs (snd (Load env m h)) = [].
Proof.
  unfold Load. rewrite bind_execs. cbn beta.
  destruct (fst (Stat_IsNotExist env _ h)); [reflexivity|].
  rewrite bind_execs. cbn beta.
  destruct (fst (ReadFile env _ _)); reflexivity.
Qed.

Lemma AddMapping_execs env m resourceType oldID newID h :
  execs (snd (AddMapping env m resourceType oldID newID h)) = [].
Proof.
  unfold AddMapping, Save. cbn zeta. rewrite bind_execs.
  destruct (json_MarshalIndent env _); reflexivity.
Qed.

Lemma restoreSingletonResources_execs env cfg config inputDir h :
  Forall (createOf cfg (SingletonResources config))
         (execs (snd (restoreSingletonResources env cfg config inputDir h))).
Proof.
  unfold restoreSingletonResources. rewrite bind_execs. cbn [app]. rewrite app_nil_r.
  apply forEach_execs_Forall. intros resource h1 Hresource.
  unfold restoreSingletonResource. cbn zeta. rewrite bind_execs. cbn beta.
  destruct (fst (Stat_IsNotExist env _ h1)); [constructor|].
  rewrite !bind_execs. cbn beta.
  destruct (fst (ReadDir env _ _)) as [files|e]; [|constructor].
  apply forEach_execs_Forall. intros file h2 _.
  rewrite restoreSingletonFile_execs.
  destruct (isJSONFile file); [|constructor].
  constructor; [|constructor]. eexists _, _. split; [exact Hresource|reflexivity].
Qed.

Lemma restoreFirstPassResources_execs env cfg config inputDir m h :
  Forall (createOf cfg (FirstPassResources config))
         (execs (snd (restoreFirstPassResources env cfg config inputDir m h))).
Proof.
  unfold restoreFirstPassResources. rewrite bind_execs. cbn [app]. rewrite app_nil_r.
  apply forEachS_execs_Forall. intros resource m1 h1 Hresource.
  unfold restoreFirstPassResource.
  destruct (String.eqb (ListCommand resource) ""); [constructor|].
  cbn zeta. rewrite bind_execs. cbn beta.
  destruct (fst (Stat_IsNotExist env _ h1)); [constructor|].
  rewrite !bind_execs. cbn beta.
  destruct (fst (ReadDir env _ _)) as [files|e]; [|constructor].
  apply forEachS_execs_Forall. intros file m2 h2 _.
  unfold restoreFirstPassFile.
  destruct (isJSONFile file); [|constructor].
  cbn zeta. rewrite !bind_execs. cbn beta.
  rewrite restoreResource_snd.
  apply Forall_app. split; [constructor|].
  apply Forall_app. split.
  - constructor; [|constructor]. eexists _, _. split; [exact Hresource|reflexivity].
  - destruct (fst (restoreResource _ _ _ _ _)); [|constructor].
    rewrite bind_execs, AddMapping_execs. constructor.
Qed.

(** The commands of the generic second pass, one per record file below a
    subdirectory whose name resolves. *)
Lemma restoreSecondPassResources_execs (Q : list string -> Prop)
    env cfg config inputDir m h :
  (forall resource oldSourceID newSourceID filePath args,
      resource ∈ SecondPassResources config ->
      customRestorers !! Name resource = None ->
      GetNewID m (SourceIDDir resource) oldSourceID = Some newSourceID ->
      secondPassCommand cfg resource
        (getParameterFlagForResource (SourceIDDir resource)) newSourceID filePath
      = Some args ->
      Q args) ->
  Forall Q (execs (snd (restoreSecondPassResources env cfg config inputDir m h))).
Proof.
  intros HQ.
  unfold restoreSecondPassResources. rewrite bind_execs. cbn [app]. rewrite app_nil_r.
  apply forEach_execs_Forall. intros resource h1 Hresource.
  unfold restoreSecondPassResource.
  destruct (customRestorers !! Name resource) eqn:Hcustom; [constructor|].
  cbn zeta. rewrite bind_execs. cbn beta.
  destruct (fst (Stat_IsNotExist env _ h1)); [constructor|].
  rewrite !bind_execs. cbn beta.
  destruct (fst (ReadDir env _ _)) as [subdirs|e]; [|constructor].
  apply forEach_execs_Forall. intros subdir h2 _.
  unfold restoreSecondPassSubdir.
  destruct (de_IsDir subdir); [|constructor].
  destruct (GetNewID m (SourceIDDir resource) (de_Name subdir))
    as [newSourceID|] eqn:Hnew; [|constructor].
  cbn zeta. rewrite bind_execs. cbn beta.
  destruct (fst (ReadDir env _ h2)) as [files|e]; [|constructor].
  apply forEach_execs_Forall. intros file h3 _.
  rewrite restoreSecondPassFile_execs.
  destruct (isJSONFile file); [|constructor].
  destruct (secondPassCommand _ _ _ _ _) as [args|] eqn:Hcommand; [|constructor].
  constructor; [|constructor]. eapply HQ; eauto.
Qed.

(** X10.  Every command of the generic second pass belongs to a descriptor
    without a custom restorer and is built for a source identifier that the
    store translates from an old one: the pass never runs a command with an
    identifier of the backup as its source, for any catalog, tree and
    backend.  The pass returns no error. *)
Theorem second_pass_translates
    (env : Env) (cfg : Config) (config : BackupConfig) (inputDir : string)
    (m : IDMapping) (h : History) :
  Forall (genericCommand cfg config m)
         (execs (snd (restoreSecondPassResources env cfg config inputDir m h))) /\
  fst (restoreSecondPassResources env cfg config inputDir m h) = None.
Proof.
  split; [|reflexivity].
  apply restoreSecondPassResources_execs.
  intros resource oldSourceID newSourceID filePath args Hin Hcustom Hnew Hcommand.
  exists resource, oldSourceID, newSourceID, filePath. auto.
Qed.

Lemma restoreSpecial_execs env cfg m inputDir entry h :
  Forall (specialShape cfg) (execs (snd (restoreSpecial env cfg m inputDir entry h))).
Proof.
  unfold restoreSpecial. rewrite !bind_execs, warnOnError_execs. cbn [app].
  rewrite app_nil_r. cbn beta.
  destruct (snd entry); cbn [Restore].
  - apply ApplicationGroupsRestorer_Restore_execs. intros.
    eexists. right. right. reflexivity.
  - apply UserGroupsRestorer_Restore_execs. intros. eexists. left. reflexivity.
  - apply RoleAssignmentRestorer_Restore_execs. intros.
    eexists. right. left. reflexivity.
Qed.

(** X11.  The commands of a restore come in four blocks, in this order:
    creates of singleton files, creates of first-pass files, commands of the
    generic second pass for descriptors without a custom restorer, and
    commands of the custom restorers.  This holds for every tree, backend
    and order of the custom restorers, and whether or not the mapping file
    could be loaded. *)
Theorem restore_phase_order
    (env : Env) (cfg : Config) (inputDir : string)
    (rangeOrder : list (string * ResourceRestorer)) (h : History) :
  exists singletons firsts generics specials,
    execs (snd (PerformRestore env cfg inputDir rangeOrder h))
    = singletons ++ firsts ++ generics ++ specials /\
    Forall (createOf cfg (SingletonResources GetBackupConfig)) singletons /\
    Forall (createOf cfg (FirstPassResources GetBackupConfig)) firsts /\
    Forall (genericShape cfg GetBackupConfig) generics /\
    Forall (specialShape cfg) specials.
Proof.
  unfold PerformRestore. cbn zeta.
  rewrite bind_execs, Load_execs. cbn beta. cbn [app].
  rewrite bind_execs. cbn beta.
  assert (Hnote : forall (err : option string) h',
             execs (snd (match err with
                         | Some _ => Println "Creating new ID mapping"
                         | None => ret tt
                         end h')) = []).
  { intros [e|] h'; reflexivity. }
  rewrite Hnote. cbn [app].
  repeat (rewrite bind_execs; cbn beta);
    rewrite ?Println_execs, ?warnOnError_execs; cbn [app].
  rewrite ?Println_execs, ?warnOnError_execs. cbn [app].
  change (execs (snd (ret (A:=option string) None _))) with (@nil (list string)).
  rewrite ?app_nil_r.
  eexists _, _, _, _. split; [reflexivity|]. repeat split.
  - apply restoreSingletonResources_execs.
  - apply restoreFirstPassResources_execs.
  - apply restoreSecondPassResources_execs.
    intros resource oldSourceID newSourceID filePath args Hin Hcustom _ Hcommand.
    exists resource, newSourceID, filePath. auto.
  - apply forEach_execs_Forall. intros entry h' _. apply restoreSpecial_execs.
Qed.

(** ** More on the backup *)

Lemma eqb_empty_true s : String.eqb s "" = true <-> s = "".
Proof. apply String.eqb_eq. Qed.

Lemma backupPasses_ends_with_summary env cfg outputDir h :
  exists before,
    snd (backupPasses env cfg outputDir h)
    = before ++ [EvPrint "Backup completed successfully!"].
Proof.
  unfold backupPasses. cbn zeta.
  repeat first [ apply Println_ends_with
               | apply bind_ends_with; intros; cbn beta zeta ].
Qed.

(** X12.  [PerformBackup] fails in one case only: no output directory was
    given and the home directory cannot be found; then it has run nothing.
    In every other case it returns no error and its last line is the success
    line, even when the backend rejected every command. *)
Theorem backup_fails_only_without_directory
    (env : Env) (cfg : Config) (outputDir : string) (h : History) :
  let run := PerformBackup env cfg outputDir h in
  (forall e,
      fst run = Some e <->
      outputDir = "" /\
      exists cause, os_UserHomeDir env h = Err cause /\
                    e = "error getting user home directory: " +:+ cause) /\
  (fst run <> None -> snd run = [EvUserHomeDir]) /\
  (fst run = None ->
   exists before, snd run = before ++ [EvPrint "Backup completed successfully!"]).
Proof.
  cbn zeta. unfold PerformBackup.
  destruct (String.eqb outputDir "") eqn:Hdir.
  - apply eqb_empty_true in Hdir. subst outputDir.
    rewrite bind_fst, bind_snd. cbn beta.
    change (fst (UserHomeDir env h)) with (os_UserHomeDir env h).
    change (snd (UserHomeDir env h)) with [EvUserHomeDir].
    destruct (os_UserHomeDir env h) as [home|cause].
    + split; [|split].
      * intros e. split; [discriminate|].
        intros (_ & cause & Hcause & _). discriminate Hcause.
      * intros Hfail. exfalso. apply Hfail. reflexivity.
      * intros _.
        destruct (backupPasses_ends_with_summary env cfg
                    (Join env [home; ".okta"; OrgName cfg]) (h ++ [EvUserHomeDir]))
          as [before ->].
        exists (EvUserHomeDir :: before). reflexivity.
    + split; [|split].
      * intros e. cbn [ret fst]. split.
        -- intros [= <-]. split; [reflexivity|]. eauto.
        -- intros (_ & cause' & [= <-] & ->). reflexivity.
      * intros _. reflexivity.
      * discriminate.
  - assert (Hne : outputDir <> "").
    { intros Hempty. apply eqb_empty_true in Hempty. congruence. }
    split; [|split].
    + intros e. split; [discriminate|]. intros [Hempty _]. contradiction.
    + intros Hfail. exfalso. apply Hfail. reflexivity.
    + intros _. apply backupPasses_ends_with_summary.
Qed.

Lemma backup_fails_only_without_directory_witness :
  exists before,
    snd (PerformBackup (Sim.env Sample.worldRejecting) Sim.cfg "backup" [])
    = before ++ [EvPrint "Backup completed successfully!"].
Proof.
  apply (proj2 (proj2 (backup_fails_only_without_directory
                         (Sim.env Sample.worldRejecting) Sim.cfg "backup" []))).
  reflexivity.
Defined.

(** X13.  The second pass of backup for one descriptor: when the source
    directory is missing or cannot be listed, one warning and no command;
    otherwise one list command per identifier found there, in directory
    order, each with the flag of the descriptor's name and the identifier as
    its value, whatever the backend answers to the earlier ones.  With no
    identifier in the directory that is no command at all. *)
Theorem backup_second_pass_commands
    (env : Env) (cfg : Config) (outputDir : string)
    (resource : BackupConfigResource) (h : History) :
  let sourceDir := Join env [outputDir; SourceIDDir resource; "lists"] in
  let run := backupSecondPassResource env cfg outputDir resource h in
  (os_Stat_IsNotExist env h sourceDir = true ->
   run = (tt, [EvStat sourceDir;
               EvPrint ("Warning: Source directory " +:+ sourceDir +:+ " not found for "
                        +:+ Name resource +:+ ", skipping...")])) /\
  (forall e,
      os_Stat_IsNotExist env h sourceDir = false ->
      os_ReadDir env (h ++ [EvStat sourceDir]) sourceDir = Err e ->
      run = (tt, [EvStat sourceDir; EvReadDir sourceDir;
                  EvPrint ("Warning: Failed to get IDs from " +:+ sourceDir +:+ ": "
                           +:+ "failed to read directory: " +:+ e)])) /\
  (forall entries,
      os_Stat_IsNotExist env h sourceDir = false ->
      os_ReadDir env (h ++ [EvStat sourceDir]) sourceDir = Ok entries ->
      execs (snd run)
      = secondPassBackupCommand cfg outputDir resource
          <$> (List.map (fun entry => strings.TrimSuffix (de_Name entry) ".json")
                 (List.filter
                    (fun entry =>
                       de_IsRegular entry && strings.HasSuffix (de_Name entry) ".json")
                    entries))).
Proof.
  cbn zeta. unfold backupSecondPassResource. cbn zeta. split; [|split].
  - intros Hstat. unfold bind. cbn [Stat_IsNotExist fst snd]. rewrite Hstat. reflexivity.
  - intros e Hstat Hread. unfold bind, getResourceIDsFromDirectory, bind.
    cbn [Stat_IsNotExist ReadDir ret fst snd]. rewrite Hstat. cbn [fst snd].
    rewrite Hread. reflexivity.
  - intros entries Hstat Hread. rewrite bind_execs. cbn beta.
    change (fst (Stat_IsNotExist env ?p h)) with (os_Stat_IsNotExist env h p).
    rewrite Hstat. rewrite bind_execs. cbn beta.
    unfold getResourceIDsFromDirectory at 2. rewrite bind_fst. cbn beta.
    change (snd (Stat_IsNotExist env ?p h)) with [EvStat p].
    change (fst (ReadDir env ?p ?h')) with (os_ReadDir env h' p).
    rewrite Hread. cbn [ret fst].
    set (ids := List.map _ _).
    destruct ids as [|id ids]; [reflexivity|].
    cbn [length Nat.eqb]. rewrite bind_execs.
    rewrite (forEach_execs (fun id => [secondPassBackupCommand cfg outputDir resource id]))
      by (intros; apply backupSecondPassID_execs).
    rewrite concat_singletons. reflexivity.
Qed.

Lemma backup_second_pass_commands_witness :
  execs (snd (backupSecondPassResource (Sim.env Sample2.worldRejecting) Sim.cfg "backup"
                (secondPass "group" "listUsers" "group") []))
  = [["group"; "listUsers"; "--groupId"; "g1"; "--batch-backup"; "--backup-dir"; "backup"];
     ["group"; "listUsers"; "--groupId"; "g2"; "--batch-backup"; "--backup-dir"; "backup"]].
Proof.
  apply (proj2 (proj2 (backup_second_pass_commands (Sim.env Sample2.worldRejecting)
                         Sim.cfg "backup" (secondPass "group" "listUsers" "group") []))
               [Sim.file "g1.json"; Sim.file "g2.json"; Sim.dir "archive"]).
  - reflexivity.
  - reflexivity.
Defined.

(** ** File names as identifiers *)

Lemma length_append s t : String.length (s +:+ t) = String.length s + String.length t.
Proof.
  induction s as [|c s IH]; [reflexivity|].
  change (String c s +:+ t) with (String c (s +:+ t)).
  cbn [String.length]. rewrite IH. reflexivity.
Qed.

Lemma substring_append_l s t :
  String.substring 0 (String.length s) (s +:+ t) = s.
Proof.
  induction s as [|c s IH].
  - destruct t; reflexivity.
  - cbn [String.length]. change (String c s +:+ t) with (String c (s +:+ t)).
    cbn [String.substring]. rewrite IH. reflexivity.
Qed.

Lemma substring_append_r s t :
  String.substring (String.length s) (String.length t) (s +:+ t) = t.
Proof.
  induction s as [|c s IH].
  - apply substring_all.
  - cbn [String.length]. change (String c s +:+ t) with (String c (s +:+ t)).
    cbn [String.substring]. exact IH.
Qed.

(** Appending a suffix and trimming it gives the text back. *)
Lemma TrimSuffix_append s suffix :
  strings.HasSuffix (s +:+ suffix) suffix = true /\
  strings.TrimSuffix (s +:+ suffix) suffix = s.
Proof.
  assert (Hhas : strings.HasSuffix (s +:+ suffix) suffix = true).
  { unfold strings.HasSuffix. rewrite length_append.
    replace (String.length s + String.length suffix - String.length suffix)
      with (String.length s) by lia.
    rewrite substring_append_r, String.eqb_refl, andb_true_r.
    apply Nat.leb_le. lia. }
  split; [exact Hhas|].
  unfold strings.TrimSuffix. rewrite Hhas, length_append.
  replace (String.length s + String.length suffix - String.length suffix)
    with (String.length s) by lia.
  apply substring_append_l.
Qed.

(** X14.  The file name is the identifier: for a directory that holds the
    records as regular files [<id>.json], the enumeration the second pass of
    backup starts from returns exactly the identifiers, in directory order,
    and so does the reading of old identifiers in the first pass of restore.
    This holds for every identifier, the empty one and those that contain
    dots or end in [.json] included. *)
Theorem file_names_give_identifiers_back
    (env : Env) (dirPath : string) (ids : list string) (h : History) :
  let entries :=
    (fun id => {| de_Name := id +:+ ".json"; de_IsDir := false; de_IsRegular := true |})
      <$> ids in
  os_ReadDir env h dirPath = Ok entries ->
  fst (getResourceIDsFromDirectory env dirPath h) = Ok ids /\
  oldIDs entries = ids.
Proof.
  cbn zeta. intros Hread.
  assert (Hids : forall keep,
             (forall id, keep {| de_Name := id +:+ ".json"; de_IsDir := false;
                                 de_IsRegular := true |} = true) ->
             List.map (fun entry => strings.TrimSuffix (de_Name entry) ".json")
               (List.filter keep
                  ((fun id => {| de_Name := id +:+ ".json"; de_IsDir := false;
                                 de_IsRegular := true |}) <$> ids))
             = ids).
  { clear Hread. intros keep Hkeep. induction ids as [|id ids IH]; [reflexivity|].
    cbn [fmap list_fmap List.filter]. rewrite Hkeep. cbn [List.map de_Name].
    rewrite (proj2 (TrimSuffix_append id ".json")). f_equal. apply IH. }
  split.
  - unfold getResourceIDsFromDirectory. rewrite bind_fst. cbn beta.
    change (fst (ReadDir env dirPath h)) with (os_ReadDir env h dirPath).
    rewrite Hread. cbn [ret fst]. f_equal. apply Hids.
    intros id. cbn [de_IsRegular de_Name andb].
    apply (proj1 (TrimSuffix_append id ".json")).
  - unfold oldIDs. apply Hids.
    intros id. unfold isJSONFile. cbn [de_IsDir de_Name negb andb].
    apply (proj1 (TrimSuffix_append id ".json")).
Qed.

Lemma file_names_give_identifiers_back_witness :
  fst (getResourceIDsFromDirectory (Sim.env Sample.world)
         "backup/authorizationserver/lists" [])
  = Ok ["as1"; "as2"].
Proof.
  apply (file_names_give_identifiers_back (Sim.env Sample.world)
           "backup/authorizationserver/lists" ["as1"; "as2"] []).
  reflexivity.
Defined.

(** X15.  Backup and restore read the same identifiers off a directory as
    long as each of its entries is either a directory or a regular file:
    backup keeps the regular files that end in [.json], restore the entries
    that are no directory and end in [.json]. *)
Theorem backup_and_restore_read_the_same_identifiers
    (env : Env) (dirPath : string) (entries : list DirEntry) (h : History) :
  os_ReadDir env h dirPath = Ok entries ->
  Forall (fun entry => de_IsRegular entry = negb (de_IsDir entry)) entries ->
  fst (getResourceIDsFromDirectory env dirPath h) = Ok (oldIDs entries).
Proof.
  intros Hread Hkinds.
  unfold getResourceIDsFromDirectory. rewrite bind_fst. cbn beta.
  change (fst (ReadDir env dirPath h)) with (os_ReadDir env h dirPath).
  rewrite Hread. cbn [ret fst]. f_equal. unfold oldIDs. clear Hread.
  induction Hkinds as [|entry entries Hkind _ IH]; [reflexivity|].
  cbn [List.filter]. unfold isJSONFile at 1. rewrite Hkind.
  destruct (negb (de_IsDir entry) && strings.HasSuffix (de_Name entry) ".json").
  - cbn [List.map fmap list_fmap]. f_equal. exact IH.
  - exact IH.
Qed.

Lemma backup_and_restore_read_the_same_identifiers_witness :
  fst (getResourceIDsFromDirectory (Sim.env Sample2.world) "backup/group/lists" [])
  = Ok ["g1"; "g2"].
Proof.
  apply (backup_and_restore_read_the_same_identifiers (Sim.env Sample2.world)
           "backup/group/lists"
           [Sim.file "g1.json"; Sim.file "g2.json"; Sim.dir "archive"] []).
  - reflexivity.
  - repeat constructor.
Defined.

(** ** The developer organization of [main.go] *)

Lemma TrimPrefix_append prefix s :
  strings.HasPrefix (prefix +:+ s) prefix = true /\
  strings.TrimPrefix (prefix +:+ s) prefix = s.
Proof.
  assert (Hhas : strings.HasPrefix (prefix +:+ s) prefix = true).
  { unfold strings.HasPrefix.
    rewrite length_append, substring_append_l, String.eqb_refl, andb_true_r.
    apply Nat.leb_le. lia. }
  split; [exact Hhas|].
  unfold strings.TrimPrefix. rewrite Hhas, length_append.
  replace (String.length prefix + String.length s - String.length prefix)
    with (String.length s) by lia.
  apply substring_append_r.
Qed.

Lemma TrimPrefix_HasPrefix s prefix :
  strings.HasPrefix s prefix = true ->
  s = prefix +:+ strings.TrimPrefix s prefix.
Proof.
  intros Hpre. unfold strings.TrimPrefix. rewrite Hpre.
  unfold strings.HasPrefix in Hpre. apply andb_true_iff in Hpre as [Hlen Heq].
  apply Nat.leb_le in Hlen. apply String.eqb_eq in Heq.
  pose proof (substring_split s (String.length prefix) Hlen) as Hs.
  rewrite Heq in Hs. exact Hs.
Qed.

(** The run of digits and the rest make up the text. *)
Lemma digits_split s :
  s = fst (devPattern.digits s) +:+ snd (devPattern.digits s) /\
  devPattern.allDigits (fst (devPattern.digits s)) = true.
Proof.
  induction s as [|c s [IHs IHd]]; [split; reflexivity|].
  cbn [devPattern.digits]. destruct (devPattern.isDigit c) eqn:Hc.
  - cbn [fst snd devPattern.allDigits]. rewrite Hc, IHd. split; [|reflexivity].
    change (String c ?a +:+ ?b) with (String c (a +:+ b)). f_equal. exact IHs.
  - split; reflexivity.
Qed.

(** A run of digits followed by a dot is read as that run. *)
Lemma digits_before_dot ds rest :
  devPattern.allDigits ds = true ->
  devPattern.digits (ds +:+ String "." rest) = (ds, String "." rest).
Proof.
  induction ds as [|c ds IH]; intros Hds; [reflexivity|].
  cbn [devPattern.allDigits] in Hds. apply andb_true_iff in Hds as [Hc Hds].
  change (String c ds +:+ ?b) with (String c (ds +:+ b)).
  cbn [devPattern.digits]. rewrite Hc, (IH Hds). reflexivity.
Qed.

(** The texts the pattern accepts, and the group it returns. *)
Lemma FindStringSubmatch_Some text org :
  devPattern.FindStringSubmatch text = Some org <->
  exists ds, ds <> "" /\ devPattern.allDigits ds = true /\
             text = "dev-" +:+ ds +:+ ".okta.com" /\ org = "dev-" +:+ ds.
Proof.
  unfold devPattern.FindStringSubmatch. split.
  - destruct (strings.HasPrefix text "dev-") eqn:Hpre; [|discriminate].
    apply TrimPrefix_HasPrefix in Hpre.
    destruct (digits_split (strings.TrimPrefix text "dev-")) as [Hsplit Hds].
    destruct (negb (String.eqb (fst (devPattern.digits (strings.TrimPrefix text "dev-"))) "")
              && String.eqb (snd (devPattern.digits (strings.TrimPrefix text "dev-")))
                   ".okta.com") eqn:Hshape; [|discriminate].
    apply andb_true_iff in Hshape as [Hne Hrest].
    apply negb_true_iff, String.eqb_neq in Hne. apply String.eqb_eq in Hrest.
    intros [= <-].
    exists (fst (devPattern.digits (strings.TrimPrefix text "dev-"))).
    split; [exact Hne|]. split; [exact Hds|]. split; [|reflexivity].
    rewrite Hrest in Hsplit. rewrite Hpre at 1. rewrite Hsplit at 1. reflexivity.
  - intros (ds & Hne & Hds & -> & ->).
    destruct (TrimPrefix_append "dev-" (ds +:+ ".okta.com")) as [Hpre Htrim].
    rewrite Hpre, Htrim, (digits_before_dot ds "okta.com" Hds). cbn [fst snd].
    apply String.eqb_neq in Hne. rewrite Hne. reflexivity.
Qed.

(** X16.  A domain counts as a developer organization exactly when it is
    [dev-], a non-empty run of ASCII digits, and [.okta.com], with nothing
    before or after.  For such a domain the organization name is the domain
    without [.okta.com]; for every other text [extractOrgName] gives the
    text back unchanged, so the two patterns of [main.go] never disagree. *)
Theorem developer_org_name (domain : string) :
  (IsDeveloperOrg domain = true <->
   exists ds, ds <> "" /\ devPattern.allDigits ds = true /\
              domain = "dev-" +:+ ds +:+ ".okta.com") /\
  (IsDeveloperOrg domain = true -> domain = extractOrgName domain +:+ ".okta.com") /\
  (IsDeveloperOrg domain = false -> extractOrgName domain = domain).
Proof.
  unfold IsDeveloperOrg, extractOrgName, devPattern.MatchString.
  destruct (devPattern.FindStringSubmatch domain) as [org|] eqn:Hfind.
  - apply FindStringSubmatch_Some in Hfind as (ds & Hne & Hds & Hdomain & Horg).
    split; [|split].
    + split; [|reflexivity]. intros _. exists ds. auto.
    + intros _. rewrite Horg, Hdomain. reflexivity.
    + discriminate.
  - split; [|split].
    + split; [discriminate|]. intros (ds & Hne & Hds & Hdomain).
      assert (Hsome : devPattern.FindStringSubmatch domain = Some ("dev-" +:+ ds)).
      { apply FindStringSubmatch_Some. exists ds. auto. }
      rewrite Hsome in Hfind. discriminate Hfind.
    + discriminate.
    + reflexivity.
Qed.

Lemma developer_org_name_witness :
  "dev-12345.okta.com" = extractOrgName "dev-12345.okta.com" +:+ ".okta.com" /\
  extractOrgName "dev-12345.okta.com.evil.example" = "dev-12345.okta.com.evil.example".
Proof.
  split.
  - apply (proj1 (proj2 (developer_org_name "dev-12345.okta.com"))). reflexivity.
  - apply (proj2 (proj2 (developer_org_name "dev-12345.okta.com.evil.example"))).
    reflexivity.
Defined.

(** X17.  The organization URLs that pass the developer check of
    [LoadConfig], which strips [https://] and then matches: the developer
    domain with the scheme [https://], and the bare developer domain with no
    scheme at all.  Any other scheme, a path or a port is turned down. *)
Theorem accepted_organization_urls (url : string) :
  IsDeveloperOrg (extractDomainFromUrl url) = true <->
  exists ds, ds <> "" /\ devPattern.allDigits ds = true /\
             (url = "https://" +:+ "dev-" +:+ ds +:+ ".okta.com" \/
              url = "dev-" +:+ ds +:+ ".okta.com").
Proof.
  unfold IsDeveloperOrg, devPattern.MatchString, extractDomainFromUrl. split.
  - destruct (devPattern.FindStringSubmatch (strings.TrimPrefix url "https://"))
      as [org|] eqn:Hfind; [|discriminate].
    intros _. apply FindStringSubmatch_Some in Hfind as (ds & Hne & Hds & Hdomain & _).
    exists ds. split; [exact Hne|]. split; [exact Hds|].
    destruct (strings.HasPrefix url "https://") eqn:Hpre.
    + left. rewrite (TrimPrefix_HasPrefix _ _ Hpre) at 1. rewrite Hdomain. reflexivity.
    + right. unfold strings.TrimPrefix in Hdomain. rewrite Hpre in Hdomain. exact Hdomain.
  - intros (ds & Hne & Hds & [-> | ->]).
    + rewrite (proj2 (TrimPrefix_append "https://" ("dev-" +:+ ds +:+ ".okta.com"))).
      assert (Hsome : devPattern.FindStringSubmatch ("dev-" +:+ ds +:+ ".okta.com")
                      = Some ("dev-" +:+ ds)).
      { apply FindStringSubmatch_Some. exists ds. auto. }
      rewrite Hsome. reflexivity.
    + assert (Hpre : strings.HasPrefix ("dev-" +:+ ds +:+ ".okta.com") "https://" = false).
      { unfold strings.HasPrefix. apply andb_false_iff. right. reflexivity. }
      unfold strings.TrimPrefix. rewrite Hpre.
      assert (Hsome : devPattern.FindStringSubmatch ("dev-" +:+ ds +:+ ".okta.com")
                      = Some ("dev-" +:+ ds)).
      { apply FindStringSubmatch_Some. exists ds. auto. }
      rewrite Hsome. reflexivity.
Qed.

Lemma accepted_organization_urls_witness :
  IsDeveloperOrg (extractDomainFromUrl "dev-7.okta.com") = true /\
  IsDeveloperOrg (extractDomainFromUrl "https://dev-7.okta.com") = true.
Proof.
  split.
  - apply (proj2 (accepted_organization_urls "dev-7.okta.com")).
    exists "7". split; [discriminate|]. split; [reflexivity|]. right. reflexivity.
  - apply (proj2 (accepted_organization_urls "https://dev-7.okta.com")).
    exists "7". split; [discriminate|]. split; [reflexivity|]. left. reflexivity.
Defined.

(** ** The two copies of the backup *)

Lemma bind_ext {A B} (c c' : M A) (k k' : A -> M B) h :
  c h = c' h -> (forall a h', k a h' = k' a h') -> bind c k h = bind c' k' h.
Proof. intros Hc Hk. unfold bind. rewrite Hc, Hk. reflexivity. Qed.

Lemma forEach_ext {A} (f g : A -> M unit) l :
  (forall x h, f x h = g x h) -> forall h, forEach l f h = forEach l g h.
Proof.
  intros Hfg. induction l as [|x l IH]; intros h; [reflexivity|].
  cbn [forEach]. apply bind_ext; [apply Hfg|]. intros _ h'. apply IH.
Qed.

(** X18.  The earlier copy of the backup and the current one differ only in
    the configuration file among the arguments: for a configuration without
    a configuration file both give the same result and the same trace, in
    every environment and after every history. *)
Theorem earlier_backup_agrees_without_configuration_file
    (env : Env) (cfg : Config) (outputDir : string) (h : History) :
  ConfigFilePath cfg = "" ->
  Legacy.PerformBackup env cfg outputDir h = PerformBackup env cfg outputDir h.
Proof.
  intros Hnone.
  assert (Hargs : forall args, PrepareOktaCliArgs cfg args = args).
  { intros args. unfold PrepareOktaCliArgs. rewrite Hnone. reflexivity. }
  assert (Hfirst : forall dir resource k,
             Legacy.backupFirstPassResource env dir resource k
             = backupFirstPassResource env cfg dir resource k).
  { intros dir resource k. unfold Legacy.backupFirstPassResource, backupFirstPassResource.
    rewrite Hargs. reflexivity. }
  assert (Hsingle : forall dir resource k,
             Legacy.backupSingletonResource env dir resource k
             = backupSingletonResource env cfg dir resource k).
  { intros dir resource k. unfold Legacy.backupSingletonResource, backupSingletonResource.
    rewrite Hargs. reflexivity. }
  assert (Hid : forall dir resource flag id k,
             Legacy.backupSecondPassID env dir resource flag id k
             = backupSecondPassID env cfg dir resource flag id k).
  { intros dir resource flag id k. unfold Legacy.backupSecondPassID, backupSecondPassID.
    rewrite Hargs. reflexivity. }
  assert (Hsecond : forall dir resource k,
             Legacy.backupSecondPassResource env dir resource k
             = backupSecondPassResource env cfg dir resource k).
  { intros dir resource k.
    unfold Legacy.backupSecondPassResource, backupSecondPassResource. cbn zeta.
    apply bind_ext; [reflexivity|]. intros [|] h1; [reflexivity|].
    apply bind_ext; [reflexivity|]. intros [ids|e] h2; [|reflexivity].
    destruct (length ids =? 0)%nat; [reflexivity|].
    apply bind_ext; [reflexivity|]. intros _ h3.
    apply forEach_ext. intros id h4. apply Hid. }
  assert (Hpasses : forall dir k,
             Legacy.backupPasses env dir k = backupPasses env cfg dir k).
  { intros dir k. unfold Legacy.backupPasses, backupPasses. cbn zeta.
    apply bind_ext; [reflexivity|]. intros _ h1.
    apply bind_ext; [apply forEach_ext, Hfirst|]. intros _ h2.
    apply bind_ext; [reflexivity|]. intros _ h3.
    apply bind_ext; [apply forEach_ext, Hsingle|]. intros _ h4.
    apply bind_ext; [reflexivity|]. intros _ h5.
    apply bind_ext; [|reflexivity].
    unfold Legacy.backupSecondPassResources, backupSecondPassResources.
    apply bind_ext; [apply forEach_ext, Hsecond|]. reflexivity. }
  unfold Legacy.PerformBackup, PerformBackup.
  destruct (String.eqb outputDir ""); [|apply Hpasses].
  apply bind_ext; [reflexivity|]. intros [home|e] h1; [apply Hpasses|reflexivity].
Qed.

Lemma earlier_backup_agrees_without_configuration_file_witness :
  Legacy.PerformBackup (Sim.env Sample2.world) Sim.cfg "backup" []
  = PerformBackup (Sim.env Sample2.world) Sim.cfg "backup" [].
Proof.
  apply (earlier_backup_agrees_without_configuration_file
           (Sim.env Sample2.world) Sim.cfg "backup" []).
  reflexivity.
Defined.

(** ** The two forms of a command of the generic second pass *)

(** X19.  Every command of the generic second pass has one of two forms,
    for any catalog, tree, store and backend.  A descriptor outside the
    assignment table gets a create under its own name from the persisted
    file.  A descriptor of the assignment table ([user]/[listGroups],
    [group]/[listUsers], [group]/[listAssignedApplicationsFor]) gets
    [addUserToGroup] with the translated source identifier as one endpoint
    and, as the other endpoint, the fixed text [TARGET_GROUP_ID] or
    [TARGET_USER_ID]: no identifier read from the persisted file. *)
Theorem second_pass_command_forms
    (env : Env) (cfg : Config) (config : BackupConfig) (inputDir : string)
    (m : IDMapping) (h : History) :
  Forall (fun args => dependentCreate cfg config args \/ placeholderCommand cfg args)
         (execs (snd (restoreSecondPassResources env cfg config inputDir m h))).
Proof.
  apply restoreSecondPassResources_execs.
  intros resource oldSourceID newSourceID filePath args Hin _ _ Hcommand.
  unfold secondPassCommand in Hcommand.
  destruct (isAssignmentResource (Name resource) (ListCommand resource)) eqn:Hassign.
  - right. unfold buildAssignmentCommand in Hcommand.
    destruct (String.eqb (Name resource) "user").
    + destruct (String.eqb _ "userId"); [|discriminate Hcommand].
      injection Hcommand as <-. exists newSourceID, filePath. left. reflexivity.
    + destruct (String.eqb (Name resource) "group"); [|discriminate Hcommand].
      destruct (String.eqb _ "groupId"); [|discriminate Hcommand].
      injection Hcommand as <-. exists newSourceID, filePath. right. reflexivity.
  - left. injection Hcommand as <-.
    exists resource, (getParameterFlagForResource (SourceIDDir resource)),
      newSourceID, filePath.
    auto.
Qed.

(** On the sample the memberships of the group reach the backend with the
    fixed text as the user. *)
Example second_pass_sample_sends_placeholder :
  ["user"; "addUserToGroup"; "--groupId"; "n-g1"; "--userId"; "TARGET_USER_ID";
   "--assignment-file"; "backup/group/listUsers/g1/u1.json"]
  ∈ execs (snd (restoreSecondPassResources (Sim.env Sample.world) Sim.cfg
                  GetBackupConfig "backup" Sample.mappings [])).
Proof. vm_compute. in_list. Qed.
